(** * barber-bot: the multi-tenant WhatsApp session manager

    A shallow embedding of the three multi-tenant revisions of the server
    found in the repository, and of the prototype that came before them:

    - [ServerTs]  : src/server.ts
    - [Part001]   : src/unnamed/part_001
    - [Part000]   : the second document of src/unnamed/part_000 (the one
                    that adds the [@lid] sender fallback)
    - [Part000Single] : the first document of src/unnamed/part_000, a
                    single-instance prototype without a registry, on a
                    state of its own

    The Express routes and the Baileys event handlers are functions on an
    explicit [World]: the two module-level [Map]s, the objects returned by
    [makeWASocket] (kept by reference), the credential directories under
    [auth_info_baileys], and a log of every call that leaves the process
    ([axios.post], [sock.sendMessage], [sock.logout], [sock.end]). *)

From Stdlib Require Import Ascii String Bool Arith Lia.
From stdpp Require Import base option list gmap sets strings.

Open Scope string_scope.
Open Scope list_scope.
Open Scope stdpp_scope.

(** ** JavaScript values used by the handlers *)

Module Js.

(** A possibly-[undefined] string, with JavaScript truthiness: [undefined]
    and the empty string are falsy. *)
Definition truthy (v : option string) : bool :=
  match v with
  | Some s => negb (String.eqb s "")
  | None => false
  end.

(** [a || b] *)
Definition or (a b : option string) : option string :=
  if truthy a then a else b.

(** [s.split(sep)[0]] for a one-character separator: everything before the
    first occurrence of [sep], the whole string when there is none. *)
Fixpoint split_head (sep : ascii) (s : string) : string :=
  match s with
  | EmptyString => EmptyString
  | String c rest =>
      if Ascii.eqb c sep then EmptyString else String c (split_head sep rest)
  end.

(** [s.includes(pat)] *)
Fixpoint includes (pat s : string) : bool :=
  String.prefix pat s ||
  match s with
  | EmptyString => false
  | String _ rest => includes pat rest
  end.

(** [\d] on one UTF-16 code unit below 128; every other unit is [\D]. *)
Definition is_digit (c : ascii) : bool :=
  ((48 <=? nat_of_ascii c)%nat && (nat_of_ascii c <=? 57)%nat)%bool.

(** [s.replace(/\D/g, '')] *)
Fixpoint strip_non_digits (s : string) : string :=
  match s with
  | EmptyString => EmptyString
  | String c rest =>
      if is_digit c then String c (strip_non_digits rest)
      else strip_non_digits rest
  end.

Definition at_sign : ascii := "@"%char.
Definition colon : ascii := ":"%char.

End Js.

(** ** Transport objects, messages and the process state *)

(** What the handlers read off the [any]-typed object returned by
    [makeWASocket]. The two closed flags are distinct fields: server.ts
    tests [.destroyed], the later revisions test [.ws.isClosed]. The fields
    are written by the transport only. *)
Record Sock := mkSock {
  owner : string;            (* the instanceId captured by the closures *)
  destroyed : bool;          (* sock.destroyed *)
  ws_isClosed : bool;        (* sock.ws.isClosed *)
  user : option string       (* sock.user?.id *)
}.

(** Modelled from the spec: a freshly made socket is open and has no
    account yet (an identity is present only once the socket is connected). *)
Definition fresh_sock (instanceId : string) : Sock :=
  {| owner := instanceId; destroyed := false; ws_isClosed := false;
     user := None |}.

(** The key of a message that has its [remoteJid]. The transport's type
    leaves that field optional: [WireKey], further down, is the key as it
    can arrive, and the listeners on it are in [ServerTsWire],
    [Part001Wire] and [Part000Wire]. *)
Record MessageKey := mkKey {
  fromMe : bool;
  key_id : option string;
  remoteJid : string;
  participant : option string
}.

Record MessageContent := mkContent {
  conversation : option string;
  extendedText : option (option string)   (* extendedTextMessage?.text *)
}.

Record WAMessage := mkMsg {
  key : MessageKey;
  message : option MessageContent
}.

Inductive UpsertType := Notify | Append.

(** The body handed to [axios.post]. A field a revision does not send is
    [None], as is a field whose value is [undefined]. *)
Record Payload := mkPayload {
  p_event : string;
  p_instanceId : string;
  p_connectedPhone : option string;
  p_messageId : option string;
  p_sender : option string;
  p_rawId : option string;
  p_msgContent : option string
}.

Inductive Connection := ConnClose | ConnOpen | ConnConnecting.

(** The argument of a [connection.update] event;
    [statusCode] is [(lastDisconnect?.error as Boom)?.output?.statusCode]. *)
Record Update := mkUpdate {
  connection : option Connection;
  statusCode : option nat;
  qr : option string
}.

(** [DisconnectReason.loggedOut], 401 in the transport's enumeration *)
Definition loggedOut : nat := 401.

(** Commands issued on a transport object. *)
Inductive Command :=
  | SendMessage (jid : string) (text : option string)
  | Logout
  | End.

Record World := mkWorld {
  socks : list Sock;                  (* every object made by makeWASocket *)
  sessions : gmap string nat;         (* const sessions = new Map() *)
  qrCodes : gmap string string;       (* const qrCodes = new Map() *)
  authDirs : gset string;             (* directories in auth_info_baileys *)
  starting : list string;             (* startSession calls parked at await *)
  timers : list string;               (* setTimeout(() => startSession(id)) *)
  posts : list Payload;               (* axios.post calls, oldest first *)
  commands : list (nat * Command)     (* calls on transport objects *)
}.

Definition empty_world : World :=
  {| socks := []; sessions := ∅; qrCodes := ∅; authDirs := ∅;
     starting := []; timers := []; posts := []; commands := [] |}.

Definition set_socks (f : list Sock → list Sock) (w : World) : World :=
  {| socks := f (socks w); sessions := sessions w; qrCodes := qrCodes w;
     authDirs := authDirs w; starting := starting w; timers := timers w;
     posts := posts w; commands := commands w |}.
Definition set_sessions (f : gmap string nat → gmap string nat) (w : World) : World :=
  {| socks := socks w; sessions := f (sessions w); qrCodes := qrCodes w;
     authDirs := authDirs w; starting := starting w; timers := timers w;
     posts := posts w; commands := commands w |}.
Definition set_qrCodes (f : gmap string string → gmap string string) (w : World) : World :=
  {| socks := socks w; sessions := sessions w; qrCodes := f (qrCodes w);
     authDirs := authDirs w; starting := starting w; timers := timers w;
     posts := posts w; commands := commands w |}.
Definition set_authDirs (f : gset string → gset string) (w : World) : World :=
  {| socks := socks w; sessions := sessions w; qrCodes := qrCodes w;
     authDirs := f (authDirs w); starting := starting w; timers := timers w;
     posts := posts w; commands := commands w |}.
Definition set_starting (f : list string → list string) (w : World) : World :=
  {| socks := socks w; sessions := sessions w; qrCodes := qrCodes w;
     authDirs := authDirs w; starting := f (starting w); timers := timers w;
     posts := posts w; commands := commands w |}.
Definition set_timers (f : list string → list string) (w : World) : World :=
  {| socks := socks w; sessions := sessions w; qrCodes := qrCodes w;
     authDirs := authDirs w; starting := starting w; timers := f (timers w);
     posts := posts w; commands := commands w |}.
Definition set_posts (f : list Payload → list Payload) (w : World) : World :=
  {| socks := socks w; sessions := sessions w; qrCodes := qrCodes w;
     authDirs := authDirs w; starting := starting w; timers := timers w;
     posts := f (posts w); commands := commands w |}.
Definition set_commands (f : list (nat * Command) → list (nat * Command)) (w : World) : World :=
  {| socks := socks w; sessions := sessions w; qrCodes := qrCodes w;
     authDirs := authDirs w; starting := starting w; timers := timers w;
     posts := posts w; commands := f (commands w) |}.

(** ** Handlers as state-and-exception computations *)

(** How a piece of handler code ends: normally with a value, or by a throw
    (for an [async] function, a rejected promise). The world it leaves
    behind is kept in both cases. *)
Inductive Outcome (A : Type) :=
  | Ok (a : A)
  | Threw.
Arguments Ok {A} a.
Arguments Threw {A}.

Definition M (A : Type) : Type := World → Outcome A * World.

Definition ret {A} (a : A) : M A := λ w, (Ok a, w).
Definition throw {A} : M A := λ w, (Threw, w).
Definition bind {A B} (m : M A) (k : A → M B) : M B :=
  λ w, match m w with
       | (Ok a, w') => k a w'
       | (Threw, w') => (Threw, w')
       end.
(** [try { body } catch (e) { handler }] *)
Definition try_catch {A} (body handler : M A) : M A :=
  λ w, match body w with
       | (Ok a, w') => (Ok a, w')
       | (Threw, w') => handler w'
       end.
Definition modify (f : World → World) : M unit := λ w, (Ok tt, f w).
Definition gets {A} (f : World → A) : M A := λ w, (Ok (f w), w).

Notation "'let!' x ':=' m 'in' k" := (bind m (λ x, k))
  (at level 10, x name, m at level 100, k at level 200, only parsing).
Notation "m '>>>' k" := (bind m (λ _, k))
  (at level 100, k at level 200, right associativity, only parsing).

(** [for (const x of xs) body(x)] *)
Fixpoint for_of {A} (xs : list A) (body : A → M unit) : M unit :=
  match xs with
  | [] => ret tt
  | x :: rest => body x >>> for_of rest body
  end.

(** ** The environment and the primitive effects *)

(** What [sock.sendMessage] does: reject, or resolve with a result that
    may be [undefined] and whose [key.id] may be [undefined]. *)
Inductive SendResult :=
  | Rejects
  | Resolves (result : option (option string)).

(** Everything the handlers cannot decide themselves. Failure is modelled
    for the calls the sources wrap in [try]/[catch] somewhere. *)
Record Env := mkEnv {
  WEBHOOK_URL : option string;       (* process.env.WEBHOOK_URL *)
  post_fails : nat → bool;           (* does the n-th axios.post reject? *)
  sendMessage_result : SendResult;
  end_throws : bool;                 (* sock.end(undefined) throws *)
  logout_throws : bool;              (* sock.logout() rejects *)
  rmSync_throws : bool               (* fs.rmSync throws *)
}.

(** [makeWASocket({...})]: a new object, referred to by its index. *)
Definition makeWASocket (instanceId : string) : M nat :=
  λ w, (Ok (List.length (socks w)), set_socks (λ l, l ++ [fresh_sock instanceId]) w).

Definition command (h : nat) (c : Command) : M unit :=
  modify (set_commands (λ l, l ++ [(h, c)])).

(** [await axios.post(WEBHOOK_URL, payload)] *)
Definition axios_post (env : Env) (p : Payload) : M unit :=
  λ w, let w' := set_posts (λ l, l ++ [p]) w in
       if post_fails env (List.length (posts w)) then (Threw, w') else (Ok tt, w').

(** [await sock.sendMessage(jid, { text })] *)
Definition sendMessage (env : Env) (h : nat) (jid : string)
    (text : option string) : M (option (option string)) :=
  command h (SendMessage jid text) >>>
  match sendMessage_result env with
  | Rejects => throw
  | Resolves r => ret r
  end.

(** [sock.end(undefined)] *)
Definition sock_end (env : Env) (h : nat) : M unit :=
  command h End >>> if end_throws env then throw else ret tt.

(** [await sock.logout()] *)
Definition sock_logout (env : Env) (h : nat) : M unit :=
  command h Logout >>> if logout_throws env then throw else ret tt.

(** The credential directory of an instance is
    [path.join('auth_info_baileys', instanceId)]; directories are kept by
    their instance id, which is that path for the ids of [plain] below. *)
Definition existsSync (instanceId : string) : M bool :=
  gets (λ w, bool_decide (instanceId ∈ authDirs w)).

Definition mkdirSync (instanceId : string) : M unit :=
  modify (set_authDirs (λ d, {[instanceId]} ∪ d)).

(** [fs.rmSync(sessionPath, { recursive: true, force: true })] *)
Definition rmSync (env : Env) (instanceId : string) : M unit :=
  if rmSync_throws env then throw
  else modify (set_authDirs (λ d, d ∖ {[instanceId]})).

Fixpoint remove_first (x : string) (l : list string) : list string :=
  match l with
  | [] => []
  | y :: rest => if String.eqb x y then rest else y :: remove_first x rest
  end.

(** [msg.message?.conversation || msg.message?.extendedTextMessage?.text] *)
Definition msgContent (msg : WAMessage) : option string :=
  Js.or (c ← message msg; conversation c)
        (c ← message msg; e ← extendedText c; e).

(** [sock?.user?.id?.split(':')[0]], read off the object the closure holds *)
Definition connectedPhone (h : nat) (w : World) : option string :=
  s ← socks w !! h; Js.split_head Js.colon <$> user s.

(** ** HTTP requests and responses *)

Record Request := mkRequest {
  query_instanceId : option string;   (* req.query.instanceId *)
  body_instanceId : option string;    (* req.body.instanceId *)
  body_phone : option string;         (* req.body.phone *)
  body_message : option string        (* req.body.message *)
}.

Record Response := mkResponse {
  status : nat;
  res_error : option bool;
  res_message : option string;
  res_instanceId : option string;
  res_messageId : option string
}.

(** The outcome of a route handler: [Ok r] when it answered with [r],
    [Threw] when the [async] handler rejected without answering. *)
Definition Route := M Response.

Definition json (st : nat) (err : option bool) (msg : option string) : Response :=
  {| status := st; res_error := err; res_message := msg;
     res_instanceId := None; res_messageId := None |}.

(** What a call of [startSession] has done when control first returns to
    the event loop: it returned the registered object (or nothing), or it
    is parked at its first [await] with the rest of its body still to
    run. *)
Inductive Started :=
  | Returned (sock : option nat)
  | Parked.

(** [if (qr) { qrCodes.set(instanceId, qr) }], the first statement of the
    [connection.update] listener in every revision. *)
Definition note_qr (instanceId : string) (update : Update) : M unit :=
  match qr update with
  | Some q => if Js.truthy (Some q)
              then modify (set_qrCodes (<[instanceId := q]>)) else ret tt
  | None => ret tt
  end.

(** [session?.user]: the account of the registered socket, if any. *)
Definition identity (w : World) (instanceId : string) : option string :=
  h ← sessions w !! instanceId; s ← socks w !! h; user s.

(** * src/server.ts *)

Module ServerTs.

(** [sessions.has(instanceId) && !sessions.get(instanceId).destroyed] *)
Definition live (w : World) (instanceId : string) : option nat :=
  h ← sessions w !! instanceId;
  s ← socks w !! h;
  if destroyed s then None else Some h.

(** [startSession], lines 23-36: from the call to
    [await useMultiFileAuthState(sessionPath)]. *)
Definition startSession_enter (instanceId : string) : M Started :=
  let! lv := gets (λ w, live w instanceId) in
  match lv with
  | Some h => ret (Returned (Some h))
  | None =>
      let! there := existsSync instanceId in
      (if there then ret tt else mkdirSync instanceId) >>>
      modify (set_starting (λ l, l ++ [instanceId])) >>>
      ret Parked
  end.

(** [startSession], lines 38-109: what a parked call does once the awaited
    promise resolves. The three [sock.ev.on] subscriptions are the closures
    [on_connection_update instanceId] and [on_messages_upsert instanceId h]
    below. *)
Definition startSession_resume (instanceId : string) : M nat :=
  modify (set_starting (remove_first instanceId)) >>>
  let! h := makeWASocket instanceId in
  modify (set_sessions (<[instanceId := h]>)) >>>
  ret h.

(** A call of [startSession] that nothing else interleaves with. *)
Definition startSession (instanceId : string) : M (option nat) :=
  let! st := startSession_enter instanceId in
  match st with
  | Returned r => ret r
  | Parked => let! h := startSession_resume instanceId in ret (Some h)
  end.

(** The [connection.update] listener, lines 58-82. *)
Definition on_connection_update (instanceId : string) (update : Update) : M unit :=
  note_qr instanceId update >>>
  match connection update with
  | Some ConnClose =>
      let shouldReconnect := negb (bool_decide (statusCode update = Some loggedOut)) in
      if shouldReconnect then
        (* startSession(instanceId), not awaited *)
        startSession_enter instanceId >>> ret tt
      else
        modify (set_sessions (delete instanceId)) >>>
        modify (set_qrCodes (delete instanceId))
        (* Opcional: Apagar a pasta de credenciais se quiser resetar total *)
  | Some ConnOpen => modify (set_qrCodes (delete instanceId))
  | _ => ret tt
  end.

(** The body of the [for] loop of the [messages.upsert] listener,
    lines 88-104; [h] is the [sock] of the enclosing [startSession]. *)
Definition upsert_one (env : Env) (instanceId : string) (h : nat)
    (msg : WAMessage) : M unit :=
  if negb (fromMe (key msg)) && Js.truthy (WEBHOOK_URL env) then
    let! phone := gets (connectedPhone h) in
    let webhookPayload :=
      {| p_event := "webhookReceived";
         p_instanceId := instanceId;
         p_connectedPhone := phone;
         p_messageId := key_id (key msg);
         p_sender := Some (Js.split_head Js.at_sign (remoteJid (key msg)));
         p_rawId := None;
         p_msgContent := msgContent msg |} in
    try_catch (axios_post env webhookPayload) (ret tt)
  else ret tt.

(** The [messages.upsert] listener, lines 85-107. *)
Definition on_messages_upsert (env : Env) (instanceId : string) (h : nat)
    (messages : list WAMessage) (type : UpsertType) : M unit :=
  match type with
  | Notify => for_of messages (upsert_one env instanceId h)
  | Append => ret tt
  end.

(** [POST /v1/message/send-text], lines 168-200. *)
Definition send_text (env : Env) (req : Request) : Route :=
  let targetInstance := Js.or (body_instanceId req) (query_instanceId req) in
  let not_found :=
    ret (json 404 (Some true)
           (Some "Instância não encontrada ou desconectada")) in
  if negb (Js.truthy targetInstance) then not_found else
  match targetInstance with
  | None => not_found
  | Some target =>
      let! reg := gets (λ w, sessions w !! target) in
      match reg with
      | None => not_found
      | Some h =>
          let! usr := gets (λ w, s ← socks w !! h; user s) in   (* sock.user *)
          match usr with
          | None =>
              ret (json 503 (Some true)
                     (Some "Instância existe mas não está conectada ao WhatsApp"))
          | Some _ =>
              try_catch
                (match body_phone req with
                 | None => throw          (* phone.replace on undefined *)
                 | Some phone =>
                     let jid := Js.strip_non_digits phone +:+ "@s.whatsapp.net" in
                     let! result := sendMessage env h jid (body_message req) in
                     match result with
                     | None => throw      (* result.key on undefined *)
                     | Some mid =>
                         ret {| status := 200; res_error := Some false;
                                res_message := None;
                                res_instanceId := Some target;
                                res_messageId := mid |}
                     end
                 end)
                (ret (json 500 (Some true) (Some "Erro ao enviar")))
          end
      end
  end.

(** [POST /v1/instance/logout], lines 218-233. *)
Definition logout (env : Env) (req : Request) : Route :=
  let instanceId := Js.or (query_instanceId req) (body_instanceId req) in
  let not_found := ret (json 200 (Some false) (Some "Sessão não encontrada")) in
  if negb (Js.truthy instanceId) then not_found else
  match instanceId with
  | None => not_found
  | Some id =>
      let! reg := gets (λ w, sessions w !! id) in
      match reg with
      | None => not_found
      | Some h =>
          sock_logout env h >>>
          modify (set_sessions (delete id)) >>>
          modify (set_qrCodes (delete id)) >>>
          rmSync env id >>>
          ret (json 200 (Some false) (Some "Desconectado"))
      end
  end.

(** [POST /v1/instance/reset], lines 236-264. *)
Definition reset (env : Env) (req : Request) : Route :=
  let instanceId := Js.or (query_instanceId req) (body_instanceId req) in
  let missing := ret (json 400 (Some true) (Some "instanceId obrigatório")) in
  if negb (Js.truthy instanceId) then missing else
  match instanceId with
  | None => missing
  | Some id =>
      let! reg := gets (λ w, sessions w !! id) in
      (match reg with
       | Some h =>
           sock_end env h >>>
           modify (set_sessions (delete id)) >>>
           modify (set_qrCodes (delete id))
       | None => ret tt
       end) >>>
      let! there := existsSync id in
      (if there then try_catch (rmSync env id) (ret tt) else ret tt) >>>
      ret (json 200 (Some false)
             (Some ("Instância " +:+ id +:+
                    " resetada. Pode pedir novo QR Code agora.")))
  end.

End ServerTs.

(** * src/unnamed/part_001 *)

Module Part001.

(** [sessions.has(instanceId) && !sessions.get(instanceId).ws.isClosed] *)
Definition live (w : World) (instanceId : string) : option nat :=
  h ← sessions w !! instanceId;
  s ← socks w !! h;
  if ws_isClosed s then None else Some h.

(** [startSession], lines 29-39: up to the first [await]. The two awaits
    ([useMultiFileAuthState], [fetchLatestBaileysVersion]) follow each
    other with no code of the handler in between, so one parking point
    stands for both. *)
Definition startSession_enter (instanceId : string) : M Started :=
  let! lv := gets (λ w, live w instanceId) in
  match lv with
  | Some h => ret (Returned (Some h))
  | None =>
      let! there := existsSync instanceId in
      (if there then ret tt else mkdirSync instanceId) >>>
      modify (set_starting (λ l, l ++ [instanceId])) >>>
      ret Parked
  end.

(** [startSession], lines 41-107. *)
Definition startSession_resume (instanceId : string) : M nat :=
  modify (set_starting (remove_first instanceId)) >>>
  let! h := makeWASocket instanceId in
  modify (set_sessions (<[instanceId := h]>)) >>>
  ret h.

Definition startSession (instanceId : string) : M (option nat) :=
  let! st := startSession_enter instanceId in
  match st with
  | Returned r => ret r
  | Parked => let! h := startSession_resume instanceId in ret (Some h)
  end.

(** The [connection.update] listener, lines 60-85. *)
Definition on_connection_update (env : Env) (instanceId : string)
    (update : Update) : M unit :=
  note_qr instanceId update >>>
  match connection update with
  | Some ConnClose =>
      let reason := statusCode update in
      if negb (bool_decide (reason = Some loggedOut)) then
        (* setTimeout(() => startSession(instanceId), 3000) *)
        modify (set_timers (λ l, l ++ [instanceId]))
      else
        modify (set_sessions (delete instanceId)) >>>
        modify (set_qrCodes (delete instanceId)) >>>
        let! there := existsSync instanceId in
        if there then rmSync env instanceId else ret tt
  | Some ConnOpen => modify (set_qrCodes (delete instanceId))
  | _ => ret tt
  end.

(** A timer set by the listener above fires. *)
Definition timer_fires (instanceId : string) : M Started :=
  modify (set_timers (remove_first instanceId)) >>>
  startSession_enter instanceId.

(** The body of the [for] loop of the [messages.upsert] listener,
    lines 91-102. *)
Definition upsert_one (env : Env) (instanceId : string) (h : nat)
    (msg : WAMessage) : M unit :=
  if negb (fromMe (key msg)) && Js.truthy (WEBHOOK_URL env) then
    try_catch
      (let! phone := gets (connectedPhone h) in
       axios_post env
         {| p_event := "webhookReceived";
            p_instanceId := instanceId;
            p_connectedPhone := phone;
            p_messageId := None;
            p_sender := None;
            p_rawId := None;
            p_msgContent := msgContent msg |})
      (ret tt)                     (* Silencia erro de webhook *)
  else ret tt.

(** The [messages.upsert] listener, lines 88-105. *)
Definition on_messages_upsert (env : Env) (instanceId : string) (h : nat)
    (messages : list WAMessage) (type : UpsertType) : M unit :=
  match type with
  | Notify => for_of messages (upsert_one env instanceId h)
  | Append => ret tt
  end.

(** [POST /v1/message/send-text], lines 160-176. *)
Definition send_text (env : Env) (req : Request) : Route :=
  let target := Js.or (body_instanceId req) (query_instanceId req) in
  let not_found := ret (json 404 (Some true) (Some "Instância desconectada")) in
  if negb (Js.truthy target) then not_found else
  match target with
  | None => not_found
  | Some tgt =>
      let! reg := gets (λ w, sessions w !! tgt) in
      match reg with
      | None => not_found
      | Some h =>
          try_catch
            (match body_phone req with
             | None => throw
             | Some phone =>
                 let jid := Js.strip_non_digits phone +:+ "@s.whatsapp.net" in
                 let! result := sendMessage env h jid (body_message req) in
                 match result with
                 | None => throw
                 | Some mid =>
                     ret {| status := 200; res_error := Some false;
                            res_message := None; res_instanceId := None;
                            res_messageId := mid |}
                 end
             end)
            (ret (json 500 (Some true) None))
      end
  end.

(** [GET /v1/instance/reset], lines 179-193. *)
Definition reset (env : Env) (req : Request) : Route :=
  let instanceId := query_instanceId req in
  if negb (Js.truthy instanceId) then ret (json 400 None (Some "Falta instanceId")) else
  match instanceId with
  | None => ret (json 400 None (Some "Falta instanceId"))
  | Some id =>
      let! reg := gets (λ w, sessions w !! id) in
      (match reg with
       | Some h =>
           try_catch (sock_end env h) (ret tt) >>>
           modify (set_sessions (delete id)) >>>
           modify (set_qrCodes (delete id))
       | None => ret tt
       end) >>>
      let! there := existsSync id in
      (if there then rmSync env id else ret tt) >>>
      ret (json 200 None (Some "Resetado com sucesso."))
  end.

End Part001.

(** * src/unnamed/part_000, second document *)

Module Part000.

Definition live (w : World) (instanceId : string) : option nat :=
  h ← sessions w !! instanceId;
  s ← socks w !! h;
  if ws_isClosed s then None else Some h.

(** [instanceId === 'lost+found' || instanceId === '.DS_Store'] *)
Definition reserved (instanceId : string) : bool :=
  String.eqb instanceId "lost+found" || String.eqb instanceId ".DS_Store".

(** [startSession], lines 203-215 of the file: up to the first [await]. *)
Definition startSession_enter (instanceId : string) : M Started :=
  if reserved instanceId then ret (Returned None) else
  let! lv := gets (λ w, live w instanceId) in
  match lv with
  | Some h => ret (Returned (Some h))
  | None =>
      let! there := existsSync instanceId in
      (if there then ret tt else mkdirSync instanceId) >>>
      modify (set_starting (λ l, l ++ [instanceId])) >>>
      ret Parked
  end.

(** [startSession], lines 217-307. *)
Definition startSession_resume (instanceId : string) : M nat :=
  modify (set_starting (remove_first instanceId)) >>>
  let! h := makeWASocket instanceId in
  modify (set_sessions (<[instanceId := h]>)) >>>
  ret h.

Definition startSession (instanceId : string) : M (option nat) :=
  let! st := startSession_enter instanceId in
  match st with
  | Returned r => ret r
  | Parked => let! h := startSession_resume instanceId in ret (Some h)
  end.

(** Lines 270-280: the number reported as the sender. *)
Definition senderNumber (k : MessageKey) : string :=
  if Js.includes "@lid" (remoteJid k) && Js.truthy (participant k) then
    match participant k with
    | Some p => Js.split_head Js.at_sign p
    | None => Js.split_head Js.at_sign (remoteJid k)
    end
  else Js.split_head Js.at_sign (remoteJid k).

(** The body of the [for] loop of the [messages.upsert] listener,
    lines 265-302. *)
Definition upsert_one (env : Env) (instanceId : string) (h : nat)
    (msg : WAMessage) : M unit :=
  if negb (fromMe (key msg)) && Js.truthy (WEBHOOK_URL env) then
    let remote := remoteJid (key msg) in
    try_catch
      (let! phone := gets (connectedPhone h) in
       let payload :=
         {| p_event := "webhookReceived";
            p_instanceId := instanceId;
            p_connectedPhone := phone;
            p_messageId := None;
            p_sender := Some (senderNumber (key msg));
            p_rawId := Some remote;
            p_msgContent := msgContent msg |} in
       if negb (Js.truthy (p_msgContent payload)) then ret tt   (* continue *)
       else axios_post env payload)
      (ret tt)
  else ret tt.

(** The [messages.upsert] listener, lines 262-305. *)
Definition on_messages_upsert (env : Env) (instanceId : string) (h : nat)
    (messages : list WAMessage) (type : UpsertType) : M unit :=
  match type with
  | Notify => for_of messages (upsert_one env instanceId h)
  | Append => ret tt
  end.

End Part000.

(** * Specification-level vocabulary *)

(** [part] is the part of [addr] before its first [sep]. *)
Definition part_before (sep : ascii) (addr part : string) : Prop :=
  ¬ In sep (list_ascii_of_string part) ∧
  (addr = part ∨ ∃ rest, addr = part +:+ String sep rest).

(** [pat] occurs somewhere in [s]. *)
Definition occurs_in (pat s : string) : Prop :=
  ∃ pre post, s = pre +:+ pat +:+ post.

(** An address in the anonymized form. *)
Definition lid_form (addr : string) : Prop := occurs_in "@lid" addr.

(** A value that is there for JavaScript's [&&]: defined and not empty. *)
Definition present (v : option string) : Prop :=
  ∃ s, v = Some s ∧ s ≠ "".

(** * Runs of several events *)





(** ** The transport, as far as the handlers depend on it *)

(** Modelled from the spec: the events of the transport client (Baileys,
    which is not in the repository), after the event interface of the
    design: a socket reports [connected] together with the account it
    resolved (it has filled in [sock.user]), it issues pairing payloads, it
    reports [closed] with a reason; and it flips its own closed flags
    whenever it likes. *)
Inductive Emission :=
  | Pairing (payload : string)        (* update { qr } *)
  | Connected (account : string)      (* sock.user set; { connection: 'open' } *)
  | Closed (code : option nat)        (* { connection: 'close', lastDisconnect } *)
  | Flags (d c : bool).               (* sock.destroyed, sock.ws.isClosed *)

Definition with_user (u : option string) (s : Sock) : Sock :=
  {| owner := owner s; destroyed := destroyed s;
     ws_isClosed := ws_isClosed s; user := u |}.

Definition with_flags (d c : bool) (s : Sock) : Sock :=
  {| owner := owner s; destroyed := d; ws_isClosed := c; user := user s |}.

(** Everything that can happen between two turns of the event loop. *)
Inductive Event :=
  | Emit (h : nat) (e : Emission)
  | Upsert (h : nat) (messages : list WAMessage) (type : UpsertType)
  | StartCalled (instanceId : string)
  | StartResumes (instanceId : string)
  | TimerFires (instanceId : string)
  | SendText (req : Request)
  | LogoutRequest (req : Request)
  | ResetRequest (req : Request).

Definition update_of (e : Emission) : Update :=
  match e with
  | Pairing q => {| connection := None; statusCode := None; qr := Some q |}
  | Connected _ => {| connection := Some ConnOpen; statusCode := None; qr := None |}
  | Closed code => {| connection := Some ConnClose; statusCode := code; qr := None |}
  | Flags _ _ => {| connection := None; statusCode := None; qr := None |}
  end.

(** What the transport does to its own object before it calls the
    listener. *)
Definition transport_writes (h : nat) (e : Emission) : M unit :=
  match e with
  | Connected account => modify (set_socks (alter (with_user (Some account)) h))
  | Flags d c => modify (set_socks (alter (with_flags d c) h))
  | _ => ret tt
  end.

Definition discard {A} (m : M A) : M unit := bind m (λ _, ret tt).

Definition serverts_exec (env : Env) (e : Event) : M unit :=
  match e with
  | Emit h em =>
      let! s := gets (λ w, socks w !! h) in
      match s with
      | Some s =>
          transport_writes h em >>>
          match em with
          | Flags _ _ => ret tt
          | _ => ServerTs.on_connection_update (owner s) (update_of em)
          end
      | None => ret tt
      end
  | Upsert h messages type =>
      let! s := gets (λ w, socks w !! h) in
      match s with
      | Some s => ServerTs.on_messages_upsert env (owner s) h messages type
      | None => ret tt
      end
  | StartCalled instanceId => discard (ServerTs.startSession_enter instanceId)
  | StartResumes instanceId => discard (ServerTs.startSession_resume instanceId)
  | TimerFires _ => ret tt
  | SendText req => discard (ServerTs.send_text env req)
  | LogoutRequest req => discard (ServerTs.logout env req)
  | ResetRequest req => discard (ServerTs.reset env req)
  end.

Definition part001_exec (env : Env) (e : Event) : M unit :=
  match e with
  | Emit h em =>
      let! s := gets (λ w, socks w !! h) in
      match s with
      | Some s =>
          transport_writes h em >>>
          match em with
          | Flags _ _ => ret tt
          | _ => Part001.on_connection_update env (owner s) (update_of em)
          end
      | None => ret tt
      end
  | Upsert h messages type =>
      let! s := gets (λ w, socks w !! h) in
      match s with
      | Some s => Part001.on_messages_upsert env (owner s) h messages type
      | None => ret tt
      end
  | StartCalled instanceId => discard (Part001.startSession_enter instanceId)
  | StartResumes instanceId => discard (Part001.startSession_resume instanceId)
  | TimerFires instanceId => discard (Part001.timer_fires instanceId)
  | SendText req => discard (Part001.send_text env req)
  | LogoutRequest _ => ret tt
  | ResetRequest req => discard (Part001.reset env req)
  end.

(** What a run may contain: a parked start resumes, and a timer fires,
    only if there is one. Everything else can happen at any time; in
    particular every socket that was made keeps its listeners and may emit,
    whether or not the registry still holds it. *)
Definition permitted (w : World) (e : Event) : bool :=
  match e with
  | StartResumes instanceId => bool_decide (instanceId ∈ starting w)
  | TimerFires instanceId => bool_decide (instanceId ∈ timers w)
  | _ => true
  end.

(** A run goes on after a handler threw: the world is what the handler
    left. *)
Fixpoint run_events (exec : Event → M unit) (events : list Event)
    (w : World) : World :=
  match events with
  | [] => w
  | e :: rest => run_events exec rest (exec e w).2
  end.

Fixpoint run_permitted (exec : Event → M unit) (events : list Event)
    (w : World) : bool :=
  match events with
  | [] => true
  | e :: rest => permitted w e && run_permitted exec rest (exec e w).2
  end.

(** Every registry entry points at a socket made for that instance. *)
Definition registry_sound (w : World) : Prop :=
  ∀ instanceId h, sessions w !! instanceId = Some h →
    ∃ s, socks w !! h = Some s ∧ owner s = instanceId.

(** No instance has both an account and a cached pairing payload. *)
Definition pairing_excludes_identity (w : World) : Prop :=
  ∀ instanceId, is_Some (identity w instanceId) →
    qrCodes w !! instanceId = None.

(** Two worlds with the same sockets, registry and pairing cache. *)
Definition same_view (w w' : World) : Prop :=
  socks w' = socks w ∧ sessions w' = sessions w ∧ qrCodes w' = qrCodes w.

(** * Concrete inputs *)

Definition env_quiet : Env :=
  {| WEBHOOK_URL := Some "https://infobarber.example/hook";
     post_fails := λ _, false;
     sendMessage_result := Resolves (Some (Some "3EB0A1"));
     end_throws := false;
     logout_throws := false;
     rmSync_throws := false |}.

Definition env_logout_fails : Env :=
  {| WEBHOOK_URL := Some "https://infobarber.example/hook";
     post_fails := λ _, false;
     sendMessage_result := Resolves (Some (Some "3EB0A1"));
     end_throws := false;
     logout_throws := true;
     rmSync_throws := false |}.

Definition env_end_fails : Env :=
  {| WEBHOOK_URL := Some "https://infobarber.example/hook";
     post_fails := λ _, false;
     sendMessage_result := Resolves (Some (Some "3EB0A1"));
     end_throws := true;
     logout_throws := false;
     rmSync_throws := false |}.

(** [shop-1] has been started and shown a QR code, nobody has scanned it. *)
Definition world_pairing : World :=
  {| socks := [fresh_sock "shop-1"];
     sessions := {[ "shop-1" := 0 ]};
     qrCodes := {[ "shop-1" := "2@qrpayload" ]};
     authDirs := {[ "shop-1" ]};
     starting := []; timers := []; posts := []; commands := [] |}.

(** [shop-1] is paired and connected. *)
Definition world_connected : World :=
  {| socks := [ {| owner := "shop-1"; destroyed := false;
                   ws_isClosed := false;
                   user := Some "5511988887777:12@s.whatsapp.net" |} ];
     sessions := {[ "shop-1" := 0 ]};
     qrCodes := ∅;
     authDirs := {[ "shop-1" ]};
     starting := []; timers := []; posts := []; commands := [] |}.

Definition req_for (instanceId : string) : Request :=
  {| query_instanceId := Some instanceId; body_instanceId := None;
     body_phone := None; body_message := None |}.

Definition req_send : Request :=
  {| query_instanceId := None; body_instanceId := Some "shop-1";
     body_phone := Some "+55 (11) 97777-6666"; body_message := Some "Oi" |}.

Definition close_logged_out : Update :=
  {| connection := Some ConnClose; statusCode := Some loggedOut; qr := None |}.

Definition close_timed_out : Update :=
  {| connection := Some ConnClose; statusCode := Some 408; qr := None |}.

Definition open_update : Update :=
  {| connection := Some ConnOpen; statusCode := None; qr := None |}.

Definition msg_lid : WAMessage :=
  {| key := {| fromMe := false; key_id := Some "A1B2";
               remoteJid := "24601@lid";
               participant := Some "5511977776666@s.whatsapp.net" |};
     message := Some {| conversation := Some "Quero agendar";
                        extendedText := None |} |}.

Definition msg_own : WAMessage :=
  {| key := {| fromMe := true; key_id := Some "C3D4";
               remoteJid := "5511977776666@s.whatsapp.net";
               participant := None |};
     message := Some {| conversation := Some "Agendado";
                        extendedText := None |} |}.

(** A picture: neither [conversation] nor [extendedTextMessage]. *)
Definition msg_image : WAMessage :=
  {| key := {| fromMe := false; key_id := Some "E5F6";
               remoteJid := "5511977776666@s.whatsapp.net";
               participant := None |};
     message := Some {| conversation := None; extendedText := None |} |}.

(** [shop-1] is started, shows a QR code, and the code is scanned. *)
Definition pairing_run : list Event :=
  [ StartCalled "shop-1"; StartResumes "shop-1";
    Emit 0 (Pairing "2@qrpayload");
    Emit 0 (Connected "5511988887777:12@s.whatsapp.net") ].

(** Two requests for the unknown [shop-1] reach [startSession] before the
    first has got past its [await]. *)
Definition overlapping_run : list Event :=
  [ StartCalled "shop-1"; StartCalled "shop-1";
    StartResumes "shop-1"; StartResumes "shop-1" ].

(** After those two starts the second socket, which the registry holds,
    logs in; then the first socket, still open and with nobody logged in
    on it, issues a pairing payload. *)
Definition stale_pairing_run : list Event :=
  overlapping_run ++
  [ Emit 1 (Connected "5511988887777:12@s.whatsapp.net");
    Emit 0 (Pairing "2@stale") ].

(** The sockets of an instance that are open on both flags. *)
Definition open_socks_of (w : World) (instanceId : string) : list nat :=
  List.filter
    (λ h, match socks w !! h with
          | Some s => String.eqb (owner s) instanceId &&
                      negb (destroyed s) && negb (ws_isClosed s)
          | None => false
          end)
    (seq 0 (List.length (socks w))).

(** Two calls of [startSession] for one instance, the second made while the
    first is parked at its [await]. *)
Definition serverts_overlapping_starts (instanceId : string) : M (nat * nat) :=
  ServerTs.startSession_enter instanceId >>>
  ServerTs.startSession_enter instanceId >>>
  let! h1 := ServerTs.startSession_resume instanceId in
  let! h2 := ServerTs.startSession_resume instanceId in
  ret (h1, h2).

Definition part000_overlapping_starts (instanceId : string) : M (nat * nat) :=
  Part000.startSession_enter instanceId >>>
  Part000.startSession_enter instanceId >>>
  let! h1 := Part000.startSession_resume instanceId in
  let! h2 := Part000.startSession_resume instanceId in
  ret (h1, h2).

(** What [part_000] posts for [msg_lid] arriving on [world_connected]. *)
Definition payload_lid : Payload :=
  {| p_event := "webhookReceived"; p_instanceId := "shop-1";
     p_connectedPhone := Some "5511988887777";
     p_messageId := None;
     p_sender := Some "5511977776666";
     p_rawId := Some "24601@lid";
     p_msgContent := Some "Quero agendar" |}.

(** * The remaining routes and the start-up of the three files *)

(** The answers of the status, QR-code and HTML routes. *)
Record Answer := mkAnswer {
  a_status : nat;
  a_error : option bool;
  a_message : option string;
  a_instanceId : option string;
  a_connected : option bool;
  a_qrcode : option string
}.

(** What [res.send] is given by the [/connect] routes: one of four fixed
    pages, the last one around the QR image. *)
Inductive Page :=
  | PageAskInstance                (* "Informe ?instanceId=..." / "Use ?instanceId=SEU_ID" *)
  | PageConnected                  (* <h1>Conectado!</h1> *)
  | PageGenerating                 (* "Generating QR... Refresh page." *)
  | PageQr (img : string).         (* <img src="${img}" /> ... *)

(** A route with an [await] in the middle, when control first returns to
    the event loop: it has answered, or it waits for the start of an
    instance and the pause that follows. *)
Inductive Pending (A : Type) :=
  | Answered (a : A)
  | Waiting (instanceId : string).
Arguments Answered {A} a.
Arguments Waiting {A} instanceId.

(** One entry of [fs.readdirSync('auth_info_baileys')] with what
    [fs.statSync(...).isDirectory()] says of it. *)
Record DirEntry := mkEntry {
  entry_name : string;
  entry_isDirectory : bool
}.

Module ServerTsApi.

(** [GET /v1/instance/status-instance], server.ts lines 203-215. *)
Definition status_instance (req : Request) : M Answer :=
  let instanceId := query_instanceId req in
  let offline :=
    ret {| a_status := 200; a_error := None; a_message := None;
           a_instanceId := instanceId; a_connected := Some false;
           a_qrcode := None |} in
  if negb (Js.truthy instanceId) then offline else
  match instanceId with
  | None => offline
  | Some id =>
      let! reg := gets (λ w, sessions w !! id) in
      match reg with
      | None => offline
      | Some h =>
          let! usr := gets (λ w, s ← socks w !! h; user s) in
          ret {| a_status := 200; a_error := None; a_message := None;
                 a_instanceId := instanceId;
                 a_connected := Some (bool_decide (is_Some usr));  (* !!sock.user *)
                 a_qrcode := None |}
      end
  end.

(** [GET /v1/instance/qr-code], lines 128-139: up to
    [await startSession(instanceId)]. *)
Definition qr_code_begin (req : Request) : M (Pending Answer) :=
  let instanceId := Js.or (query_instanceId req) (body_instanceId req) in
  let missing :=
    ret (Answered {| a_status := 400; a_error := Some true;
                     a_message := Some "instanceId é obrigatório";
                     a_instanceId := None; a_connected := None;
                     a_qrcode := None |}) in
  if negb (Js.truthy instanceId) then missing else
  match instanceId with
  | None => missing
  | Some id =>
      let! reg := gets (λ w, sessions w !! id) in
      match reg with
      | None => ServerTs.startSession_enter id >>> ret (Waiting id)
      | Some _ => ret (Waiting id)
      end
  end.

(** Lines 143-163: from the end of the one-second pause. [toDataURL] is
    [QRCode.toDataURL]. *)
Definition qr_code_finish (toDataURL : string → string)
    (instanceId : string) : M Answer :=
  let! who := gets (λ w, identity w instanceId) in      (* session?.user *)
  match who with
  | Some _ =>
      ret {| a_status := 200; a_error := Some false;
             a_message := Some "Instância já conectada";
             a_instanceId := None; a_connected := Some true;
             a_qrcode := None |}
  | None =>
      let not_yet :=
        ret {| a_status := 404; a_error := Some true;
               a_message := Some "Gerando QR Code... Tente novamente em 2s";
               a_instanceId := None; a_connected := None;
               a_qrcode := None |} in
      let! code := gets (λ w, qrCodes w !! instanceId) in
      match code with
      | Some q =>
          if negb (Js.truthy (Some q)) then not_yet else
          ret {| a_status := 200; a_error := Some false;
                 a_message := None; a_instanceId := Some instanceId;
                 a_connected := None; a_qrcode := Some (toDataURL q) |}
      | None => not_yet
      end
  end.

(** [GET /connect], lines 266-272: up to [await startSession]. *)
Definition connect_begin (req : Request) : M (Pending Page) :=
  let instanceId := query_instanceId req in
  if negb (Js.truthy instanceId) then ret (Answered PageAskInstance) else
  match instanceId with
  | None => ret (Answered PageAskInstance)
  | Some id =>
      let! reg := gets (λ w, sessions w !! id) in
      match reg with
      | None => ServerTs.startSession_enter id >>> ret (Waiting id)
      | Some _ => ret (Waiting id)
      end
  end.

(** [GET /connect], lines 273-281. *)
Definition connect_finish (toDataURL : string → string)
    (instanceId : string) : M Page :=
  let! who := gets (λ w, identity w instanceId) in
  match who with
  | Some _ => ret PageConnected
  | None =>
      let! code := gets (λ w, qrCodes w !! instanceId) in
      match code with
      | Some q =>
          if negb (Js.truthy (Some q)) then ret PageGenerating
          else ret (PageQr (toDataURL q))
      | None => ret PageGenerating
      end
  end.

(** Lines 114-122, the body of the [forEach]: [startSession(id)] is not
    awaited, so each call runs to its first [await]. *)
Definition restore_one (e : DirEntry) : M unit :=
  if entry_isDirectory e then
    bind (ServerTs.startSession_enter (entry_name e)) (λ _, ret tt)
  else ret tt.

(** Lines 114-122: [listing] is [None] when [auth_info_baileys] does not
    exist. *)
Definition restore (listing : option (list DirEntry)) : M unit :=
  match listing with
  | Some existingSessions => for_of existingSessions restore_one
  | None => ret tt
  end.

End ServerTsApi.

Module Part001Api.

(** [GET /v1/instance/status-instance], part_001 lines 124-139. *)
Definition status_instance (req : Request) : M Answer :=
  let instanceId := query_instanceId req in
  let missing :=
    ret {| a_status := 400; a_error := Some true;
           a_message := Some "instanceId obrigatório";
           a_instanceId := None; a_connected := None; a_qrcode := None |} in
  if negb (Js.truthy instanceId) then missing else
  match instanceId with
  | None => missing
  | Some id =>
      let! who := gets (λ w, identity w id) in     (* session && session.user *)
      ret {| a_status := 200; a_error := Some false; a_message := None;
             a_instanceId := Some id;
             a_connected := Some (bool_decide (is_Some who));
             a_qrcode := None |}
  end.

(** [GET /v1/instance/qr-code], lines 142-146. *)
Definition qr_code_begin (req : Request) : M (Pending Answer) :=
  let instanceId := query_instanceId req in
  let missing :=
    ret (Answered {| a_status := 400; a_error := Some true;
                     a_message := Some "Falta instanceId";
                     a_instanceId := None; a_connected := None;
                     a_qrcode := None |}) in
  if negb (Js.truthy instanceId) then missing else
  match instanceId with
  | None => missing
  | Some id =>
      let! reg := gets (λ w, sessions w !! id) in
      match reg with
      | None => Part001.startSession_enter id >>> ret (Waiting id)
      | Some _ => ret (Waiting id)
      end
  end.

(** Lines 147-156, from the end of the two-second pause. *)
Definition qr_code_finish (toDataURL : string → string)
    (instanceId : string) : M Answer :=
  let! who := gets (λ w, identity w instanceId) in
  match who with
  | Some _ =>
      ret {| a_status := 200; a_error := Some false; a_message := None;
             a_instanceId := None; a_connected := Some true;
             a_qrcode := None |}
  | None =>
      let not_yet :=
        ret {| a_status := 404; a_error := Some true;
               a_message := Some "Aguardando QR...";
               a_instanceId := None; a_connected := None;
               a_qrcode := None |} in
      let! code := gets (λ w, qrCodes w !! instanceId) in
      match code with
      | Some q =>
          if negb (Js.truthy (Some q)) then not_yet else
          ret {| a_status := 200; a_error := Some false;
                 a_message := None; a_instanceId := Some instanceId;
                 a_connected := None; a_qrcode := Some (toDataURL q) |}
      | None => not_yet
      end
  end.

(** Lines 111-119, the body of the [forEach]. *)
Definition restore_one (e : DirEntry) : M unit :=
  if negb (String.eqb (entry_name e) ".DS_Store") && entry_isDirectory e then
    bind (Part001.startSession_enter (entry_name e)) (λ _, ret tt)
  else ret tt.

Definition restore (listing : option (list DirEntry)) : M unit :=
  match listing with
  | Some existingSessions => for_of existingSessions restore_one
  | None => ret tt
  end.

(** [GET /connect], lines 196-200: up to [await startSession]. *)
Definition connect_begin (req : Request) : M (Pending Page) :=
  let instanceId := query_instanceId req in
  if negb (Js.truthy instanceId) then ret (Answered PageAskInstance) else
  match instanceId with
  | None => ret (Answered PageAskInstance)
  | Some id =>
      let! reg := gets (λ w, sessions w !! id) in
      match reg with
      | None => Part001.startSession_enter id >>> ret (Waiting id)
      | Some _ => ret (Waiting id)
      end
  end.

(** [GET /connect], lines 201-218, from the end of the two-second pause. *)
Definition connect_finish (toDataURL : string → string)
    (instanceId : string) : M Page :=
  let! who := gets (λ w, identity w instanceId) in
  match who with
  | Some _ => ret PageConnected
  | None =>
      let! code := gets (λ w, qrCodes w !! instanceId) in
      match code with
      | Some q =>
          if negb (Js.truthy (Some q)) then ret PageGenerating
          else ret (PageQr (toDataURL q))
      | None => ret PageGenerating
      end
  end.

End Part001Api.

(** The rest of src/unnamed/part_000, second document. *)
Module Part000Api.

(** The [connection.update] listener, lines 236-259 of the file. *)
Definition on_connection_update (env : Env) (instanceId : string)
    (update : Update) : M unit :=
  note_qr instanceId update >>>
  match connection update with
  | Some ConnClose =>
      let reason := statusCode update in
      if negb (bool_decide (reason = Some loggedOut)) then
        (* setTimeout(() => startSession(instanceId), 3000) *)
        modify (set_timers (λ l, l ++ [instanceId]))
      else
        modify (set_sessions (delete instanceId)) >>>
        modify (set_qrCodes (delete instanceId)) >>>
        let! there := existsSync instanceId in
        if there then rmSync env instanceId else ret tt
  | Some ConnOpen => modify (set_qrCodes (delete instanceId))
  | _ => ret tt
  end.

(** A timer set by the listener fires. *)
Definition timer_fires (instanceId : string) : M Started :=
  modify (set_timers (remove_first instanceId)) >>>
  Part000.startSession_enter instanceId.

(** [GET /v1/instance/status-instance], lines 325-331. *)
Definition status_instance (req : Request) : M Answer :=
  let instanceId := query_instanceId req in
  let missing :=
    ret {| a_status := 400; a_error := Some true;
           a_message := Some "instanceId obrigatório";
           a_instanceId := None; a_connected := None; a_qrcode := None |} in
  if negb (Js.truthy instanceId) then missing else
  match instanceId with
  | None => missing
  | Some id =>
      let! who := gets (λ w, identity w id) in
      ret {| a_status := 200; a_error := Some false; a_message := None;
             a_instanceId := Some id;
             a_connected := Some (bool_decide (is_Some who));
             a_qrcode := None |}
  end.

(** [GET /v1/instance/qr-code], lines 333-337. *)
Definition qr_code_begin (req : Request) : M (Pending Answer) :=
  let instanceId := query_instanceId req in
  let missing :=
    ret (Answered {| a_status := 400; a_error := Some true;
                     a_message := Some "Falta instanceId";
                     a_instanceId := None; a_connected := None;
                     a_qrcode := None |}) in
  if negb (Js.truthy instanceId) then missing else
  match instanceId with
  | None => missing
  | Some id =>
      let! reg := gets (λ w, sessions w !! id) in
      match reg with
      | None => Part000.startSession_enter id >>> ret (Waiting id)
      | Some _ => ret (Waiting id)
      end
  end.

(** Lines 338-347. *)
Definition qr_code_finish (toDataURL : string → string)
    (instanceId : string) : M Answer :=
  let! who := gets (λ w, identity w instanceId) in
  match who with
  | Some _ =>
      ret {| a_status := 200; a_error := Some false; a_message := None;
             a_instanceId := None; a_connected := Some true;
             a_qrcode := None |}
  | None =>
      let not_yet :=
        ret {| a_status := 404; a_error := Some true;
               a_message := Some "Aguardando QR...";
               a_instanceId := None; a_connected := None;
               a_qrcode := None |} in
      let! code := gets (λ w, qrCodes w !! instanceId) in
      match code with
      | Some q =>
          if negb (Js.truthy (Some q)) then not_yet else
          ret {| a_status := 200; a_error := Some false;
                 a_message := None; a_instanceId := Some instanceId;
                 a_connected := None; a_qrcode := Some (toDataURL q) |}
      | None => not_yet
      end
  end.

(** [POST /v1/message/send-text], lines 350-367. *)
Definition send_text (env : Env) (req : Request) : Route :=
  let target := Js.or (body_instanceId req) (query_instanceId req) in
  let not_found := ret (json 404 (Some true) (Some "Instância desconectada")) in
  if negb (Js.truthy target) then not_found else
  match target with
  | None => not_found
  | Some tgt =>
      let! reg := gets (λ w, sessions w !! tgt) in
      match reg with
      | None => not_found
      | Some h =>
          try_catch
            (match body_phone req with
             | None => throw
             | Some phone =>
                 let jid := Js.strip_non_digits phone +:+ "@s.whatsapp.net" in
                 let! result := sendMessage env h jid (body_message req) in
                 match result with
                 | None => throw
                 | Some mid =>
                     ret {| status := 200; res_error := Some false;
                            res_message := None; res_instanceId := None;
                            res_messageId := mid |}
                 end
             end)
            (ret (json 500 (Some true) None))
      end
  end.

(** [GET /v1/instance/reset], lines 369-381. *)
Definition reset (env : Env) (req : Request) : Route :=
  let instanceId := query_instanceId req in
  if negb (Js.truthy instanceId) then ret (json 400 None (Some "Falta instanceId")) else
  match instanceId with
  | None => ret (json 400 None (Some "Falta instanceId"))
  | Some id =>
      let! reg := gets (λ w, sessions w !! id) in
      (match reg with
       | Some h =>
           try_catch (sock_end env h) (ret tt) >>>
           modify (set_sessions (delete id)) >>>
           modify (set_qrCodes (delete id))
       | None => ret tt
       end) >>>
      let! there := existsSync id in
      (if there then rmSync env id else ret tt) >>>
      ret (json 200 None (Some "Resetado com sucesso."))
  end.

(** Lines 311-321, the body of the [forEach]. *)
Definition restore_one (e : DirEntry) : M unit :=
  if negb (String.eqb (entry_name e) ".DS_Store") &&
     negb (String.eqb (entry_name e) "lost+found") &&
     entry_isDirectory e then
    bind (Part000.startSession_enter (entry_name e)) (λ _, ret tt)
  else ret tt.

Definition restore (listing : option (list DirEntry)) : M unit :=
  match listing with
  | Some existingSessions => for_of existingSessions restore_one
  | None => ret tt
  end.

(** [GET /connect], lines 383-387: up to [await startSession]. *)
Definition connect_begin (req : Request) : M (Pending Page) :=
  let instanceId := query_instanceId req in
  if negb (Js.truthy instanceId) then ret (Answered PageAskInstance) else
  match instanceId with
  | None => ret (Answered PageAskInstance)
  | Some id =>
      let! reg := gets (λ w, sessions w !! id) in
      match reg with
      | None => Part000.startSession_enter id >>> ret (Waiting id)
      | Some _ => ret (Waiting id)
      end
  end.

(** [GET /connect], lines 388-396, from the end of the two-second pause. *)
Definition connect_finish (toDataURL : string → string)
    (instanceId : string) : M Page :=
  let! who := gets (λ w, identity w instanceId) in
  match who with
  | Some _ => ret PageConnected
  | None =>
      let! code := gets (λ w, qrCodes w !! instanceId) in
      match code with
      | Some q =>
          if negb (Js.truthy (Some q)) then ret PageGenerating
          else ret (PageQr (toDataURL q))
      | None => ret PageGenerating
      end
  end.

End Part000Api.

(** One turn of the event loop of part_000 (second document). *)
Definition part000_exec (env : Env) (e : Event) : M unit :=
  match e with
  | Emit h em =>
      let! s := gets (λ w, socks w !! h) in
      match s with
      | Some s =>
          transport_writes h em >>>
          match em with
          | Flags _ _ => ret tt
          | _ => Part000Api.on_connection_update env (owner s) (update_of em)
          end
      | None => ret tt
      end
  | Upsert h messages type =>
      let! s := gets (λ w, socks w !! h) in
      match s with
      | Some s => Part000.on_messages_upsert env (owner s) h messages type
      | None => ret tt
      end
  | StartCalled instanceId => discard (Part000.startSession_enter instanceId)
  | StartResumes instanceId => discard (Part000.startSession_resume instanceId)
  | TimerFires instanceId => discard (Part000Api.timer_fires instanceId)
  | SendText req => discard (Part000Api.send_text env req)
  | LogoutRequest _ => ret tt
  | ResetRequest req => discard (Part000Api.reset env req)
  end.

(** The parked starts of the instances [order] resume, in that order: the
    order in which their awaited promises resolve, which the code does not
    fix. *)
Definition serverts_resume_all (order : list string) : M unit :=
  for_of order (λ id, discard (ServerTs.startSession_resume id)).

(** The names [ServerTsApi.restore] starts a session for. *)
Definition restored_names (existingSessions : list DirEntry) : list string :=
  entry_name <$> List.filter entry_isDirectory existingSessions.

(** Which of the four answers a QR-code route or a [/connect] route gave. *)
Inductive Verdict :=
  | VMissing
  | VConnected
  | VNotReady
  | VQr (img : string).

Definition answer_verdict (a : Answer) : Verdict :=
  match a_status a, a_connected a, a_qrcode a with
  | 400, _, _ => VMissing
  | _, Some true, _ => VConnected
  | _, _, Some img => VQr img
  | _, _, _ => VNotReady
  end.

Definition page_verdict (p : Page) : Verdict :=
  match p with
  | PageAskInstance => VMissing
  | PageConnected => VConnected
  | PageGenerating => VNotReady
  | PageQr img => VQr img
  end.

Definition pending_verdict {A} (f : A → Verdict) (p : Pending A) : option Verdict :=
  match p with
  | Answered a => Some (f a)
  | Waiting _ => None
  end.

(** ** Vocabulary for the further properties *)

(** The ten decimal digits. *)
Definition decimal_digits : list ascii :=
  list_ascii_of_string "0123456789".

Definition decimal (c : ascii) : Prop := c ∈ decimal_digits.

(** [d] is what is left of [phone] when everything but the decimal digits
    is taken out. *)
Definition digits_of (phone d : string) : Prop :=
  list_ascii_of_string d =
  List.filter (λ c, bool_decide (decimal c)) (list_ascii_of_string phone).

(** The command a send-text route may issue for a request: a message to the
    digits of [phone] at [s.whatsapp.net]. *)
Definition addressed_to_digits (req : Request) (c : Command) : Prop :=
  ∃ phone d,
    body_phone req = Some phone ∧ digits_of phone d ∧
    Forall decimal (list_ascii_of_string d) ∧
    c = SendMessage (d +:+ "@s.whatsapp.net") (body_message req).

(** A route issued nothing, or one command of the given kind on the socket
    the registry holds for the instance the request names. *)
Definition at_most_one_command (w w' : World) (req : Request)
    (good : Command → Prop) : Prop :=
  commands w' = commands w ∨
  ∃ t h c,
    Js.or (body_instanceId req) (query_instanceId req) = Some t ∧
    sessions w !! t = Some h ∧ good c ∧
    commands w' = commands w ++ [(h, c)].

(** The instance a request names through the value [v] of its
    [instanceId]: defined and not empty. *)
Definition names (v : option string) (t : string) : Prop :=
  v = Some t ∧ t ≠ "".

(** The verdict of a route outcome, [None] when the handler threw. *)
Definition outcome_verdict {A} (f : A → Verdict) (o : Outcome A) : option Verdict :=
  match o with
  | Ok a => Some (f a)
  | Threw => None
  end.

(** The two first halves came to the same point: the same verdict, or
    waiting for the same instance. *)
Definition pending_same (p : Outcome (Pending Page))
    (a : Outcome (Pending Answer)) : Prop :=
  match p, a with
  | Ok (Answered p), Ok (Answered a) => page_verdict p = answer_verdict a
  | Ok (Waiting i), Ok (Waiting j) => i = j
  | _, _ => False
  end.

(** A request that carries its instance in the query string only. *)
Definition req_query_only : Request :=
  {| query_instanceId := Some "shop-1"; body_instanceId := None;
     body_phone := None; body_message := None |}.

(** What a QR-code route says in a state: connected if the registered
    socket of the instance has a user, else the image of the cached payload
    if there is one, else not-ready. *)
Definition qr_verdict (toDataURL : string → string) (w : World)
    (t : string) : Verdict :=
  match identity w t, qrCodes w !! t with
  | Some _, _ => VConnected
  | None, Some q => if Js.truthy (Some q) then VQr (toDataURL q)
                    else VNotReady
  | None, None => VNotReady
  end.

(** A stand-in for [QRCode.toDataURL] in the concrete runs. *)
Definition data_url (q : string) : string := "data:image/png;base64," +:+ q.

(** The state of the process when the restore code of a file runs: the
    two maps are new, nothing is parked. *)
Definition at_startup (w : World) : Prop :=
  sessions w = ∅ ∧ qrCodes w = ∅ ∧ starting w = [] ∧ socks w = [].

(** A listing as [readdirSync] gives it: no name twice. The second entry is
    a file. *)
Definition listing_two_shops : list DirEntry :=
  [ {| entry_name := "shop-1"; entry_isDirectory := true |};
    {| entry_name := "notes.txt"; entry_isDirectory := false |};
    {| entry_name := "shop-2"; entry_isDirectory := true |} ].

Definition world_startup : World :=
  {| socks := []; sessions := ∅; qrCodes := ∅;
     authDirs := {[ "shop-1"; "shop-2" ]};
     starting := []; timers := []; posts := []; commands := [] |}.

(** Nothing of the server concerns a name [startSession] of part_000
    refuses: no registry entry, no parked start, no pairing payload, no
    socket, and no credential directory beyond those of [D]. *)
Definition unreserved (D : gset string) (w : World) : Prop :=
  ∀ id, Part000.reserved id = true →
    sessions w !! id = None ∧
    (id ∉ starting w) ∧
    qrCodes w !! id = None ∧
    (∀ h s, socks w !! h = Some s → owner s ≠ id) ∧
    (id ∈ authDirs w → id ∈ D).

(** The volume of a container: the two directories of two shops and the
    [lost+found] of the file system. *)
Definition world_volume : World :=
  {| socks := []; sessions := ∅; qrCodes := ∅;
     authDirs := {[ "shop-1"; "shop-2"; "lost+found" ]};
     starting := []; timers := []; posts := []; commands := [] |}.

Definition listing_volume : list DirEntry :=
  [ {| entry_name := "lost+found"; entry_isDirectory := true |};
    {| entry_name := "shop-1"; entry_isDirectory := true |};
    {| entry_name := ".DS_Store"; entry_isDirectory := false |};
    {| entry_name := "shop-2"; entry_isDirectory := true |} ].

(** Somebody asks for the QR code of [lost+found], twice, while the shops
    come up. *)
Definition reserved_run : list Event :=
  [ StartCalled "lost+found"; StartResumes "shop-1";
    Emit 0 (Pairing "2@qrpayload"); StartCalled "lost+found";
    StartResumes "shop-2"; Emit 0 (Closed (Some 408)); TimerFires "shop-1" ].

(** Everything the server keeps for an instance is as it was: registry
    entry, logged-in account, pairing payload, credential directory. *)
Definition untouched (id : string) (w w' : World) : Prop :=
  sessions w' !! id = sessions w !! id ∧
  identity w' id = identity w id ∧
  qrCodes w' !! id = qrCodes w !! id ∧
  (id ∈ authDirs w' ↔ id ∈ authDirs w).

(** Two shops side by side, the first connected, the second showing its QR
    code. *)
Definition world_two_shops : World :=
  {| socks := [ {| owner := "shop-1"; destroyed := false;
                   ws_isClosed := false;
                   user := Some "5511988887777:12@s.whatsapp.net" |};
                fresh_sock "shop-2" ];
     sessions := {[ "shop-1" := 0; "shop-2" := 1 ]};
     qrCodes := {[ "shop-2" := "2@qrpayload" ]};
     authDirs := {[ "shop-1"; "shop-2" ]};
     starting := []; timers := []; posts := []; commands := [] |}.

(** ** Messages as the transport hands them over *)

(** The key of a message as the transport's type has it: [remoteJid] may be
    missing. *)
Record WireKey := mkWireKey {
  wire_fromMe : bool;
  wire_id : option string;
  wire_remoteJid : option string;
  wire_participant : option string
}.

Record WireMessage := mkWire {
  wire_key : WireKey;
  wire_message : option MessageContent
}.

(** [msg.message?.conversation || msg.message?.extendedTextMessage?.text] *)
Definition text_of (m : WireMessage) : option string :=
  Js.or (c ← wire_message m; conversation c)
        (c ← wire_message m; e ← extendedText c; e).

(** The key with its [remoteJid] filled in. *)
Definition key_with (k : WireKey) (remote : string) : MessageKey :=
  {| fromMe := wire_fromMe k; key_id := wire_id k; remoteJid := remote;
     participant := wire_participant k |}.

(** The message of a key that has its [remoteJid]. *)
Definition message_of (m : WireMessage) : option WAMessage :=
  match wire_remoteJid (wire_key m) with
  | Some remote =>
      Some {| key := key_with (wire_key m) remote; message := wire_message m |}
  | None => None
  end.

Module ServerTsWire.

(** The body of the [for] loop, server.ts lines 88-104. The payload is
    built before the [try]: [msg.key.remoteJid.split] on a key without
    [remoteJid] throws there. *)
Definition upsert_one (env : Env) (instanceId : string) (h : nat)
    (msg : WireMessage) : M unit :=
  if negb (wire_fromMe (wire_key msg)) && Js.truthy (WEBHOOK_URL env) then
    let! phone := gets (connectedPhone h) in
    match wire_remoteJid (wire_key msg) with
    | None => throw
    | Some remote =>
        let webhookPayload :=
          {| p_event := "webhookReceived";
             p_instanceId := instanceId;
             p_connectedPhone := phone;
             p_messageId := wire_id (wire_key msg);
             p_sender := Some (Js.split_head Js.at_sign remote);
             p_rawId := None;
             p_msgContent := text_of msg |} in
        try_catch (axios_post env webhookPayload) (ret tt)
    end
  else ret tt.

(** The [messages.upsert] listener, lines 85-107. *)
Definition on_messages_upsert (env : Env) (instanceId : string) (h : nat)
    (messages : list WireMessage) (type : UpsertType) : M unit :=
  match type with
  | Notify => for_of messages (upsert_one env instanceId h)
  | Append => ret tt
  end.

End ServerTsWire.

Module Part001Wire.

(** The body of the [for] loop, part_001 lines 91-102; [remoteJid] is not
    read. *)
Definition upsert_one (env : Env) (instanceId : string) (h : nat)
    (msg : WireMessage) : M unit :=
  if negb (wire_fromMe (wire_key msg)) && Js.truthy (WEBHOOK_URL env) then
    try_catch
      (let! phone := gets (connectedPhone h) in
       axios_post env
         {| p_event := "webhookReceived";
            p_instanceId := instanceId;
            p_connectedPhone := phone;
            p_messageId := None;
            p_sender := None;
            p_rawId := None;
            p_msgContent := text_of msg |})
      (ret tt)
  else ret tt.

(** The [messages.upsert] listener, lines 88-105. *)
Definition on_messages_upsert (env : Env) (instanceId : string) (h : nat)
    (messages : list WireMessage) (type : UpsertType) : M unit :=
  match type with
  | Notify => for_of messages (upsert_one env instanceId h)
  | Append => ret tt
  end.

End Part001Wire.

Module Part000Wire.

(** The body of the [for] loop, part_000 lines 264-302. [senderNumber] is
    computed before the [try]: [remoteJid.split] on a key without
    [remoteJid] throws there (line 275). *)
Definition upsert_one (env : Env) (instanceId : string) (h : nat)
    (msg : WireMessage) : M unit :=
  if negb (wire_fromMe (wire_key msg)) && Js.truthy (WEBHOOK_URL env) then
    match wire_remoteJid (wire_key msg) with
    | None => throw
    | Some remoteJid =>
        let senderNumber :=
          Part000.senderNumber (key_with (wire_key msg) remoteJid) in
        try_catch
          (let! phone := gets (connectedPhone h) in
           let payload :=
             {| p_event := "webhookReceived";
                p_instanceId := instanceId;
                p_connectedPhone := phone;
                p_messageId := None;
                p_sender := Some senderNumber;
                p_rawId := Some remoteJid;
                p_msgContent := text_of msg |} in
           if negb (Js.truthy (p_msgContent payload)) then ret tt   (* continue *)
           else axios_post env payload)
          (ret tt)
    end
  else ret tt.

(** The [messages.upsert] listener, lines 262-305. *)
Definition on_messages_upsert (env : Env) (instanceId : string) (h : nat)
    (messages : list WireMessage) (type : UpsertType) : M unit :=
  match type with
  | Notify => for_of messages (upsert_one env instanceId h)
  | Append => ret tt
  end.

End Part000Wire.

(** ** What a batch of inbound messages leaves at the webhook *)

(** The messages of a batch that a listener hands on: those of a
    ['notify'] batch that somebody else sent, when a webhook is
    configured. *)
Definition relayed (env : Env) (type : UpsertType)
    (messages : list WireMessage) : list WireMessage :=
  match type with
  | Notify =>
      if Js.truthy (WEBHOOK_URL env)
      then List.filter (λ m, negb (wire_fromMe (wire_key m))) messages
      else []
  | Append => []
  end.

(** The key of the message has its [remoteJid]. *)
Definition addressed (m : WireMessage) : bool :=
  match wire_remoteJid (wire_key m) with
  | Some _ => true
  | None => false
  end.

(** The elements of a list before the first one that is not [ok]. *)
Fixpoint upto {A} (ok : A → bool) (xs : list A) : list A :=
  match xs with
  | [] => []
  | x :: rest => if ok x then x :: upto ok rest else []
  end.

Definition with_text (messages : list WireMessage) : list WireMessage :=
  List.filter (λ m, Js.truthy (text_of m)) messages.

(** Payload [p] reports message [m] for the instance, with the phone that
    socket [h] had in world [w]. *)
Definition reports (instanceId : string) (h : nat) (w : World)
    (m : WireMessage) (p : Payload) : Prop :=
  p_event p = "webhookReceived" ∧
  p_instanceId p = instanceId ∧
  p_connectedPhone p = connectedPhone h w ∧
  p_msgContent p = text_of m.

(** A batch of three from a customer; the key of the second has no
    [remoteJid]. *)
Definition batch_with_gap : list WireMessage :=
  [ {| wire_key := {| wire_fromMe := false; wire_id := Some "A1";
                      wire_remoteJid := Some "5511977776666@s.whatsapp.net";
                      wire_participant := None |};
       wire_message := Some {| conversation := Some "Oi";
                               extendedText := None |} |};
    {| wire_key := {| wire_fromMe := false; wire_id := Some "A2";
                      wire_remoteJid := None; wire_participant := None |};
       wire_message := Some {| conversation := Some "Tudo bem?";
                               extendedText := None |} |};
    {| wire_key := {| wire_fromMe := false; wire_id := Some "A3";
                      wire_remoteJid := Some "5511977776666@s.whatsapp.net";
                      wire_participant := None |};
       wire_message := Some {| conversation := Some "Quero marcar";
                               extendedText := None |} |} ].


(** ** Whose socket a route commands *)

(** Everything that was added to the command log between [w] and [w'] went
    to a socket made for the instance that [v] names. *)
Definition issued_for (w w' : World) (v : option string) : Prop :=
  ∃ extra, commands w' = commands w ++ extra ∧
    ∀ h c, (h, c) ∈ extra →
      ∃ s, socks w !! h = Some s ∧ v = Some (owner s).


(** * src/unnamed/part_000, first document: the single-instance prototype *)

Module Part000Single.

(** The three values [connectionStatus] takes. *)
Inductive Status := disconnected | qrcode_ready | connected.

(** The module-level variables (lines 22-24), and what leaves the process.
    There is no registry: one [sock] variable holds the object made last. *)
Record State := mkState {
  sock : option nat;               (* let sock: any *)
  qrCodeData : option string;      (* let qrCodeData: string | null = null *)
  connectionStatus : Status;       (* let connectionStatus = 'disconnected' *)
  made : nat;                      (* objects made by makeWASocket so far *)
  connecting : nat;                (* connectToWhatsApp calls parked at await *)
  terminal : list string;          (* qrcodeTerminal.generate(qr, ...) *)
  sent : list (nat * Command)      (* calls of sock.sendMessage *)
}.

Definition initial : State :=
  {| sock := None; qrCodeData := None; connectionStatus := disconnected;
     made := 0; connecting := 0; terminal := []; sent := [] |}.

(** [connectToWhatsApp()], lines 27-28: up to
    [await useMultiFileAuthState(AUTH_FOLDER)]. *)
Definition connectToWhatsApp_enter (s : State) : State :=
  {| sock := sock s; qrCodeData := qrCodeData s;
     connectionStatus := connectionStatus s; made := made s;
     connecting := S (connecting s); terminal := terminal s;
     sent := sent s |}.

(** Lines 30-95, once the [await] has resolved: the new object is assigned
    to [sock] and gets its listeners. *)
Definition connectToWhatsApp_resume (s : State) : State :=
  match connecting s with
  | 0 => s
  | S parked =>
      {| sock := Some (made s); qrCodeData := qrCodeData s;
         connectionStatus := connectionStatus s; made := S (made s);
         connecting := parked; terminal := terminal s; sent := sent s |}
  end.

(** The state after the module has been loaded: line 99 has called
    [connectToWhatsApp()]. *)
Definition at_load : State := connectToWhatsApp_enter initial.

Definition set_status (st : Status) (s : State) : State :=
  {| sock := sock s; qrCodeData := qrCodeData s; connectionStatus := st;
     made := made s; connecting := connecting s; terminal := terminal s;
     sent := sent s |}.

Definition set_qrCodeData (q : option string) (s : State) : State :=
  {| sock := sock s; qrCodeData := q;
     connectionStatus := connectionStatus s; made := made s;
     connecting := connecting s; terminal := terminal s; sent := sent s |}.

(** The [connection.update] listener, lines 39-63. Every socket's listener
    writes the same variables. *)
Definition on_connection_update (update : Update) (s : State) : State :=
  let s1 :=
    match qr update with
    | Some q =>
        if Js.truthy (Some q) then
          {| sock := sock s; qrCodeData := Some q;
             connectionStatus := qrcode_ready; made := made s;
             connecting := connecting s; terminal := terminal s ++ [q];
             sent := sent s |}
        else s
    | None => s
    end in
  match connection update with
  | Some ConnClose =>
      let shouldReconnect :=
        negb (bool_decide (statusCode update = Some loggedOut)) in
      let s2 := set_status disconnected s1 in
      if shouldReconnect then connectToWhatsApp_enter s2 else s2
  | Some ConnOpen => set_qrCodeData None (set_status connected s1)
  | _ => s1
  end.

(** [POST /v1/message/send-text], lines 105-135; the whole body is inside
    [try]. The [insertedId] of the answer is not modelled. *)
Definition send_text (env : Env) (req : Request) (s : State)
    : Response * State :=
  let failed := json 500 (Some true) (Some "Erro ao enviar mensagem") in
  if negb (Js.truthy (body_phone req)) || negb (Js.truthy (body_message req))
  then (json 400 (Some true) (Some "Phone e Message são obrigatórios"), s)
  else
    match connectionStatus s with
    | connected =>
        match body_phone req, sock s with
        | Some phone, Some h =>
            let jid := Js.strip_non_digits phone +:+ "@s.whatsapp.net" in
            let s' :=
              {| sock := sock s; qrCodeData := qrCodeData s;
                 connectionStatus := connectionStatus s; made := made s;
                 connecting := connecting s; terminal := terminal s;
                 sent := sent s ++ [(h, SendMessage jid (body_message req))] |} in
            match sendMessage_result env with
            | Rejects => (failed, s')
            | Resolves None => (failed, s')          (* result.key on undefined *)
            | Resolves (Some mid) =>
                ({| status := 200; res_error := Some false;
                    res_message := None;
                    res_instanceId := Some "MEU-SISTEMA-PROPRIO";
                    res_messageId := mid |}, s')
            end
        | _, _ => (failed, s)      (* sock.sendMessage on undefined *)
        end
    | _ => (json 503 (Some true) (Some "Instância não conectada"), s)
    end.

(** [GET /v1/instance/qr-code], lines 139-160. *)
Definition qr_code (toDataURL : string → string) (s : State) : Answer :=
  let not_yet :=
    {| a_status := 404; a_error := Some true;
       a_message := Some "QR Code ainda não gerado. Aguarde...";
       a_instanceId := None; a_connected := None; a_qrcode := None |} in
  match connectionStatus s with
  | connected =>
      {| a_status := 200; a_error := Some false;
         a_message := Some "Instância já conectada";
         a_instanceId := None; a_connected := Some true;
         a_qrcode := None |}
  | _ =>
      match qrCodeData s with
      | Some q =>
          if negb (Js.truthy (Some q)) then not_yet else
          {| a_status := 200; a_error := Some false; a_message := None;
             a_instanceId := Some "MEU-SISTEMA-PROPRIO";
             a_connected := None; a_qrcode := Some (toDataURL q) |}
      | None => not_yet
      end
  end.

(** [GET /v1/instance/status-instance], lines 164-169. *)
Definition status_instance (s : State) : Answer :=
  {| a_status := 200; a_error := None; a_message := None;
     a_instanceId := Some "MEU-SISTEMA-PROPRIO";
     a_connected := Some match connectionStatus s with
                         | connected => true
                         | _ => false
                         end;
     a_qrcode := None |}.

(** What can happen between two turns of the event loop. *)
Inductive Turn :=
  | Updated (update : Update)      (* some socket emits connection.update *)
  | Resumed                        (* a parked connectToWhatsApp goes on *)
  | SendText (req : Request).

Definition exec (env : Env) (t : Turn) (s : State) : State :=
  match t with
  | Updated update => on_connection_update update s
  | Resumed => connectToWhatsApp_resume s
  | SendText req => (send_text env req s).2
  end.

(** Only a socket that was made has listeners, and only a parked call can
    resume. *)
Definition permitted (s : State) (t : Turn) : bool :=
  match t with
  | Updated _ => (0 <? made s)%nat
  | Resumed => (0 <? connecting s)%nat
  | SendText _ => true
  end.

Fixpoint run (env : Env) (turns : list Turn) (s : State) : State :=
  match turns with
  | [] => s
  | t :: rest => run env rest (exec env t s)
  end.

Fixpoint run_permitted (env : Env) (turns : list Turn) (s : State) : bool :=
  match turns with
  | [] => true
  | t :: rest => permitted s t && run_permitted env rest (exec env t s)
  end.

End Part000Single.

(** What holds of the prototype's variables between turns: the status
    [connected] goes with an assigned [sock] and no pairing payload, the
    status [qrcode_ready] with a payload that is not empty. *)
Definition single_consistent (s : Part000Single.State) : Prop :=
  (0 < Part000Single.made s → is_Some (Part000Single.sock s)) ∧
  (Part000Single.connectionStatus s = Part000Single.connected →
     0 < Part000Single.made s ∧ Part000Single.qrCodeData s = None) ∧
  (Part000Single.connectionStatus s = Part000Single.qrcode_ready →
     present (Part000Single.qrCodeData s)).

(** Pairing, then login, then a transient close. *)
Definition single_run : list Part000Single.Turn :=
  [ Part000Single.Resumed;
    Part000Single.Updated
      {| connection := None; statusCode := None; qr := Some "2@qrpayload" |};
    Part000Single.Updated open_update ].


(** ** Instance ids and directory names *)

(** An instance id that is one path segment: not empty, not [.] or [..],
    and without [/] or a NUL character. For such an id
    [path.join('auth_info_baileys', instanceId)] is the directory of that
    name directly under [auth_info_baileys], which is how [existsSync],
    [mkdirSync] and [rmSync] keep the directories; on the POSIX file
    system the server is deployed on, two different plain ids have
    different directories, neither inside the other. For an id of
    another shape [path.join] normalises the path ([./x] is the directory
    of [x], [.] is the whole folder), so what is proved about directories
    is stated for plain ids. *)
Definition plain (instanceId : string) : bool :=
  negb (instanceId =? "")%string &&
  negb (instanceId =? ".")%string &&
  negb (instanceId =? "..")%string &&
  forallb (λ c, negb (Ascii.eqb c "/") && negb (Ascii.eqb c Ascii.zero))
    (list_ascii_of_string instanceId).

(** The instance ids a request carries. *)
Definition request_ids (req : Request) : list string :=
  option_list (query_instanceId req) ++ option_list (body_instanceId req).

(** The instance ids that come into the server with an event. *)
Definition event_ids (e : Event) : list string :=
  match e with
  | StartCalled instanceId | StartResumes instanceId | TimerFires instanceId =>
      [instanceId]
  | SendText req | LogoutRequest req | ResetRequest req => request_ids req
  | Emit _ _ | Upsert _ _ _ => []
  end.

Definition plain_run (events : list Event) : bool :=
  forallb (λ e, forallb plain (event_ids e)) events.

(** [readdirSync] lists names, which are plain. *)
Definition plain_listing (listing : option (list DirEntry)) : bool :=
  match listing with
  | Some existingSessions =>
      forallb (λ e, plain (entry_name e)) existingSessions
  | None => true
  end.


(** * Running handler code *)

Ltac run :=
  cbv [bind ret throw try_catch modify gets existsSync mkdirSync rmSync
       command sock_end sock_logout sendMessage axios_post makeWASocket].

(** * Properties of the JavaScript helpers *)

Lemma truthy_present v : Js.truthy v = true ↔ present v.
Proof.
  unfold present. destruct v as [s|]; simpl.
  - destruct (String.eqb_spec s ""); simpl; split.
    + discriminate.
    + intros (s' & [= <-] & Hne). contradiction.
    + intros _. eauto.
    + reflexivity.
  - split; [discriminate | intros (s & [=] & _)].
Qed.

Lemma append_cons c a b : String c a +:+ b = String c (a +:+ b).
Proof. reflexivity. Qed.

Lemma append_nil b : "" +:+ b = b.
Proof. reflexivity. Qed.

Lemma split_head_spec sep s : part_before sep s (Js.split_head sep s).
Proof.
  induction s as [|c s [Hnot Hshape]]; simpl.
  - split; [intros [] | left; reflexivity].
  - destruct (Ascii.eqb_spec c sep) as [->|Hne]; simpl.
    + split; [intros [] | right; exists s; reflexivity].
    + split.
      * intros [Heq | Hin]; [congruence | contradiction].
      * destruct Hshape as [Heq | (rest & Heq)].
        -- left. congruence.
        -- right. exists rest. rewrite append_cons. congruence.
Qed.

Lemma part_before_split_head sep addr part :
  part_before sep addr part → part = Js.split_head sep addr.
Proof.
  revert addr.
  induction part as [|c part IH]; intros addr [Hnot Hshape].
  - destruct Hshape as [-> | (rest & ->)]; [reflexivity |].
    rewrite append_nil. simpl. now rewrite Ascii.eqb_refl.
  - assert (c ≠ sep) as Hne by (intros ->; apply Hnot; simpl; auto).
    assert (¬ In sep (list_ascii_of_string part)) as Hnot'
      by (intros Hin; apply Hnot; simpl; auto).
    apply Ascii.eqb_neq in Hne.
    destruct Hshape as [-> | (rest & ->)]; rewrite ?append_cons; simpl;
      rewrite Hne; f_equal; apply IH; split; eauto.
Qed.

Lemma part_before_unique sep addr p1 p2 :
  part_before sep addr p1 → part_before sep addr p2 → p1 = p2.
Proof.
  intros H1 H2.
  rewrite (part_before_split_head _ _ _ H1).
  now rewrite (part_before_split_head _ _ _ H2).
Qed.

Lemma prefix_cons a pat b s :
  String.prefix (String a pat) (String b s) =
  if Ascii.ascii_dec a b then String.prefix pat s else false.
Proof. reflexivity. Qed.

Lemma prefix_spec pat s :
  String.prefix pat s = true ↔ ∃ post, s = pat +:+ post.
Proof.
  revert s. induction pat as [|a pat IH]; intros s.
  - split; [intros _; exists s; reflexivity | intros _; now destruct s].
  - destruct s as [|b s].
    + split; [discriminate | intros (post & Heq); discriminate].
    + rewrite prefix_cons. destruct (Ascii.ascii_dec a b) as [->|Hne].
      * split.
        -- intros Hp. apply IH in Hp as (post & Heq). exists post.
           rewrite append_cons. congruence.
        -- intros (post & Heq). apply IH. exists post.
           rewrite append_cons in Heq. congruence.
      * split; [discriminate |].
        intros (post & Heq). rewrite append_cons in Heq. congruence.
Qed.

Lemma includes_eq pat s :
  Js.includes pat s =
  String.prefix pat s ||
  match s with "" => false | String _ rest => Js.includes pat rest end.
Proof. destruct s; reflexivity. Qed.

Lemma includes_spec pat s : Js.includes pat s = true ↔ occurs_in pat s.
Proof.
  unfold occurs_in. induction s as [|c s IH]; rewrite includes_eq.
  - rewrite orb_false_r, prefix_spec. split.
    + intros (post & Heq). exists "", post. exact Heq.
    + intros ([|? pre] & post & Heq); [eauto | discriminate].
  - rewrite orb_true_iff, prefix_spec, IH. split.
    + intros [(post & Heq) | (pre & post & Heq)].
      * exists "", post. exact Heq.
      * exists (String c pre), post. rewrite append_cons. congruence.
    + intros ([|d pre] & post & Heq).
      * left. exists post. exact Heq.
      * right. exists pre, post. rewrite append_cons in Heq. congruence.
Qed.

Lemma includes_lid_form addr : Js.includes "@lid" addr = true ↔ lid_form addr.
Proof. apply includes_spec. Qed.

Lemma for_of_app {A} (xs ys : list A) body w :
  for_of (xs ++ ys) body w = bind (for_of xs body) (λ _, for_of ys body) w.
Proof.
  revert w. induction xs as [|x xs IH]; intros w; simpl.
  - reflexivity.
  - unfold bind. destruct (body x w) as [[[]|] w1]; [|reflexivity].
    rewrite IH. reflexivity.
Qed.

Lemma app_singleton_neq {A} (l : list A) (x : A) : l ≠ l ++ [x].
Proof.
  intros Heq. apply (f_equal List.length) in Heq.
  rewrite length_app in Heq. simpl in Heq. lia.
Qed.

(** * The sender reported to the webhook (part_000) *)

Lemma senderNumber_spec (k : MessageKey) :
  (lid_form (remoteJid k) ∧ present (participant k) →
     ∃ part, participant k = Some part ∧
             part_before Js.at_sign part (Part000.senderNumber k)) ∧
  (¬ (lid_form (remoteJid k) ∧ present (participant k)) →
     part_before Js.at_sign (remoteJid k) (Part000.senderNumber k)).
Proof.
  unfold Part000.senderNumber.
  destruct (Js.includes "@lid" (remoteJid k)) eqn:Hlid;
    destruct (Js.truthy (participant k)) eqn:Hpart; simpl.
  - apply truthy_present in Hpart as Hpres.
    destruct Hpres as (part & Heq & Hne). rewrite Heq. split.
    + intros _. exists part. split; [reflexivity | apply split_head_spec].
    + intros Hno. exfalso. apply Hno. split.
      * now apply includes_lid_form.
      * exists part. now split.
  - split.
    + intros [_ Hpres]. apply truthy_present in Hpres. congruence.
    + intros _. apply split_head_spec.
  - split.
    + intros [Hform _]. apply includes_lid_form in Hform. congruence.
    + intros _. apply split_head_spec.
  - split.
    + intros [Hform _]. apply includes_lid_form in Hform. congruence.
    + intros _. apply split_head_spec.
Qed.

(** What [Part000.upsert_one] posts, if anything. *)
Lemma part000_upsert_one_posts env instanceId h msg w :
  let w' := (Part000.upsert_one env instanceId h msg w).2 in
  posts w' = posts w ∨
  ∃ p, posts w' = posts w ++ [p] ∧
       fromMe (key msg) = false ∧
       p_sender p = Some (Part000.senderNumber (key msg)) ∧
       p_msgContent p = msgContent msg ∧
       Js.truthy (msgContent msg) = true.
Proof.
  unfold Part000.upsert_one.
  destruct (fromMe (key msg)); simpl; [left; reflexivity |].
  destruct (Js.truthy (WEBHOOK_URL env)); simpl; [| left; reflexivity].
  run. simpl.
  destruct (Js.truthy (msgContent msg)) eqn:Htext; simpl; [| left; reflexivity].
  right. eexists. 
  destruct (post_fails env _); simpl; (split; [reflexivity |]); auto.
Qed.

(** C9. For every inbound message that [part_000]'s listener relays, the
    [sender] field of the webhook payload is the part before ['@'] of the
    participant identifier when the primary address [remoteJid] is of the
    ['@lid'] form and a participant is present, and the part before ['@'] of
    [remoteJid] in every other case. *)
Theorem C9_sender_identity env instanceId h msg w p :
  posts (Part000.upsert_one env instanceId h msg w).2 = posts w ++ [p] →
  ∃ sender,
    p_sender p = Some sender ∧
    (lid_form (remoteJid (key msg)) ∧ present (participant (key msg)) →
       ∃ part, participant (key msg) = Some part ∧
               part_before Js.at_sign part sender) ∧
    (¬ (lid_form (remoteJid (key msg)) ∧ present (participant (key msg))) →
       part_before Js.at_sign (remoteJid (key msg)) sender).
Proof.
  intros Hposted.
  destruct (part000_upsert_one_posts env instanceId h msg w)
    as [Hsame | (p' & Hpost & _ & Hsender & _)].
  - simpl in Hsame. rewrite Hsame in Hposted.
    now apply app_singleton_neq in Hposted.
  - simpl in Hpost. rewrite Hpost in Hposted.
    apply app_inv_head in Hposted as [= <-].
    exists (Part000.senderNumber (key msg)).
    split; [exact Hsender | apply senderNumber_spec].
Qed.

(** * Own messages, empty messages and failing webhooks *)








Lemma serverts_upsert_one_fromMe env instanceId h msg w :
  fromMe (key msg) = true →
  ServerTs.upsert_one env instanceId h msg w = (Ok tt, w).
Proof. intros Hme. unfold ServerTs.upsert_one. now rewrite Hme. Qed.

Lemma part001_upsert_one_fromMe env instanceId h msg w :
  fromMe (key msg) = true →
  Part001.upsert_one env instanceId h msg w = (Ok tt, w).
Proof. intros Hme. unfold Part001.upsert_one. now rewrite Hme. Qed.

Lemma for_of_skip {A} (pre post : list A) (x : A) (f : A → M unit) w :
  (∀ w, f x w = (Ok tt, w)) →
  for_of (pre ++ x :: post) f w = for_of (pre ++ post) f w.
Proof.
  intros Hskip. rewrite !for_of_app. unfold bind.
  destruct (for_of pre f w) as [[[]|] w1]; [| reflexivity].
  simpl. unfold bind. now rewrite Hskip.
Qed.

(** C10. For every inbound message whose key has [fromMe = true], with
    or without a configured webhook endpoint: the loop body leaves the
    world as it was (no [axios.post]), and the listener does on a batch
    that contains the message exactly what it does on the batch without it.
    Holds for [server.ts] and for [part_001]. *)
Theorem C10_own_messages_not_dispatched env instanceId h pre msg post type w :
  fromMe (key msg) = true →
  ServerTs.upsert_one env instanceId h msg w = (Ok tt, w) ∧
  Part001.upsert_one env instanceId h msg w = (Ok tt, w) ∧
  ServerTs.on_messages_upsert env instanceId h (pre ++ msg :: post) type w =
    ServerTs.on_messages_upsert env instanceId h (pre ++ post) type w ∧
  Part001.on_messages_upsert env instanceId h (pre ++ msg :: post) type w =
    Part001.on_messages_upsert env instanceId h (pre ++ post) type w.
Proof.
  intros Hme. repeat split.
  - now apply serverts_upsert_one_fromMe.
  - now apply part001_upsert_one_fromMe.
  - destruct type; [| reflexivity]. simpl. apply for_of_skip.
    intros. now apply serverts_upsert_one_fromMe.
  - destruct type; [| reflexivity]. simpl. apply for_of_skip.
    intros. now apply part001_upsert_one_fromMe.
Qed.

(** In [part_000] a message without text never reaches [axios.post]. *)
Lemma part000_no_text_dropped env instanceId h msg w :
  Js.truthy (msgContent msg) = false →
  Part000.upsert_one env instanceId h msg w = (Ok tt, w).
Proof.
  intros Hno. unfold Part000.upsert_one.
  destruct (negb (fromMe (key msg)) && Js.truthy (WEBHOOK_URL env));
    [| reflexivity].
  run. simpl. now rewrite Hno.
Qed.

Example C9_witness :
  posts (Part000.upsert_one env_quiet "shop-1" 0 msg_lid world_connected).2 =
    posts world_connected ++ [payload_lid] ∧
  ∃ sender,
    p_sender payload_lid = Some sender ∧
    (lid_form (remoteJid (key msg_lid)) ∧
     present (participant (key msg_lid)) →
       ∃ part, participant (key msg_lid) = Some part ∧
               part_before Js.at_sign part sender) ∧
    (¬ (lid_form (remoteJid (key msg_lid)) ∧
        present (participant (key msg_lid))) →
       part_before Js.at_sign (remoteJid (key msg_lid)) sender).
Proof.
  split; [reflexivity |].
  apply (C9_sender_identity env_quiet "shop-1" 0 msg_lid world_connected
           payload_lid).
  reflexivity.
Defined.

Example C10_witness :
  fromMe (key msg_own) = true ∧
  ServerTs.upsert_one env_quiet "shop-1" 0 msg_own world_connected =
    (Ok tt, world_connected) ∧
  Part001.upsert_one env_quiet "shop-1" 0 msg_own world_connected =
    (Ok tt, world_connected) ∧
  ServerTs.on_messages_upsert env_quiet "shop-1" 0
      ([msg_lid] ++ msg_own :: [msg_image]) Notify world_connected =
    ServerTs.on_messages_upsert env_quiet "shop-1" 0
      ([msg_lid] ++ [msg_image]) Notify world_connected ∧
  Part001.on_messages_upsert env_quiet "shop-1" 0
      ([msg_lid] ++ msg_own :: [msg_image]) Notify world_connected =
    Part001.on_messages_upsert env_quiet "shop-1" 0
      ([msg_lid] ++ [msg_image]) Notify world_connected.
Proof.
  split; [reflexivity |].
  apply (C10_own_messages_not_dispatched env_quiet "shop-1" 0
           [msg_lid] msg_own [msg_image] Notify world_connected).
  reflexivity.
Defined.

(** * Starting a session *)

Lemma serverts_start_live_noop w instanceId h :
  ServerTs.live w instanceId = Some h →
  ServerTs.startSession_enter instanceId w = (Ok (Returned (Some h)), w) ∧
  ServerTs.startSession instanceId w = (Ok (Some h), w).
Proof.
  intros Hlive. unfold ServerTs.startSession, ServerTs.startSession_enter.
  run. now rewrite Hlive.
Qed.

Lemma part001_start_live_noop w instanceId h :
  Part001.live w instanceId = Some h →
  Part001.startSession_enter instanceId w = (Ok (Returned (Some h)), w) ∧
  Part001.startSession instanceId w = (Ok (Some h), w).
Proof.
  intros Hlive. unfold Part001.startSession, Part001.startSession_enter.
  run. now rewrite Hlive.
Qed.

Lemma part000_start_live_noop w instanceId h :
  Part000.reserved instanceId = false →
  Part000.live w instanceId = Some h →
  Part000.startSession_enter instanceId w = (Ok (Returned (Some h)), w) ∧
  Part000.startSession instanceId w = (Ok (Some h), w).
Proof.
  intros Hres Hlive.
  unfold Part000.startSession, Part000.startSession_enter.
  rewrite Hres. run. now rewrite Hlive.
Qed.

(** A live entry is the registered socket, and that socket is not flagged. *)
Lemma serverts_live_registered w instanceId h :
  ServerTs.live w instanceId = Some h ↔
  sessions w !! instanceId = Some h ∧
  ∃ s, socks w !! h = Some s ∧ destroyed s = false.
Proof.
  unfold ServerTs.live. split.
  - intros Hlive.
    destruct (sessions w !! instanceId) as [h'|] eqn:Hreg; [| discriminate].
    simpl in Hlive.
    destruct (socks w !! h') as [s|] eqn:Hsock; [| discriminate].
    simpl in Hlive. destruct (destroyed s) eqn:Hd; [discriminate |].
    injection Hlive as <-. eauto.
  - intros (Hreg & s & Hsock & Hd).
    rewrite Hreg. simpl. rewrite Hsock. simpl. now rewrite Hd.
Qed.

(** A start on an instance without a live entry, run without interruption,
    makes one new socket and registers it. *)
Lemma serverts_start_fresh w instanceId :
  ServerTs.live w instanceId = None →
  let r := ServerTs.startSession instanceId w in
  r.1 = Ok (Some (List.length (socks w))) ∧
  socks r.2 = socks w ++ [fresh_sock instanceId] ∧
  sessions r.2 !! instanceId = Some (List.length (socks w)) ∧
  instanceId ∈ authDirs r.2.
Proof.
  intros Hdead. unfold ServerTs.startSession, ServerTs.startSession_enter,
    ServerTs.startSession_resume.
  run. rewrite Hdead.
  destruct (bool_decide (instanceId ∈ authDirs w)) eqn:Hdir; simpl;
    (repeat split; [apply lookup_insert_eq |]).
  - now apply bool_decide_eq_true in Hdir.
  - set_solver.
Qed.

(** C1 fails on [server.ts] and on [part_000]. Two calls of
    [startSession] for the same unknown instance, the second arriving while
    the first waits at [await useMultiFileAuthState], both pass the guard
    and both make a socket: afterwards two open sockets exist for the
    instance and the registry knows only the later one. *)
Theorem C1_overlapping_starts_two_sockets :
  let rs := serverts_overlapping_starts "shop-1" empty_world in
  let rp := part000_overlapping_starts "shop-1" empty_world in
  run_permitted (serverts_exec env_quiet) overlapping_run empty_world = true ∧
  run_events (serverts_exec env_quiet) overlapping_run empty_world = rs.2 ∧
  rs.1 = Ok (0, 1) ∧
  open_socks_of rs.2 "shop-1" = [0; 1] ∧
  sessions rs.2 !! "shop-1" = Some 1 ∧
  rp.1 = Ok (0, 1) ∧
  open_socks_of rp.2 "shop-1" = [0; 1] ∧
  sessions rp.2 !! "shop-1" = Some 1.
Proof. repeat split; reflexivity. Qed.

(** * The [connection.update] listener *)

Lemma bind_Ok {A B} (m : M A) (k : A → M B) w a w1 :
  m w = (Ok a, w1) → bind m k w = k a w1.
Proof. intros Hm. unfold bind. now rewrite Hm. Qed.

Lemma bind_Threw {A B} (m : M A) (k : A → M B) w w1 :
  m w = (Threw, w1) → bind m k w = (Threw, w1).
Proof. intros Hm. unfold bind. now rewrite Hm. Qed.

(** [note_qr] never throws and touches the pairing cache only. *)
Lemma note_qr_frame instanceId update w :
  ∃ w1, note_qr instanceId update w = (Ok tt, w1) ∧
        socks w1 = socks w ∧ sessions w1 = sessions w ∧
        authDirs w1 = authDirs w ∧ starting w1 = starting w ∧
        timers w1 = timers w ∧ posts w1 = posts w ∧
        commands w1 = commands w.
Proof.
  unfold note_qr. destruct (qr update) as [q|].
  - destruct (Js.truthy (Some q)); eexists; (split; [reflexivity |]);
      repeat split.
  - eexists; (split; [reflexivity |]); repeat split.
Qed.

Lemma serverts_live_frame w w1 instanceId :
  socks w1 = socks w → sessions w1 = sessions w →
  ServerTs.live w1 instanceId = ServerTs.live w instanceId.
Proof. intros Hs Hr. unfold ServerTs.live. now rewrite Hs, Hr. Qed.

(** Entering [startSession] in [server.ts] parks a call unless the
    registered socket is live; it never removes anything. *)
Lemma serverts_enter_effect instanceId w :
  let r := ServerTs.startSession_enter instanceId w in
  (∃ st, r.1 = Ok st) ∧
  socks r.2 = socks w ∧ sessions r.2 = sessions w ∧
  qrCodes r.2 = qrCodes w ∧ authDirs w ⊆ authDirs r.2 ∧
  starting r.2 = match ServerTs.live w instanceId with
                 | Some _ => starting w
                 | None => starting w ++ [instanceId]
                 end.
Proof.
  unfold ServerTs.startSession_enter. run.
  destruct (ServerTs.live w instanceId); simpl.
  - repeat split; eauto.
  - destruct (bool_decide (instanceId ∈ authDirs w)); simpl;
      repeat split; eauto; set_solver.
Qed.

Lemma serverts_enter_discard instanceId w :
  bind (ServerTs.startSession_enter instanceId) (λ _, ret tt) w =
  (Ok tt, (ServerTs.startSession_enter instanceId w).2).
Proof.
  destruct (serverts_enter_effect instanceId w) as ((st & Hok) & _).
  unfold bind.
  destruct (ServerTs.startSession_enter instanceId w) as [o w2].
  simpl in Hok. now subst o.
Qed.

(** C2, as the code has it by design. For every instance and every
    world, when the listener receives a close event (and [fs.rmSync] does
    not fail):
    - reason other than logged-out: the listener runs the start path -
      [server.ts] by calling [startSession] at once, [part_001] by arming a
      timer whose firing parks a new start once the registered socket is
      closed - and neither removes the registry entry or any credential
      directory;
    - reason logged-out: both remove the registry entry and the pairing
      entry; [part_001] also removes the credential directory, [server.ts]
      leaves every credential directory as it was. *)
Theorem C2_close_event env instanceId update w :
  connection update = Some ConnClose →
  rmSync_throws env = false →
  let rs := ServerTs.on_connection_update instanceId update w in
  let rp := Part001.on_connection_update env instanceId update w in
  rs.1 = Ok tt ∧ rp.1 = Ok tt ∧
  if bool_decide (statusCode update = Some loggedOut) then
    sessions rs.2 !! instanceId = None ∧
    qrCodes rs.2 !! instanceId = None ∧
    authDirs rs.2 = authDirs w ∧
    sessions rp.2 !! instanceId = None ∧
    qrCodes rp.2 !! instanceId = None ∧
    instanceId ∉ authDirs rp.2
  else
    rs = bind (note_qr instanceId update)
           (λ _, bind (ServerTs.startSession_enter instanceId) (λ _, ret tt)) w ∧
    sessions rs.2 = sessions w ∧
    authDirs w ⊆ authDirs rs.2 ∧
    timers rp.2 = timers w ++ [instanceId] ∧
    sessions rp.2 = sessions w ∧
    authDirs rp.2 = authDirs w ∧
    (Part001.live w instanceId = None →
       let rt := Part001.timer_fires instanceId rp.2 in
       rt.1 = Ok Parked ∧ instanceId ∈ starting rt.2 ∧
       sessions rt.2 = sessions w ∧ authDirs w ⊆ authDirs rt.2).
Proof.
  intros Hclose Hrm rs rp. subst rs rp.
  unfold ServerTs.on_connection_update, Part001.on_connection_update.
  rewrite Hclose.
  destruct (note_qr_frame instanceId update w)
    as (w1 & Hnote & Hsocks & Hreg & Hdirs & Hstart & Htimers & _ & _).
  rewrite !(bind_Ok (note_qr instanceId update) _ w tt w1 Hnote).
  destruct (bool_decide (statusCode update = Some loggedOut)); simpl.
  - run. rewrite Hrm. simpl.
    case_bool_decide as Hthere; simpl;
      repeat split; try apply lookup_delete_eq; try exact Hdirs.
    + rewrite elem_of_difference, elem_of_singleton. tauto.
    + exact Hthere.
  - rewrite !serverts_enter_discard. simpl.
    destruct (serverts_enter_effect instanceId w1)
      as (_ & Hs & Hr & _ & Hd & _).
    split; [reflexivity |]. split; [reflexivity |].
    split; [reflexivity |].
    split; [now rewrite Hr |].
    split; [now rewrite <- Hdirs |].
    split; [now rewrite Htimers |].
    split; [exact Hreg |].
    split; [exact Hdirs |].
    intros Hdead. unfold Part001.timer_fires, Part001.startSession_enter.
    run. simpl.
    assert (Part001.live
              (set_timers (remove_first instanceId)
                 (set_timers (λ l, l ++ [instanceId]) w1)) instanceId = None)
      as Hdead1.
    { rewrite <- Hdead. unfold Part001.live. simpl. now rewrite Hsocks, Hreg. }
    unfold set_timers in Hdead1 |- *. simpl in Hdead1 |- *.
    rewrite Hdead1. simpl.
    case_bool_decide as Hthere; simpl.
    + split; [reflexivity |]. split; [set_solver |].
      split; [exact Hreg | now rewrite Hdirs].
    + split; [reflexivity |]. split; [set_solver |].
      split; [exact Hreg | rewrite Hdirs; set_solver].
Qed.

(** The transient case on [server.ts], at a state the server reaches:
    [shop-1] is registered and connected, its socket drops with a timeout.
    The listener calls [startSession] while that socket is still in the
    registry and not flagged [destroyed]; the guard of line 25 returns it,
    and nothing is started. *)
Lemma serverts_transient_close_starts_nothing instanceId update w h :
  connection update = Some ConnClose →
  statusCode update ≠ Some loggedOut →
  qr update = None →
  ServerTs.live w instanceId = Some h →
  ServerTs.on_connection_update instanceId update w = (Ok tt, w).
Proof.
  intros Hclose Hcode Hqr Hlive.
  unfold ServerTs.on_connection_update, note_qr.
  rewrite Hclose, Hqr, bind_Ok with (a := tt) (w1 := w) by reflexivity.
  rewrite (bool_decide_eq_false_2 _ Hcode). simpl.
  unfold ServerTs.startSession_enter. run. now rewrite Hlive.
Qed.

Example serverts_transient_close_example :
  ServerTs.on_connection_update "shop-1" close_timed_out world_connected
    = (Ok tt, world_connected).
Proof. reflexivity. Qed.

(** Once the listener has handled an update with [connection: 'open']
    (whatever else the update carries, a [qr] included) the instance has no
    pairing-cache entry, and the listener does not throw. *)
Lemma open_clears_pairing env instanceId update w :
  connection update = Some ConnOpen →
  let rs := ServerTs.on_connection_update instanceId update w in
  let rp := Part001.on_connection_update env instanceId update w in
  rs.1 = Ok tt ∧ qrCodes rs.2 !! instanceId = None ∧
  rp.1 = Ok tt ∧ qrCodes rp.2 !! instanceId = None.
Proof.
  intros Hopen rs rp. subst rs rp.
  unfold ServerTs.on_connection_update, Part001.on_connection_update.
  rewrite Hopen.
  destruct (note_qr_frame instanceId update w) as (w1 & Hnote & _).
  rewrite !(bind_Ok (note_qr instanceId update) _ w tt w1 Hnote).
  run. simpl. repeat split; apply lookup_delete_eq.
Qed.

Example open_clears_pairing_example :
  connection open_update = Some ConnOpen ∧
  (ServerTs.on_connection_update "shop-1" open_update world_pairing).1 = Ok tt ∧
  qrCodes (ServerTs.on_connection_update "shop-1" open_update world_pairing).2
    !! "shop-1" = None ∧
  (Part001.on_connection_update env_quiet "shop-1" open_update world_pairing).1
    = Ok tt ∧
  qrCodes
    (Part001.on_connection_update env_quiet "shop-1" open_update world_pairing).2
    !! "shop-1" = None.
Proof.
  split; [reflexivity |].
  apply (open_clears_pairing env_quiet "shop-1" open_update world_pairing).
  reflexivity.
Qed.

(** C2 fails on [server.ts]: after a logged-out close the registry entry of
    [shop-1] is gone and its credential directory is still there. *)
Lemma C2_serverts_logout_close_keeps_credentials :
  let w' := (ServerTs.on_connection_update "shop-1" close_logged_out
               world_pairing).2 in
  connection close_logged_out = Some ConnClose ∧
  statusCode close_logged_out = Some loggedOut ∧
  sessions w' !! "shop-1" = None ∧
  ¬ ("shop-1" ∉ authDirs w').
Proof.
  repeat split. intros Hgone. apply Hgone. simpl.
  now apply elem_of_singleton.
Qed.

Example C2_witness :
  connection close_logged_out = Some ConnClose ∧
  rmSync_throws env_quiet = false ∧
  let rs := ServerTs.on_connection_update "shop-1" close_logged_out
              world_pairing in
  let rp := Part001.on_connection_update env_quiet "shop-1" close_logged_out
              world_pairing in
  rs.1 = Ok tt ∧ rp.1 = Ok tt ∧
  if bool_decide (statusCode close_logged_out = Some loggedOut) then
    sessions rs.2 !! "shop-1" = None ∧
    qrCodes rs.2 !! "shop-1" = None ∧
    authDirs rs.2 = authDirs world_pairing ∧
    sessions rp.2 !! "shop-1" = None ∧
    qrCodes rp.2 !! "shop-1" = None ∧
    "shop-1" ∉ authDirs rp.2
  else
    rs = bind (note_qr "shop-1" close_logged_out)
           (λ _, bind (ServerTs.startSession_enter "shop-1") (λ _, ret tt))
           world_pairing ∧
    sessions rs.2 = sessions world_pairing ∧
    authDirs world_pairing ⊆ authDirs rs.2 ∧
    timers rp.2 = timers world_pairing ++ ["shop-1"] ∧
    sessions rp.2 = sessions world_pairing ∧
    authDirs rp.2 = authDirs world_pairing ∧
    (Part001.live world_pairing "shop-1" = None →
       let rt := Part001.timer_fires "shop-1" rp.2 in
       rt.1 = Ok Parked ∧ "shop-1" ∈ starting rt.2 ∧
       sessions rt.2 = sessions world_pairing ∧
       authDirs world_pairing ⊆ authDirs rt.2).
Proof.
  split; [reflexivity |]. split; [reflexivity |].
  apply (C2_close_event env_quiet "shop-1" close_logged_out world_pairing);
    reflexivity.
Defined.

(** The transient case of C2 on a concrete run of [part_001]: the socket of
    [shop-1] drops with a timeout, the timer fires once the socket is
    flagged closed, the parked start resumes. The instance ends up with a
    new socket in the registry and its credential directory untouched. *)
Example part001_reconnect_run :
  let dropped :=
    set_socks (λ l, <[0 := {| owner := "shop-1"; destroyed := false;
                              ws_isClosed := true;
                              user := Some "5511988887777:12@s.whatsapp.net" |}]> l)
      world_connected in
  let w1 := (Part001.on_connection_update env_quiet "shop-1" close_timed_out
               dropped).2 in
  let w2 := (Part001.timer_fires "shop-1" w1).2 in
  let w3 := (Part001.startSession_resume "shop-1" w2).2 in
  timers w1 = ["shop-1"] ∧ starting w2 = ["shop-1"] ∧
  sessions w3 !! "shop-1" = Some 1 ∧
  socks w3 !! 1 = Some (fresh_sock "shop-1") ∧
  authDirs w3 = authDirs world_connected.
Proof. repeat split. Qed.

(** * Sending text *)

(** [server.ts] answers 404 for an unknown instance and 503 for a
    registered one nobody is logged in on; in both cases nothing else
    happens, so [sock.sendMessage] is not called. *)
Lemma serverts_send_text_guard env req w t :
  Js.or (body_instanceId req) (query_instanceId req) = Some t →
  t ≠ "" →
  identity w t = None →
  ∃ r, ServerTs.send_text env req w = (Ok r, w) ∧
       status r = match sessions w !! t with Some _ => 503 | None => 404 end.
Proof.
  intros Htarget Hne Hident. unfold ServerTs.send_text.
  rewrite Htarget.
  assert (Js.truthy (Some t) = true) as ->
    by (apply truthy_present; exists t; auto).
  simpl. run. unfold identity in Hident.
  destruct (sessions w !! t) as [h|]; simpl in *.
  - rewrite Hident. eexists; split; reflexivity.
  - eexists; split; reflexivity.
Qed.

Lemma serverts_send_text_no_target env req w :
  Js.truthy (Js.or (body_instanceId req) (query_instanceId req)) = false →
  ∃ r, ServerTs.send_text env req w = (Ok r, w) ∧ status r = 404.
Proof.
  intros Hno. unfold ServerTs.send_text. rewrite Hno. simpl.
  eexists; split; reflexivity.
Qed.

(** In [server.ts] a command reaches the transport only for a registered
    instance with somebody logged in, and it goes to the registered
    socket. *)
Lemma serverts_send_text_only_connected env req w :
  commands (ServerTs.send_text env req w).2 = commands w ∨
  ∃ t h ident jid,
    Js.or (body_instanceId req) (query_instanceId req) = Some t ∧
    sessions w !! t = Some h ∧
    identity w t = Some ident ∧
    commands (ServerTs.send_text env req w).2 =
      commands w ++ [(h, SendMessage jid (body_message req))].
Proof.
  unfold ServerTs.send_text.
  destruct (Js.truthy (Js.or (body_instanceId req) (query_instanceId req)));
    simpl; [| left; reflexivity].
  destruct (Js.or (body_instanceId req) (query_instanceId req)) as [t|];
    [| left; reflexivity].
  run. destruct (sessions w !! t) as [h|] eqn:Hreg; [| left; reflexivity].
  destruct (socks w !! h ≫= user) as [ident|] eqn:Huser; [| left; reflexivity].
  destruct (body_phone req) as [phone|]; [| left; reflexivity].
  right. exists t, h, ident, (Js.strip_non_digits phone +:+ "@s.whatsapp.net").
  repeat split; try assumption.
  - unfold identity. rewrite Hreg. exact Huser.
  - destruct (sendMessage_result env) as [|[mid|]]; reflexivity.
Qed.

(** [part_001] hands the message to the transport for every registered
    instance, logged in or not. *)
Lemma part001_send_text_reaches_transport env req w t h phone :
  Js.or (body_instanceId req) (query_instanceId req) = Some t →
  t ≠ "" →
  sessions w !! t = Some h →
  body_phone req = Some phone →
  commands (Part001.send_text env req w).2 =
    commands w ++
    [(h, SendMessage (Js.strip_non_digits phone +:+ "@s.whatsapp.net")
           (body_message req))].
Proof.
  intros Htarget Hne Hreg Hphone. unfold Part001.send_text.
  rewrite Htarget.
  assert (Js.truthy (Some t) = true) as ->
    by (apply truthy_present; exists t; auto).
  simpl. run. rewrite Hreg, Hphone.
  destruct (sendMessage_result env) as [|[mid|]]; reflexivity.
Qed.

(** C3 fails on [part_001]: [shop-1] is registered and still waiting for
    its QR code to be scanned; the send-text route calls [sock.sendMessage]
    on its socket and answers 200 with the transport's message id. *)
Theorem C3_part001_sends_while_not_connected :
  let r := Part001.send_text env_quiet req_send world_pairing in
  sessions world_pairing !! "shop-1" = Some 0 ∧
  identity world_pairing "shop-1" = None ∧
  commands r.2 = [(0, SendMessage "5511977776666@s.whatsapp.net" (Some "Oi"))] ∧
  r.1 = Ok {| status := 200; res_error := Some false; res_message := None;
              res_instanceId := None; res_messageId := Some "3EB0A1" |}.
Proof. repeat split. Qed.

(** The same request on [server.ts] is refused with 503. *)
Example serverts_refuses_while_not_connected :
  let r := ServerTs.send_text env_quiet req_send world_pairing in
  commands r.2 = [] ∧ (status <$> match r.1 with Ok x => Some x | Threw => None end) = Some 503.
Proof. repeat split. Qed.

(** * Logout and reset *)

(** [server.ts], logout of a registered instance when the transport's
    logout succeeds and the directory can be removed: everything goes. *)
Lemma serverts_logout_clean env req w id h :
  Js.or (query_instanceId req) (body_instanceId req) = Some id →
  id ≠ "" →
  sessions w !! id = Some h →
  logout_throws env = false →
  rmSync_throws env = false →
  let r := ServerTs.logout env req w in
  (∃ resp, r.1 = Ok resp ∧ status resp = 200) ∧
  sessions r.2 !! id = None ∧ qrCodes r.2 !! id = None ∧
  (id ∉ authDirs r.2) ∧
  commands r.2 = commands w ++ [(h, Logout)].
Proof.
  intros Hid Hne Hreg Hlog Hrm. unfold ServerTs.logout. rewrite Hid.
  assert (Js.truthy (Some id) = true) as ->
    by (apply truthy_present; exists id; auto).
  simpl. run. rewrite Hreg, Hlog, Hrm. simpl.
  repeat split; try apply lookup_delete_eq.
  - eexists; split; reflexivity.
  - rewrite elem_of_difference, elem_of_singleton. tauto.
Qed.

(** [server.ts], logout of a registered instance when the transport's
    logout rejects: the handler rejects with it, nothing is cleaned. *)
Lemma serverts_logout_aborts env req w id h :
  Js.or (query_instanceId req) (body_instanceId req) = Some id →
  id ≠ "" →
  sessions w !! id = Some h →
  logout_throws env = true →
  let r := ServerTs.logout env req w in
  r.1 = Threw ∧ sessions r.2 = sessions w ∧ qrCodes r.2 = qrCodes w ∧
  authDirs r.2 = authDirs w.
Proof.
  intros Hid Hne Hreg Hlog. unfold ServerTs.logout. rewrite Hid.
  assert (Js.truthy (Some id) = true) as ->
    by (apply truthy_present; exists id; auto).
  simpl. run. rewrite Hreg, Hlog. simpl. repeat split.
Qed.

(** C5 fails on [server.ts]: [shop-1] is connected and [sock.logout()]
    rejects. The route handler rejects without answering; the registry
    entry and the credential directory of [shop-1] are still there. *)
Theorem C5_serverts_logout_failure_skips_cleanup :
  let r := ServerTs.logout env_logout_fails (req_for "shop-1") world_connected in
  r.1 = Threw ∧
  commands r.2 = [(0, Logout)] ∧
  sessions r.2 !! "shop-1" = Some 0 ∧
  authDirs r.2 = {[ "shop-1" ]}.
Proof. repeat split. Qed.

(** [part_001], reset: whatever [sock.end] does, the route answers 200 and
    the instance is gone from the registry and from disk; its pairing entry
    is gone too if it was registered. *)
Lemma part001_reset_clean env req w id :
  query_instanceId req = Some id →
  id ≠ "" →
  rmSync_throws env = false →
  let r := Part001.reset env req w in
  (∃ resp, r.1 = Ok resp ∧ status resp = 200) ∧
  sessions r.2 !! id = None ∧
  (id ∉ authDirs r.2) ∧
  (is_Some (sessions w !! id) ∨ qrCodes w !! id = None →
   qrCodes r.2 !! id = None).
Proof.
  intros Hid Hne Hrm. unfold Part001.reset. rewrite Hid.
  assert (Js.truthy (Some id) = true) as ->
    by (apply truthy_present; exists id; auto).
  simpl. run. rewrite Hrm.
  destruct (sessions w !! id) as [h|] eqn:Hreg; simpl.
  - destruct (end_throws env); simpl;
      case_bool_decide as Hthere; simpl;
      (repeat split; try apply lookup_delete_eq;
       [eexists; split; reflexivity | | intros _; apply lookup_delete_eq]);
      solve [exact Hthere | rewrite elem_of_difference, elem_of_singleton; tauto].
  - case_bool_decide as Hthere; simpl;
      (repeat split; try exact Hreg;
       [eexists; split; reflexivity | | intros [[? [=]] | Hq]; exact Hq]);
      solve [exact Hthere | rewrite elem_of_difference, elem_of_singleton; tauto].
Qed.

(** [server.ts], reset when [sock.end] does not throw. A failing
    [fs.rmSync] is caught, so the route answers 200 either way. *)
Lemma serverts_reset_clean env req w id :
  Js.or (query_instanceId req) (body_instanceId req) = Some id →
  id ≠ "" →
  end_throws env = false →
  let r := ServerTs.reset env req w in
  (∃ resp, r.1 = Ok resp ∧ status resp = 200) ∧
  sessions r.2 !! id = None ∧
  (rmSync_throws env = false → id ∉ authDirs r.2) ∧
  (is_Some (sessions w !! id) ∨ qrCodes w !! id = None →
   qrCodes r.2 !! id = None).
Proof.
  intros Hid Hne Hend. unfold ServerTs.reset. rewrite Hid.
  assert (Js.truthy (Some id) = true) as ->
    by (apply truthy_present; exists id; auto).
  simpl. run. rewrite Hend.
  destruct (sessions w !! id) as [h|] eqn:Hreg; simpl.
  - case_bool_decide as Hthere; simpl; destruct (rmSync_throws env); simpl;
      (repeat split; try apply lookup_delete_eq;
       [eexists; split; reflexivity | | intros _; apply lookup_delete_eq]);
      solve [ discriminate | intros _; exact Hthere
            | intros _; rewrite elem_of_difference, elem_of_singleton; tauto ].
  - case_bool_decide as Hthere; simpl; destruct (rmSync_throws env); simpl;
      (repeat split; try exact Hreg;
       [eexists; split; reflexivity | | intros [[? [=]] | Hq]; exact Hq]);
      solve [ discriminate | intros _; exact Hthere
            | intros _; rewrite elem_of_difference, elem_of_singleton; tauto ].
Qed.

(** [server.ts], reset of a registered instance when [sock.end] throws:
    the handler throws with it and nothing is cleaned. *)
Lemma serverts_reset_aborts env req w id h :
  Js.or (query_instanceId req) (body_instanceId req) = Some id →
  id ≠ "" →
  sessions w !! id = Some h →
  end_throws env = true →
  let r := ServerTs.reset env req w in
  r.1 = Threw ∧ sessions r.2 = sessions w ∧ qrCodes r.2 = qrCodes w ∧
  authDirs r.2 = authDirs w.
Proof.
  intros Hid Hne Hreg Hend. unfold ServerTs.reset. rewrite Hid.
  assert (Js.truthy (Some id) = true) as ->
    by (apply truthy_present; exists id; auto).
  simpl. run. rewrite Hreg, Hend. simpl. repeat split.
Qed.

(** C6 fails on [server.ts]: [shop-1] is registered and [sock.end] throws.
    The route handler rejects without answering; registry entry, pairing
    entry and credential directory of [shop-1] are all still there. *)
Theorem C6_serverts_reset_end_failure_escapes :
  let r := ServerTs.reset env_end_fails (req_for "shop-1") world_pairing in
  r.1 = Threw ∧
  sessions r.2 !! "shop-1" = Some 0 ∧
  qrCodes r.2 !! "shop-1" = Some "2@qrpayload" ∧
  authDirs r.2 = {[ "shop-1" ]}.
Proof. repeat split. Qed.

(** The same request on [part_001] succeeds and leaves nothing. *)
Example part001_reset_end_failure_swallowed :
  let r := Part001.reset env_end_fails (req_for "shop-1") world_pairing in
  (status <$> match r.1 with Ok x => Some x | Threw => None end) = Some 200 ∧
  sessions r.2 !! "shop-1" = None ∧
  qrCodes r.2 !! "shop-1" = None ∧
  authDirs r.2 = ∅.
Proof. repeat split. Qed.

(** [server.ts] posts every message of somebody else when a webhook is
    configured, with whatever text it found. *)
Lemma serverts_upsert_one_posts env instanceId h msg w :
  fromMe (key msg) = false →
  Js.truthy (WEBHOOK_URL env) = true →
  ∃ p, posts (ServerTs.upsert_one env instanceId h msg w).2 = posts w ++ [p] ∧
       p_msgContent p = msgContent msg.
Proof.
  intros Hother Hurl. unfold ServerTs.upsert_one. rewrite Hother, Hurl.
  simpl. run. eexists.
  destruct (post_fails env _); simpl; split; reflexivity.
Qed.

(** C7 fails on [server.ts]: a picture message (no [conversation], no
    [extendedTextMessage]) from a customer is posted to the webhook with
    [msgContent] undefined. *)
Theorem C7_serverts_posts_message_without_text :
  let r := ServerTs.on_messages_upsert env_quiet "shop-1" 0 [msg_image]
             Notify world_connected in
  msgContent msg_image = None ∧
  posts r.2 =
    [ {| p_event := "webhookReceived"; p_instanceId := "shop-1";
         p_connectedPhone := Some "5511988887777";
         p_messageId := Some "E5F6";
         p_sender := Some "5511977776666";
         p_rawId := None;
         p_msgContent := None |} ].
Proof. repeat split. Qed.

(** The same event on [part_000] posts nothing. *)
Example part000_drops_message_without_text :
  Part000.on_messages_upsert env_quiet "shop-1" 0 [msg_image] Notify
    world_connected = (Ok tt, world_connected).
Proof. reflexivity. Qed.

(** * Pairing payload and identity along a run *)

Lemma identity_view w w' instanceId :
  socks w' = socks w → sessions w' = sessions w →
  identity w' instanceId = identity w instanceId.
Proof. intros Hs Hr. unfold identity. now rewrite Hs, Hr. Qed.

Lemma registry_sound_initial : registry_sound empty_world.
Proof. intros id h Hreg. simpl in Hreg. now rewrite lookup_empty in Hreg. Qed.

(** Only the sockets and the registry matter. *)
Lemma registry_sound_view w w' :
  socks w' = socks w → sessions w' = sessions w →
  registry_sound w → registry_sound w'.
Proof. intros Hs Hr Hsound id h. rewrite Hs, Hr. apply Hsound. Qed.

Lemma identity_unregistered w instanceId :
  sessions w !! instanceId = None → identity w instanceId = None.
Proof. intros Hreg. unfold identity. now rewrite Hreg. Qed.

Lemma registry_sound_unregistered w w' instanceId :
  socks w' = socks w →
  sessions w' = delete instanceId (sessions w) →
  registry_sound w → registry_sound w'.
Proof.
  intros Hs Hr Hsound id h. rewrite Hs, Hr, lookup_delete.
  case_decide; [discriminate | apply Hsound].
Qed.

Lemma registry_sound_registered_fresh w w' instanceId :
  socks w' = socks w ++ [fresh_sock instanceId] →
  sessions w' = <[instanceId := List.length (socks w)]> (sessions w) →
  registry_sound w → registry_sound w'.
Proof.
  intros Hs Hr Hsound id h. rewrite Hs, Hr, lookup_insert.
  case_decide as Hsame.
  - intros [= <-]. subst id. exists (fresh_sock instanceId).
    split; [| reflexivity].
    rewrite lookup_app_r by reflexivity.
    now rewrite Nat.sub_diag.
  - intros Hreg. destruct (Hsound id h Hreg) as (s & Hsock & Hown).
    exists s. split; [| exact Hown].
    rewrite lookup_app_l; [exact Hsock |].
    now apply lookup_lt_Some in Hsock.
Qed.

(** The transport may rewrite a socket as long as the owner stays. *)
Lemma registry_sound_socket_altered w w' h (f : Sock → Sock) :
  (∀ s, owner (f s) = owner s) →
  socks w' = alter f h (socks w) →
  sessions w' = sessions w →
  registry_sound w → registry_sound w'.
Proof.
  intros Hown Hs Hr Hsound id h' Hreg. rewrite Hr in Hreg.
  destruct (Hsound id h' Hreg) as (s & Hsock & Hid).
  rewrite Hs, list_lookup_alter. case_decide.
  - subst h'. rewrite Hsock. simpl. exists (f s). now rewrite Hown.
  - eauto.
Qed.

Lemma for_of_same_view {A} (xs : list A) (f : A → M unit) w :
  (∀ x w, same_view w (f x w).2) → same_view w (for_of xs f w).2.
Proof.
  intros Hf. revert w. induction xs as [|x xs IH]; intros w; simpl.
  - repeat split.
  - unfold bind. specialize (Hf x w). specialize (IH (f x w).2).
    destruct (f x w) as [[[]|] w1]; simpl in *; [| exact Hf].
    destruct Hf as (Hs & Hr & Hq), IH as (Hs' & Hr' & Hq').
    repeat split; congruence.
Qed.

Lemma serverts_upsert_same_view env instanceId h messages type w :
  same_view w (ServerTs.on_messages_upsert env instanceId h messages type w).2.
Proof.
  unfold ServerTs.on_messages_upsert. destruct type; [| repeat split].
  apply for_of_same_view. clear. intros msg w.
  unfold ServerTs.upsert_one.
  destruct (negb (fromMe (key msg)) && Js.truthy (WEBHOOK_URL env));
    [| repeat split].
  run. destruct (post_fails env _); repeat split.
Qed.

Lemma part001_upsert_same_view env instanceId h messages type w :
  same_view w (Part001.on_messages_upsert env instanceId h messages type w).2.
Proof.
  unfold Part001.on_messages_upsert. destruct type; [| repeat split].
  apply for_of_same_view. clear. intros msg w.
  unfold Part001.upsert_one.
  destruct (negb (fromMe (key msg)) && Js.truthy (WEBHOOK_URL env));
    [| repeat split].
  run. destruct (post_fails env _); repeat split.
Qed.

Lemma serverts_send_text_same_view env req w :
  same_view w (ServerTs.send_text env req w).2.
Proof.
  unfold ServerTs.send_text.
  destruct (Js.truthy (Js.or (body_instanceId req) (query_instanceId req)));
    simpl; [| repeat split].
  destruct (Js.or (body_instanceId req) (query_instanceId req)) as [t|];
    [| repeat split].
  run. destruct (sessions w !! t) as [h|]; [| repeat split].
  destruct (socks w !! h ≫= user); [| repeat split].
  destruct (body_phone req); [| repeat split].
  destruct (sendMessage_result env) as [|[mid|]]; repeat split.
Qed.

Lemma part001_send_text_same_view env req w :
  same_view w (Part001.send_text env req w).2.
Proof.
  unfold Part001.send_text.
  destruct (Js.truthy (Js.or (body_instanceId req) (query_instanceId req)));
    simpl; [| repeat split].
  destruct (Js.or (body_instanceId req) (query_instanceId req)) as [t|];
    [| repeat split].
  run. destruct (sessions w !! t) as [h|]; [| repeat split].
  destruct (body_phone req); [| repeat split].
  destruct (sendMessage_result env) as [|[mid|]]; repeat split.
Qed.

Lemma part001_enter_same_view instanceId w :
  same_view w (Part001.startSession_enter instanceId w).2.
Proof.
  unfold Part001.startSession_enter. run.
  destruct (Part001.live w instanceId); [repeat split |].
  destruct (bool_decide (instanceId ∈ authDirs w)); repeat split.
Qed.

Lemma serverts_enter_same_view instanceId w :
  same_view w (ServerTs.startSession_enter instanceId w).2.
Proof.
  unfold ServerTs.startSession_enter. run.
  destruct (ServerTs.live w instanceId); [repeat split |].
  destruct (bool_decide (instanceId ∈ authDirs w)); repeat split.
Qed.

Lemma same_view_sound w w' :
  same_view w w' → registry_sound w → registry_sound w'.
Proof. intros (Hs & Hr & _). now apply registry_sound_view. Qed.

Lemma discard_world {A} (m : M A) w : (discard m w).2 = (m w).2.
Proof. unfold discard, bind, ret. now destruct (m w) as [[a|] w1]. Qed.

Ltac keep_sound w :=
  simpl;
  first
    [ assumption
    | apply (registry_sound_view w); [reflexivity | reflexivity | assumption]
    | eapply (registry_sound_unregistered w);
        [reflexivity | reflexivity | assumption] ].

Lemma serverts_logout_sound env req w :
  registry_sound w → registry_sound (ServerTs.logout env req w).2.
Proof.
  intros Hex. unfold ServerTs.logout.
  destruct (Js.truthy (Js.or (query_instanceId req) (body_instanceId req)));
    simpl; [| assumption].
  destruct (Js.or (query_instanceId req) (body_instanceId req)) as [id|];
    [| assumption].
  run. destruct (sessions w !! id) as [h|]; [| assumption].
  destruct (logout_throws env); [keep_sound w |].
  destruct (rmSync_throws env); keep_sound w.
Qed.

Lemma serverts_reset_sound env req w :
  registry_sound w → registry_sound (ServerTs.reset env req w).2.
Proof.
  intros Hex. unfold ServerTs.reset.
  destruct (Js.truthy (Js.or (query_instanceId req) (body_instanceId req)));
    simpl; [| assumption].
  destruct (Js.or (query_instanceId req) (body_instanceId req)) as [id|];
    [| assumption].
  run. destruct (sessions w !! id) as [h|].
  - destruct (end_throws env); [keep_sound w |]. simpl.
    case_bool_decide; [| keep_sound w].
    destruct (rmSync_throws env); keep_sound w.
  - simpl. case_bool_decide; [| keep_sound w].
    destruct (rmSync_throws env); keep_sound w.
Qed.

Lemma part001_reset_sound env req w :
  registry_sound w → registry_sound (Part001.reset env req w).2.
Proof.
  intros Hex. unfold Part001.reset.
  destruct (Js.truthy (query_instanceId req)); simpl; [| assumption].
  destruct (query_instanceId req) as [id|]; [| assumption].
  run. destruct (sessions w !! id) as [h|].
  - destruct (end_throws env); simpl;
      (case_bool_decide; [| keep_sound w]);
      destruct (rmSync_throws env); keep_sound w.
  - simpl. case_bool_decide; [| keep_sound w].
    destruct (rmSync_throws env); keep_sound w.
Qed.

Lemma registry_sound_resumed w instanceId :
  registry_sound w →
  registry_sound (ServerTs.startSession_resume instanceId w).2 ∧
  registry_sound (Part001.startSession_resume instanceId w).2.
Proof.
  intros Hex.
  split; apply (registry_sound_registered_fresh w _ instanceId);
    (reflexivity || assumption).
Qed.

Lemma bind_ret {A B} (a : A) (k : A → M B) w : bind (ret a) k w = k a w.
Proof. reflexivity. Qed.

Lemma serverts_emit_sound env h em w :
  registry_sound w → registry_sound (serverts_exec env (Emit h em) w).2.
Proof.
  intros Hex. unfold serverts_exec.
  rewrite bind_Ok with (a := socks w !! h) (w1 := w) by reflexivity.
  destruct (socks w !! h) as [s|] eqn:Hsock; [| assumption].
  destruct em as [q | account | code | d c]; unfold transport_writes.
  - rewrite bind_ret. unfold ServerTs.on_connection_update, note_qr. simpl.
    destruct (negb (q =? "")%string); run; keep_sound w.
  - unfold ServerTs.on_connection_update, note_qr. run. simpl.
    apply (registry_sound_socket_altered w _ h (with_user (Some account)));
      (reflexivity || assumption || (intros; reflexivity)).
  - rewrite bind_ret. unfold ServerTs.on_connection_update, note_qr. simpl.
    rewrite bind_ret.
    destruct (bool_decide (code = Some loggedOut)); simpl.
    + run. keep_sound w.
    + rewrite serverts_enter_discard. simpl.
      apply (same_view_sound w); [| assumption].
      apply serverts_enter_same_view.
  - run. simpl.
    apply (registry_sound_socket_altered w _ h (with_flags d c));
      (reflexivity || assumption || (intros; reflexivity)).
Qed.

Lemma part001_emit_sound env h em w :
  registry_sound w → registry_sound (part001_exec env (Emit h em) w).2.
Proof.
  intros Hex. unfold part001_exec.
  rewrite bind_Ok with (a := socks w !! h) (w1 := w) by reflexivity.
  destruct (socks w !! h) as [s|] eqn:Hsock; [| assumption].
  destruct em as [q | account | code | d c]; unfold transport_writes.
  - rewrite bind_ret. unfold Part001.on_connection_update, note_qr. simpl.
    destruct (negb (q =? "")%string); run; keep_sound w.
  - unfold Part001.on_connection_update, note_qr. run. simpl.
    apply (registry_sound_socket_altered w _ h (with_user (Some account)));
      (reflexivity || assumption || (intros; reflexivity)).
  - rewrite bind_ret. unfold Part001.on_connection_update, note_qr. simpl.
    rewrite bind_ret.
    destruct (bool_decide (code = Some loggedOut)); simpl.
    + run. simpl. case_bool_decide; [| keep_sound w].
      destruct (rmSync_throws env); keep_sound w.
    + run. keep_sound w.
  - run. simpl.
    apply (registry_sound_socket_altered w _ h (with_flags d c));
      (reflexivity || assumption || (intros; reflexivity)).
Qed.

(** Every event keeps the registry sound, in both files. *)
Lemma serverts_exec_sound env e w :
  registry_sound w → registry_sound (serverts_exec env e w).2.
Proof.
  intros Hex. destruct e as [h em | h ms ty | id | id | id | req | req | req].
  - now apply serverts_emit_sound.
  - unfold serverts_exec. rewrite bind_Ok with (a := socks w !! h) (w1 := w)
      by reflexivity.
    destruct (socks w !! h) as [s|]; [| assumption].
    apply (same_view_sound w); [| assumption].
    apply serverts_upsert_same_view.
  - unfold serverts_exec. rewrite discard_world.
    apply (same_view_sound w); [| assumption].
    apply serverts_enter_same_view.
  - unfold serverts_exec. rewrite discard_world.
    now apply registry_sound_resumed.
  - assumption.
  - unfold serverts_exec. rewrite discard_world.
    apply (same_view_sound w); [| assumption].
    apply serverts_send_text_same_view.
  - unfold serverts_exec. rewrite discard_world. now apply serverts_logout_sound.
  - unfold serverts_exec. rewrite discard_world. now apply serverts_reset_sound.
Qed.

Lemma part001_exec_sound env e w :
  registry_sound w → registry_sound (part001_exec env e w).2.
Proof.
  intros Hex. destruct e as [h em | h ms ty | id | id | id | req | req | req].
  - now apply part001_emit_sound.
  - unfold part001_exec. rewrite bind_Ok with (a := socks w !! h) (w1 := w)
      by reflexivity.
    destruct (socks w !! h) as [s|]; [| assumption].
    apply (same_view_sound w); [| assumption].
    apply part001_upsert_same_view.
  - unfold part001_exec. rewrite discard_world.
    apply (same_view_sound w); [| assumption].
    apply part001_enter_same_view.
  - unfold part001_exec. rewrite discard_world.
    now apply registry_sound_resumed.
  - unfold part001_exec. rewrite discard_world. unfold Part001.timer_fires.
    rewrite bind_Ok with (a := tt) (w1 := set_timers (remove_first id) w)
      by reflexivity.
    apply (same_view_sound (set_timers (remove_first id) w)).
    + apply part001_enter_same_view.
    + keep_sound w.
  - unfold part001_exec. rewrite discard_world.
    apply (same_view_sound w); [| assumption].
    apply part001_send_text_same_view.
  - assumption.
  - unfold part001_exec. rewrite discard_world. now apply part001_reset_sound.
Qed.

Lemma run_events_invariant (P : World → Prop) exec events w :
  (∀ e w, P w → permitted w e = true → P (exec e w).2) →
  P w → run_permitted exec events w = true → P (run_events exec events w).
Proof.
  intros Hstep. revert w.
  induction events as [|e rest IH]; intros w Hw Hperm; simpl in *.
  - exact Hw.
  - apply andb_true_iff in Hperm as [He Hrest]. apply IH; auto.
Qed.

(** C4 fails in [server.ts] and in [part_001]. Two overlapping starts of
    [shop-1] leave two open sockets, of which the registry holds the second
    (see C1). The second logs in; then the first, on which nobody is
    logged in and whose listener is still subscribed, issues a pairing
    payload. Its listener caches the payload for [shop-1]: the instance has
    a resolved identity and a cached pairing payload at the same time. *)
Theorem C4_stale_socket_caches_payload :
  let ws := run_events (serverts_exec env_quiet) stale_pairing_run empty_world in
  let wp := run_events (part001_exec env_quiet) stale_pairing_run empty_world in
  run_permitted (serverts_exec env_quiet) stale_pairing_run empty_world = true ∧
  run_permitted (part001_exec env_quiet) stale_pairing_run empty_world = true ∧
  (user <$> socks ws = [None; Some "5511988887777:12@s.whatsapp.net"] ∧
   identity ws "shop-1" = Some "5511988887777:12@s.whatsapp.net" ∧
   qrCodes ws !! "shop-1" = Some "2@stale" ∧
   ¬ pairing_excludes_identity ws) ∧
  (user <$> socks wp = [None; Some "5511988887777:12@s.whatsapp.net"] ∧
   identity wp "shop-1" = Some "5511988887777:12@s.whatsapp.net" ∧
   qrCodes wp !! "shop-1" = Some "2@stale" ∧
   ¬ pairing_excludes_identity wp).
Proof.
  repeat split.
  - intros Hexcl. specialize (Hexcl "shop-1" (mk_is_Some _ _ eq_refl)).
    discriminate Hexcl.
  - intros Hexcl. specialize (Hexcl "shop-1" (mk_is_Some _ _ eq_refl)).
    discriminate Hexcl.
Qed.

(** Before the stale payload arrives the invariant holds: the connected
    event has cleared the cache. *)
Example stale_pairing_run_before :
  let ws := run_events (serverts_exec env_quiet) (take 5 stale_pairing_run)
              empty_world in
  identity ws "shop-1" = Some "5511988887777:12@s.whatsapp.net" ∧
  qrCodes ws !! "shop-1" = None.
Proof. repeat split. Qed.

(** [pairing_run], state by state: the payload is cached while nobody is
    logged in, and gone once the account is there. *)
Example pairing_run_states :
  let w3 := run_events (serverts_exec env_quiet) (take 3 pairing_run)
              empty_world in
  let w4 := run_events (serverts_exec env_quiet) pairing_run empty_world in
  identity w3 "shop-1" = None ∧
  qrCodes w3 !! "shop-1" = Some "2@qrpayload" ∧
  identity w4 "shop-1" = Some "5511988887777:12@s.whatsapp.net" ∧
  qrCodes w4 !! "shop-1" = None.
Proof. repeat split. Qed.

(** * Further properties: the address a text is sent to *)

Lemma is_digit_decimal c : Js.is_digit c = true ↔ decimal c.
Proof.
  unfold decimal, decimal_digits. split.
  - intros Hd. unfold Js.is_digit in Hd.
    apply andb_true_iff in Hd as [Hlo Hhi].
    apply Nat.leb_le in Hlo, Hhi.
    rewrite <- (ascii_nat_embedding c).
    remember (nat_of_ascii c) as n eqn:Hn. clear Hn.
    assert (n = 48 ∨ n = 49 ∨ n = 50 ∨ n = 51 ∨ n = 52 ∨ n = 53 ∨ n = 54 ∨
            n = 55 ∨ n = 56 ∨ n = 57) as Hcases by lia.
    repeat (destruct Hcases as [-> | Hcases];
            [apply list_elem_of_In; simpl; tauto |]).
    subst n. apply list_elem_of_In. simpl. tauto.
  - intros Hin. apply list_elem_of_In in Hin. simpl in Hin.
    repeat (destruct Hin as [<- | Hin]; [reflexivity |]). destruct Hin.
Qed.

Lemma strip_non_digits_spec phone :
  digits_of phone (Js.strip_non_digits phone) ∧
  Forall decimal (list_ascii_of_string (Js.strip_non_digits phone)).
Proof.
  unfold digits_of. induction phone as [|c phone [IHd IHall]]; simpl.
  - split; [reflexivity | constructor].
  - destruct (Js.is_digit c) eqn:Hc.
    + assert (decimal c) as Hdec by now apply is_digit_decimal.
      rewrite (bool_decide_eq_true_2 _ Hdec). simpl. split.
      * now rewrite IHd.
      * now constructor.
    + assert (¬ decimal c) as Hdec
        by (intros Hdec; apply is_digit_decimal in Hdec; congruence).
      rewrite (bool_decide_eq_false_2 _ Hdec). now split.
Qed.

Lemma digits_of_unique phone d1 d2 :
  digits_of phone d1 → digits_of phone d2 → d1 = d2.
Proof.
  unfold digits_of. intros H1 H2.
  rewrite <- (string_of_list_ascii_of_string d1).
  rewrite <- (string_of_list_ascii_of_string d2). congruence.
Qed.

Lemma addressed_by_strip req phone :
  body_phone req = Some phone →
  addressed_to_digits req
    (SendMessage (Js.strip_non_digits phone +:+ "@s.whatsapp.net")
       (body_message req)).
Proof.
  intros Hphone. exists phone, (Js.strip_non_digits phone).
  destruct (strip_non_digits_spec phone). auto.
Qed.

(** X1. Whatever the request, each of the three send-text routes issues at
    most one transport command; it goes to the socket the registry holds
    for the instance the request names, and it is a message addressed to
    the decimal digits of [phone], in their order, followed by
    [@s.whatsapp.net]. *)
Theorem X1_send_text_address env req w :
  at_most_one_command w (ServerTs.send_text env req w).2 req
    (addressed_to_digits req) ∧
  at_most_one_command w (Part001.send_text env req w).2 req
    (addressed_to_digits req) ∧
  at_most_one_command w (Part000Api.send_text env req w).2 req
    (addressed_to_digits req).
Proof.
  unfold at_most_one_command.
  unfold ServerTs.send_text, Part001.send_text, Part000Api.send_text.
  destruct (Js.truthy (Js.or (body_instanceId req) (query_instanceId req)));
    simpl; [| repeat split; left; reflexivity].
  destruct (Js.or (body_instanceId req) (query_instanceId req)) as [t|]
    eqn:Htarget; [| repeat split; left; reflexivity].
  run. destruct (sessions w !! t) as [h|] eqn:Hreg;
    [| repeat split; left; reflexivity].
  destruct (body_phone req) as [phone|] eqn:Hphone.
  - pose proof (addressed_by_strip req phone Hphone) as Hgood.
    repeat split.
    + destruct (socks w !! h ≫= user); [| left; reflexivity].
      right. exists t, h. eexists.
      split; [reflexivity |]. split; [exact Hreg |]. split; [exact Hgood |].
      destruct (sendMessage_result env) as [|[mid|]]; reflexivity.
    + right. exists t, h. eexists.
      split; [reflexivity |]. split; [exact Hreg |]. split; [exact Hgood |].
      destruct (sendMessage_result env) as [|[mid|]]; reflexivity.
    + right. exists t, h. eexists.
      split; [reflexivity |]. split; [exact Hreg |]. split; [exact Hgood |].
      destruct (sendMessage_result env) as [|[mid|]]; reflexivity.
  - repeat split; try (left; reflexivity).
    destruct (socks w !! h ≫= user); left; reflexivity.
Qed.

(** * Further properties: the answers of the routes *)

Lemma names_truthy v t : names v t → Js.truthy v = true.
Proof. intros [-> Hne]. apply truthy_present. exists t. auto. Qed.

Lemma truthy_names v : Js.truthy v = true → ∃ t, names v t.
Proof.
  intros Ht. apply truthy_present in Ht as (t & -> & Hne).
  exists t. now split.
Qed.

Lemma not_truthy_names v t : Js.truthy v = false → ¬ names v t.
Proof. intros Hf Hn. apply names_truthy in Hn. congruence. Qed.

Lemma identity_registered w t h :
  sessions w !! t = Some h → identity w t = (socks w !! h ≫= user).
Proof. intros Hreg. unfold identity. now rewrite Hreg. Qed.

(** X2. The send-text route of [server.ts] always answers, with one of
    four codes, and each code tells what happened: 404 - the request names
    no registered instance; 503 - the instance is registered and nobody is
    logged in on it; 200 - registered, logged in, a phone was given and the
    transport returned a result, whose id is passed on; 500 - registered and
    logged in, but no phone was given or the transport call failed. *)
Theorem X2_serverts_send_text_codes env req w :
  let target := Js.or (body_instanceId req) (query_instanceId req) in
  ∃ r, (ServerTs.send_text env req w).1 = Ok r ∧
    (status r = 200 ∨ status r = 404 ∨ status r = 500 ∨ status r = 503) ∧
    (status r = 404 →
       ∀ t, names target t → sessions w !! t = None) ∧
    (status r = 503 →
       ∃ t, names target t ∧ is_Some (sessions w !! t) ∧
            identity w t = None) ∧
    (status r = 200 →
       ∃ t mid, names target t ∧ is_Some (identity w t) ∧
                is_Some (body_phone req) ∧
                sendMessage_result env = Resolves (Some mid) ∧
                res_messageId r = mid ∧ res_instanceId r = Some t) ∧
    (status r = 500 →
       ∃ t, names target t ∧ is_Some (identity w t) ∧
            (body_phone req = None ∨
             sendMessage_result env = Rejects ∨
             sendMessage_result env = Resolves None)).
Proof.
  intros target. subst target. unfold ServerTs.send_text.
  destruct (Js.truthy (Js.or (body_instanceId req) (query_instanceId req)))
    eqn:Htruthy; simpl.
  - destruct (truthy_names _ Htruthy) as (t & Hnames).
    destruct Hnames as [Htarget Hne]. rewrite Htarget.
    assert (names (Some t) t) as Hnames by now split.
    run.
    destruct (sessions w !! t) as [h|] eqn:Hreg; simpl.
    + destruct (socks w !! h ≫= user) as [account|] eqn:Huser.
      * destruct (body_phone req) as [phone|] eqn:Hphone.
        -- destruct (sendMessage_result env) as [|[mid|]] eqn:Hres; simpl;
             eexists; (split; [reflexivity |]); simpl;
             (split; [tauto |]);
             repeat split; intros Hst; try discriminate Hst.
           ++ exists t. rewrite ?(identity_registered w t h Hreg), ?Hreg, ?Huser. eauto 10.
           ++ exists t, mid. rewrite ?(identity_registered w t h Hreg), ?Hreg, ?Huser. eauto 10.
           ++ exists t. rewrite ?(identity_registered w t h Hreg), ?Hreg, ?Huser. eauto 10.
        -- eexists; (split; [reflexivity |]); simpl; (split; [tauto |]);
             repeat split; intros Hst; try discriminate Hst.
           exists t. rewrite ?(identity_registered w t h Hreg), ?Hreg, ?Huser. eauto 10.
      * eexists; (split; [reflexivity |]); simpl; (split; [tauto |]);
          repeat split; intros Hst; try discriminate Hst.
        exists t. rewrite ?(identity_registered w t h Hreg), ?Hreg, ?Huser. eauto 10.
    + eexists; (split; [reflexivity |]); simpl; (split; [tauto |]);
        repeat split; intros Hst; try discriminate Hst.
      intros t' [[= <-] _]. exact Hreg.
  - eexists; (split; [reflexivity |]); simpl; (split; [tauto |]);
      repeat split; intros Hst; try discriminate Hst.
    intros t Hn. now apply not_truthy_names with (t := t) in Htruthy.
Qed.

Lemma is_Some_bool_decide {A} (o : option A) :
  bool_decide (is_Some o) = true ↔ is_Some o.
Proof. apply bool_decide_eq_true. Qed.

(** X3. The status routes never change the state. All three report
    [connected: true] exactly when the request names an instance whose
    registered socket has a logged-in user, and the QR-code route of the
    same file (after its pause) says [connected: true] in exactly the same
    states. With no instance named, [server.ts] answers 200 with
    [connected: false]; [part_001] and [part_000] answer 400. *)
Theorem X3_status_reports_identity toDataURL req w :
  let id := query_instanceId req in
  let logged_in := ∃ t, names id t ∧ is_Some (identity w t) in
  (∃ a, ServerTsApi.status_instance req w = (Ok a, w) ∧ a_status a = 200 ∧
        (a_connected a = Some true ∨ a_connected a = Some false) ∧
        (a_connected a = Some true ↔ logged_in)) ∧
  (∃ a, Part001Api.status_instance req w = (Ok a, w) ∧
        (a_status a = 200 ∨ a_status a = 400) ∧
        (a_status a = 400 ↔ ¬ ∃ t, names id t) ∧
        (a_connected a = Some true ↔ logged_in)) ∧
  (∃ a, Part000Api.status_instance req w = (Ok a, w) ∧
        (a_status a = 200 ∨ a_status a = 400) ∧
        (a_status a = 400 ↔ ¬ ∃ t, names id t) ∧
        (a_connected a = Some true ↔ logged_in)) ∧
  (∀ t, ∃ a b c,
     ServerTsApi.qr_code_finish toDataURL t w = (Ok a, w) ∧
     Part001Api.qr_code_finish toDataURL t w = (Ok b, w) ∧
     Part000Api.qr_code_finish toDataURL t w = (Ok c, w) ∧
     (a_connected a = Some true ↔ is_Some (identity w t)) ∧
     (a_connected b = Some true ↔ is_Some (identity w t)) ∧
     (a_connected c = Some true ↔ is_Some (identity w t))).
Proof.
  intros id logged_in. subst id logged_in.
  unfold ServerTsApi.status_instance, Part001Api.status_instance,
    Part000Api.status_instance.
  repeat split.
  - destruct (Js.truthy (query_instanceId req)) eqn:Htruthy; simpl.
    + destruct (truthy_names _ Htruthy) as (t & Htarget & Hne).
      rewrite Htarget. run.
      destruct (sessions w !! t) as [h|] eqn:Hreg.
      * pose proof (identity_registered w t h Hreg) as Hid.
        eexists. split; [reflexivity |]. simpl. split; [reflexivity |].
        split; [match goal with |- context [bool_decide ?P] =>
                  destruct (bool_decide P); auto end |].
        split.
        -- intros [= Hd]. apply is_Some_bool_decide in Hd.
           exists t. split; [now split |]. rewrite Hid. exact Hd.
        -- intros (t' & [[= <-] _] & Hsome). rewrite Hid in Hsome.
           f_equal. apply is_Some_bool_decide. exact Hsome.
      * eexists. split; [reflexivity |]. simpl. split; [reflexivity |].
        split; [auto |]. split; [discriminate |].
        intros (t' & [[= <-] _] & Hsome).
        rewrite (identity_unregistered w t Hreg) in Hsome. now destruct Hsome.
    + eexists. split; [reflexivity |]. simpl. split; [reflexivity |].
      split; [auto |]. split; [discriminate |].
      intros (t & Hn & _). now apply not_truthy_names in Hn.
  - destruct (Js.truthy (query_instanceId req)) eqn:Htruthy; simpl.
    + destruct (truthy_names _ Htruthy) as (t & Htarget & Hne).
      rewrite Htarget. run. eexists. split; [reflexivity |]. simpl.
      split; [auto |]. split; [| split].
      * split; [discriminate |]. intros Hno. exfalso. apply Hno.
        exists t. now split.
      * intros [= Hd]. apply is_Some_bool_decide in Hd.
        exists t. repeat split; assumption.
      * intros (t' & [[= <-] _] & Hsome).
        f_equal. now apply is_Some_bool_decide.
    + eexists. split; [reflexivity |]. simpl.
      split; [auto |]. split; [| split].
      * split; [| reflexivity]. intros _ (t & Hn).
        now apply not_truthy_names in Hn.
      * discriminate.
      * intros (t & Hn & _). now apply not_truthy_names in Hn.
  - destruct (Js.truthy (query_instanceId req)) eqn:Htruthy; simpl.
    + destruct (truthy_names _ Htruthy) as (t & Htarget & Hne).
      rewrite Htarget. run. eexists. split; [reflexivity |]. simpl.
      split; [auto |]. split; [| split].
      * split; [discriminate |]. intros Hno. exfalso. apply Hno.
        exists t. now split.
      * intros [= Hd]. apply is_Some_bool_decide in Hd.
        exists t. repeat split; assumption.
      * intros (t' & [[= <-] _] & Hsome).
        f_equal. now apply is_Some_bool_decide.
    + eexists. split; [reflexivity |]. simpl.
      split; [auto |]. split; [| split].
      * split; [| reflexivity]. intros _ (t & Hn).
        now apply not_truthy_names in Hn.
      * discriminate.
      * intros (t & Hn & _). now apply not_truthy_names in Hn.
  - intros t.
    unfold ServerTsApi.qr_code_finish, Part001Api.qr_code_finish,
      Part000Api.qr_code_finish. run.
    destruct (identity w t) as [account|].
    + do 3 eexists. repeat split; eauto.
    + destruct (qrCodes w !! t) as [q|]; [destruct (Js.truthy (Some q)) |];
        simpl; do 3 eexists;
        (repeat split; try reflexivity; try discriminate;
         intros [? [=]]).
Qed.

(** What the three QR-code routes answer, read off the state. *)
Lemma qr_code_finish_verdict toDataURL t w :
  outcome_verdict answer_verdict (ServerTsApi.qr_code_finish toDataURL t w).1
    = Some (qr_verdict toDataURL w t) ∧
  outcome_verdict answer_verdict (Part001Api.qr_code_finish toDataURL t w).1
    = Some (qr_verdict toDataURL w t) ∧
  outcome_verdict answer_verdict (Part000Api.qr_code_finish toDataURL t w).1
    = Some (qr_verdict toDataURL w t) ∧
  outcome_verdict page_verdict (ServerTsApi.connect_finish toDataURL t w).1
    = Some (qr_verdict toDataURL w t).
Proof.
  unfold ServerTsApi.qr_code_finish, Part001Api.qr_code_finish,
    Part000Api.qr_code_finish, ServerTsApi.connect_finish, qr_verdict. run.
  destruct (identity w t); [repeat split |].
  destruct (qrCodes w !! t) as [q|]; [| repeat split].
  destruct (Js.truthy (Some q)); repeat split.
Qed.

Lemma qr_verdict_gone toDataURL w t :
  sessions w !! t = None → qrCodes w !! t = None →
  qr_verdict toDataURL w t = VNotReady.
Proof.
  intros Hr Hq. unfold qr_verdict.
  now rewrite (identity_unregistered w t Hr), Hq.
Qed.

Lemma qr_verdict_cleared toDataURL w t :
  qrCodes w !! t = None →
  qr_verdict toDataURL w t = VConnected ∨ qr_verdict toDataURL w t = VNotReady.
Proof.
  intros Hq. unfold qr_verdict. rewrite Hq. destruct (identity w t); auto.
Qed.

Lemma qr_verdict_shown toDataURL w t q :
  qrCodes w !! t = Some q → q ≠ "" → identity w t = None →
  qr_verdict toDataURL w t = VQr (toDataURL q).
Proof.
  intros Hq Hne Hnobody. unfold qr_verdict. rewrite Hnobody, Hq.
  assert (Js.truthy (Some q) = true) as ->
    by (apply truthy_present; exists q; auto).
  reflexivity.
Qed.

(** The state a [connection.update] leaves for its instance, in [server.ts]
    and in [part_001]. *)
Lemma update_leaves env id update w :
  let ws := (ServerTs.on_connection_update id update w).2 in
  let wp := (Part001.on_connection_update env id update w).2 in
  (connection update = Some ConnClose →
   statusCode update = Some loggedOut →
     sessions ws !! id = None ∧ qrCodes ws !! id = None ∧
     sessions wp !! id = None ∧ qrCodes wp !! id = None) ∧
  (∀ q, qr update = Some q → q ≠ "" →
     connection update ≠ Some ConnOpen →
     ¬ (connection update = Some ConnClose ∧
        statusCode update = Some loggedOut) →
     qrCodes ws !! id = Some q ∧ identity ws id = identity w id ∧
     qrCodes wp !! id = Some q ∧ identity wp id = identity w id).
Proof.
  intros ws wp. subst ws wp. split.
  - intros Hclose Hcode.
    destruct (note_qr_frame id update w) as (w1 & Hnote & Hs & Hr & _).
    unfold ServerTs.on_connection_update, Part001.on_connection_update.
    rewrite Hclose, !(bind_Ok (note_qr id update) _ w tt w1 Hnote).
    rewrite (bool_decide_eq_true_2 _ Hcode). simpl. run. simpl.
    case_bool_decide; [destruct (rmSync_throws env) |]; simpl;
      repeat split; apply lookup_delete_eq.
  - intros q Hq Hne Hnopen Hnlogout.
    assert (Js.truthy (Some q) = true) as Htruthy
      by (apply truthy_present; exists q; auto).
    unfold ServerTs.on_connection_update, Part001.on_connection_update,
      note_qr.
    rewrite Hq, Htruthy.
    rewrite !(bind_Ok _ _ w tt (set_qrCodes <[id:=q]> w)) by reflexivity.
    destruct (connection update) as [[]|] eqn:Hconn.
    + case_bool_decide as Hcode; [exfalso; apply Hnlogout; auto |]. simpl.
      rewrite serverts_enter_discard.
      destruct (serverts_enter_same_view id (set_qrCodes <[id:=q]> w))
        as (Hs & Hr & Hqr).
      simpl. rewrite Hqr. simpl. rewrite lookup_insert_eq.
      repeat split. apply identity_view; assumption.
    + congruence.
    + simpl. rewrite lookup_insert_eq. repeat split.
    + simpl. rewrite lookup_insert_eq. repeat split.
Qed.

(** X4. What the QR-code route answers once the [connection.update]
    listener has run, in [server.ts] and [part_001], from any state:
    after an [open] event it says connected or not-ready, never a QR code;
    after a logged-out [close] it says not-ready; after an update that
    brings a pairing payload (and is neither [open] nor a logged-out
    [close]) to an instance nobody is logged in on, it returns the image of
    exactly that payload, whatever was cached before. *)
Theorem X4_qr_code_after_update env toDataURL id update w :
  let ws := (ServerTs.on_connection_update id update w).2 in
  let wp := (Part001.on_connection_update env id update w).2 in
  let vs := outcome_verdict answer_verdict
              (ServerTsApi.qr_code_finish toDataURL id ws).1 in
  let vp := outcome_verdict answer_verdict
              (Part001Api.qr_code_finish toDataURL id wp).1 in
  (connection update = Some ConnOpen →
     (vs = Some VConnected ∨ vs = Some VNotReady) ∧
     (vp = Some VConnected ∨ vp = Some VNotReady)) ∧
  (connection update = Some ConnClose →
   statusCode update = Some loggedOut →
     vs = Some VNotReady ∧ vp = Some VNotReady) ∧
  (∀ q, qr update = Some q → q ≠ "" →
     connection update ≠ Some ConnOpen →
     ¬ (connection update = Some ConnClose ∧
        statusCode update = Some loggedOut) →
     identity w id = None →
     vs = Some (VQr (toDataURL q)) ∧ vp = Some (VQr (toDataURL q))).
Proof.
  intros ws wp vs vp. subst vs vp.
  destruct (qr_code_finish_verdict toDataURL id ws) as (-> & _).
  destruct (qr_code_finish_verdict toDataURL id wp) as (_ & -> & _).
  destruct (update_leaves env id update w) as [Hlogout Hpairing].
  fold ws wp in Hlogout, Hpairing.
  split; [| split].
  - intros Hopen.
    destruct (open_clears_pairing env id update w Hopen)
      as (_ & Hqs & _ & Hqp).
    fold ws in Hqs. fold wp in Hqp.
    destruct (qr_verdict_cleared toDataURL ws id Hqs) as [-> | ->];
      destruct (qr_verdict_cleared toDataURL wp id Hqp) as [-> | ->]; auto.
  - intros Hclose Hcode.
    destruct (Hlogout Hclose Hcode) as (Hrs & Hqs & Hrp & Hqp).
    now rewrite !qr_verdict_gone.
  - intros q Hq Hne Hnopen Hnlogout Hnobody.
    destruct (Hpairing q Hq Hne Hnopen Hnlogout) as (Hqs & His & Hqp & Hip).
    rewrite (qr_verdict_shown toDataURL ws id q),
      (qr_verdict_shown toDataURL wp id q); auto; congruence.
Qed.

Lemma or_query_only v : Js.truthy (Js.or v None) = Js.truthy v.
Proof. unfold Js.or. destruct (Js.truthy v) eqn:Hv; [exact Hv | reflexivity]. Qed.

(** X5. In [server.ts] the HTML route [/connect] follows the JSON QR-code
    route step for step, for a request that carries its instance in the
    query string only: the first halves leave the same state and either
    give the same verdict or wait for the same instance, and the second
    halves give the same verdict (connected, not ready, or the same image)
    without changing the state. *)
Theorem X5_connect_mirrors_qr_code toDataURL req id w :
  body_instanceId req = None →
  (ServerTsApi.connect_begin req w).2 = (ServerTsApi.qr_code_begin req w).2 ∧
  pending_same (ServerTsApi.connect_begin req w).1
               (ServerTsApi.qr_code_begin req w).1 ∧
  (ServerTsApi.connect_finish toDataURL id w).2 = w ∧
  (ServerTsApi.qr_code_finish toDataURL id w).2 = w ∧
  outcome_verdict page_verdict (ServerTsApi.connect_finish toDataURL id w).1 =
  outcome_verdict answer_verdict (ServerTsApi.qr_code_finish toDataURL id w).1.
Proof.
  intros Hbody.
  destruct (qr_code_finish_verdict toDataURL id w) as (Hq & _ & _ & Hc).
  split; [| split; [| split; [| split]]].
  - unfold ServerTsApi.connect_begin, ServerTsApi.qr_code_begin.
    rewrite Hbody, or_query_only.
    destruct (Js.truthy (query_instanceId req)) eqn:Htruthy; simpl;
      [| reflexivity].
    unfold Js.or. rewrite Htruthy.
    destruct (query_instanceId req) as [t|]; [| reflexivity].
    run. destruct (sessions w !! t); [reflexivity |].
    destruct (ServerTs.startSession_enter t w) as [[st|] w1]; reflexivity.
  - unfold ServerTsApi.connect_begin, ServerTsApi.qr_code_begin.
    rewrite Hbody, or_query_only.
    destruct (Js.truthy (query_instanceId req)) eqn:Htruthy; simpl;
      [| reflexivity].
    unfold Js.or. rewrite Htruthy.
    destruct (query_instanceId req) as [t|]; [| reflexivity].
    run. destruct (sessions w !! t); [reflexivity |].
    destruct (serverts_enter_effect t w) as ((st & Hok) & _).
    destruct (ServerTs.startSession_enter t w) as [o w1].
    simpl in Hok. subst o. reflexivity.
  - unfold ServerTsApi.connect_finish. run.
    destruct (identity w id); [reflexivity |].
    destruct (qrCodes w !! id) as [q|]; [| reflexivity].
    destruct (Js.truthy (Some q)); reflexivity.
  - unfold ServerTsApi.qr_code_finish. run.
    destruct (identity w id); [reflexivity |].
    destruct (qrCodes w !! id) as [q|]; [| reflexivity].
    destruct (Js.truthy (Some q)); reflexivity.
  - now rewrite Hq, Hc.
Qed.

Example X5_witness :
  body_instanceId req_query_only = None ∧
  (ServerTsApi.connect_begin req_query_only world_pairing).2 =
    (ServerTsApi.qr_code_begin req_query_only world_pairing).2 ∧
  pending_same (ServerTsApi.connect_begin req_query_only world_pairing).1
               (ServerTsApi.qr_code_begin req_query_only world_pairing).1 ∧
  (ServerTsApi.connect_finish (λ q, "data:" +:+ q) "shop-1" world_pairing).2
    = world_pairing ∧
  (ServerTsApi.qr_code_finish (λ q, "data:" +:+ q) "shop-1" world_pairing).2
    = world_pairing ∧
  outcome_verdict page_verdict
    (ServerTsApi.connect_finish (λ q, "data:" +:+ q) "shop-1" world_pairing).1 =
  outcome_verdict answer_verdict
    (ServerTsApi.qr_code_finish (λ q, "data:" +:+ q) "shop-1" world_pairing).1.
Proof.
  split; [reflexivity |].
  apply (X5_connect_mirrors_qr_code (λ q, "data:" +:+ q) req_query_only
           "shop-1" world_pairing).
  reflexivity.
Defined.

(** A request with the instance in the body only is served by the QR-code
    route and turned away by [/connect]. *)
Example connect_ignores_body :
  let req := {| query_instanceId := None; body_instanceId := Some "shop-1";
                body_phone := None; body_message := None |} in
  (ServerTsApi.connect_begin req world_pairing).1 = Ok (Answered PageAskInstance) ∧
  (ServerTsApi.qr_code_begin req world_pairing).1 = Ok (Waiting "shop-1").
Proof. split; reflexivity. Qed.

(** * Further properties: pairing an instance, start to finish *)

Lemma serverts_live_unregistered w id :
  sessions w !! id = None → ServerTs.live w id = None.
Proof. intros Hreg. unfold ServerTs.live. now rewrite Hreg. Qed.





(** * Further properties: restoring the saved sessions at start-up *)

Lemma serverts_restore_one_parks e w :
  sessions w = ∅ →
  let r := ServerTsApi.restore_one e w in
  r.1 = Ok tt ∧ sessions r.2 = ∅ ∧ socks r.2 = socks w ∧
  qrCodes r.2 = qrCodes w ∧
  starting r.2 = starting w ++
                 (if entry_isDirectory e then [entry_name e] else []) ∧
  authDirs r.2 = authDirs w ∪
                 (if entry_isDirectory e then {[entry_name e]} else ∅).
Proof.
  intros Hempty. unfold ServerTsApi.restore_one.
  destruct (entry_isDirectory e); simpl.
  - unfold ServerTs.startSession_enter. run.
    rewrite serverts_live_unregistered
      by (rewrite Hempty; apply lookup_empty).
    case_bool_decide as Hdir; simpl; repeat split; try assumption.
    + set_solver.
    + set_solver.
  - repeat split; try assumption.
    + now rewrite app_nil_r.
    + set_solver.
Qed.

Lemma serverts_restore_parks listing w :
  sessions w = ∅ →
  let r := ServerTsApi.restore (Some listing) w in
  r.1 = Ok tt ∧ sessions r.2 = ∅ ∧ socks r.2 = socks w ∧
  qrCodes r.2 = qrCodes w ∧
  starting r.2 = starting w ++ restored_names listing ∧
  authDirs r.2 = authDirs w ∪ list_to_set (restored_names listing).
Proof.
  unfold ServerTsApi.restore, restored_names. revert w.
  induction listing as [|e listing IH]; intros w Hempty; simpl.
  - repeat split; try assumption.
    + now rewrite app_nil_r.
    + set_solver.
  - destruct (serverts_restore_one_parks e w Hempty)
      as (Hok & Hr & Hs & Hq & Hst & Hd).
    unfold bind.
    destruct (ServerTsApi.restore_one e w) as [o w1]. simpl in *. subst o.
    destruct (IH w1 Hr) as (Hok' & Hr' & Hs' & Hq' & Hst' & Hd').
    repeat split; try congruence.
    + rewrite Hst', Hst. destruct (entry_isDirectory e); simpl.
      * now rewrite <- app_assoc.
      * now rewrite app_nil_r.
    + rewrite Hd', Hd. destruct (entry_isDirectory e); simpl.
      * set_solver.
      * set_solver.
Qed.

Lemma remove_first_perm x l : x ∈ l → l ≡ₚ x :: remove_first x l.
Proof.
  induction l as [|y l IH]; intros Hin; simpl.
  - now apply not_elem_of_nil in Hin.
  - destruct (String.eqb_spec x y) as [-> | Hne]; [reflexivity |].
    apply elem_of_cons in Hin as [Heq | Hin]; [contradiction |].
    rewrite (IH Hin) at 1. apply perm_swap.
Qed.

Lemma serverts_resume_all_registers names w :
  NoDup names →
  let r := serverts_resume_all names w in
  r.1 = Ok tt ∧
  socks r.2 = socks w ++ (fresh_sock <$> names) ∧
  (∀ i id, names !! i = Some id →
     sessions r.2 !! id = Some (List.length (socks w) + i)) ∧
  (∀ id, id ∉ names → sessions r.2 !! id = sessions w !! id) ∧
  qrCodes r.2 = qrCodes w ∧ authDirs r.2 = authDirs w ∧
  (starting w ≡ₚ names → starting r.2 = []).
Proof.
  unfold serverts_resume_all. revert w.
  induction names as [|id names IH]; intros w Hnodup; simpl.
  - repeat split; auto.
    + now rewrite app_nil_r.
    + intros i id Hi. now rewrite lookup_nil in Hi.
    + intros Hperm. now apply Permutation_nil_r in Hperm.
  - apply NoDup_cons in Hnodup as [Hfresh Hnodup].
    set (w1 := set_sessions <[id:=List.length (socks w)]>
                 (set_socks (λ l, l ++ [fresh_sock id])
                    (set_starting (remove_first id) w))).
    rewrite (bind_Ok _ _ w tt w1) by reflexivity.
    destruct (IH w1 Hnodup) as (Hok & Hs & Hreg & Hother & Hq & Hd & Hst).
    repeat split.
    + exact Hok.
    + rewrite Hs. subst w1. simpl. now rewrite <- app_assoc.
    + intros [|i] id' Hi; simpl in Hi.
      * injection Hi as <-. rewrite (Hother id Hfresh). subst w1. simpl.
        rewrite Nat.add_0_r. apply lookup_insert_eq.
      * rewrite (Hreg i id' Hi). subst w1. simpl.
        rewrite length_app. simpl. f_equal. lia.
    + intros id' Hnot. apply not_elem_of_cons in Hnot as [Hne Hnot].
      rewrite (Hother id' Hnot). subst w1. simpl.
      now apply lookup_insert_ne.
    + exact Hq.
    + exact Hd.
    + intros Hstart. apply Hst. subst w1. simpl.
      assert (id ∈ starting w) as Hin
        by (rewrite Hstart; apply elem_of_cons; now left).
      apply (Permutation_cons_inv (a := id)).
      now rewrite <- (remove_first_perm id (starting w) Hin).
Qed.

(** X7. Start-up of [server.ts]: on a listing of plain names, none of
    them twice, the restore loop parks one start per directory (files are skipped) and
    registers nothing yet. The parked starts resume in an order the code
    does not fix; whatever that order, once they have all resumed every
    saved directory has its own socket in the registry, the sockets are
    numbered in the order of resumption, nothing remains parked, no pairing
    payload is cached, and the credential directories are the ones there
    were plus those listed. *)
Theorem X7_restore_registers_each_directory listing order w :
  at_startup w →
  plain_listing (Some listing) = true →
  NoDup (restored_names listing) →
  order ≡ₚ restored_names listing →
  let r1 := ServerTsApi.restore (Some listing) w in
  let r2 := serverts_resume_all order r1.2 in
  r1.1 = Ok tt ∧ sessions r1.2 = ∅ ∧
  starting r1.2 = restored_names listing ∧
  r2.1 = Ok tt ∧
  socks r2.2 = fresh_sock <$> order ∧
  (∀ i id, order !! i = Some id →
     sessions r2.2 !! id = Some i ∧ socks r2.2 !! i = Some (fresh_sock id)) ∧
  (∀ id, id ∈ restored_names listing →
     ∃ i, sessions r2.2 !! id = Some i ∧
          socks r2.2 !! i = Some (fresh_sock id)) ∧
  (∀ id, id ∉ restored_names listing → sessions r2.2 !! id = None) ∧
  starting r2.2 = [] ∧ qrCodes r2.2 = ∅ ∧
  authDirs r2.2 = authDirs w ∪ list_to_set (restored_names listing).
Proof.
  intros (Hreg & Hqr & Hstart & Hsocks) _ Hnodup Hperm r1 r2.
  destruct (serverts_restore_parks listing w Hreg)
    as (Hok1 & Hr1 & Hs1 & Hq1 & Hst1 & Hd1).
  fold r1 in Hok1, Hr1, Hs1, Hq1, Hst1, Hd1.
  rewrite Hstart in Hst1. simpl in Hst1.
  assert (NoDup order) as Hnodup' by now rewrite Hperm.
  destruct (serverts_resume_all_registers order r1.2 Hnodup')
    as (Hok2 & Hs2 & Hreg2 & Hother2 & Hq2 & Hd2 & Hst2).
  fold r2 in Hok2, Hs2, Hreg2, Hother2, Hq2, Hd2, Hst2.
  rewrite Hs1, Hsocks in Hs2, Hreg2. simpl in Hs2, Hreg2.
  assert (∀ i id, order !! i = Some id →
            sessions r2.2 !! id = Some i ∧
            socks r2.2 !! i = Some (fresh_sock id)) as Heach.
  { intros i id Hi. split; [now apply Hreg2 |].
    rewrite Hs2, list_lookup_fmap, Hi. reflexivity. }
  split; [exact Hok1 |]. split; [exact Hr1 |]. split; [exact Hst1 |].
  split; [exact Hok2 |]. split; [exact Hs2 |]. split; [exact Heach |].
  split.
  { intros id Hin. rewrite <- Hperm in Hin.
    apply list_elem_of_lookup_1 in Hin as [i Hi]. exists i. now apply Heach. }
  split.
  { intros id Hnot. rewrite <- Hperm in Hnot.
    rewrite (Hother2 id Hnot), Hr1. apply lookup_empty. }
  split; [apply Hst2; now rewrite Hst1, Hperm |].
  split; [now rewrite Hq2, Hq1 | now rewrite Hd2].
Qed.

Example X7_witness :
  at_startup world_startup ∧
  plain_listing (Some listing_two_shops) = true ∧
  NoDup (restored_names listing_two_shops) ∧
  ["shop-2"; "shop-1"] ≡ₚ restored_names listing_two_shops ∧
  let r1 := ServerTsApi.restore (Some listing_two_shops) world_startup in
  let r2 := serverts_resume_all ["shop-2"; "shop-1"] r1.2 in
  r1.1 = Ok tt ∧ sessions r1.2 = ∅ ∧
  starting r1.2 = restored_names listing_two_shops ∧
  r2.1 = Ok tt ∧
  socks r2.2 = fresh_sock <$> ["shop-2"; "shop-1"] ∧
  (∀ i id, ["shop-2"; "shop-1"] !! i = Some id →
     sessions r2.2 !! id = Some i ∧ socks r2.2 !! i = Some (fresh_sock id)) ∧
  (∀ id, id ∈ restored_names listing_two_shops →
     ∃ i, sessions r2.2 !! id = Some i ∧
          socks r2.2 !! i = Some (fresh_sock id)) ∧
  (∀ id, id ∉ restored_names listing_two_shops → sessions r2.2 !! id = None) ∧
  starting r2.2 = [] ∧ qrCodes r2.2 = ∅ ∧
  authDirs r2.2 = authDirs world_startup ∪
                  list_to_set (restored_names listing_two_shops).
Proof.
  assert (NoDup (restored_names listing_two_shops)) as Hnodup.
  { simpl. apply NoDup_cons. split.
    - intros Hin. apply list_elem_of_singleton in Hin. discriminate.
    - apply NoDup_singleton. }
  assert (["shop-2"; "shop-1"] ≡ₚ restored_names listing_two_shops) as Hperm
    by apply perm_swap.
  split; [repeat split |]. split; [reflexivity |].
  split; [exact Hnodup |]. split; [exact Hperm |].
  apply (X7_restore_registers_each_directory listing_two_shops
           ["shop-2"; "shop-1"] world_startup).
  - repeat split.
  - reflexivity.
  - exact Hnodup.
  - exact Hperm.
Defined.

(** Resuming [shop-2] first gives it socket 0. *)
Example resume_out_of_listing_order :
  let r1 := ServerTsApi.restore (Some listing_two_shops) world_startup in
  let r2 := serverts_resume_all ["shop-2"; "shop-1"] r1.2 in
  sessions r2.2 !! "shop-1" = Some 1 ∧ sessions r2.2 !! "shop-2" = Some 0.
Proof. repeat split. Qed.

(** * Further properties: the names part_000 refuses *)

Lemma remove_first_subset x l (y : string) :
  y ∈ remove_first x l → y ∈ l.
Proof.
  induction l as [|z l IH]; simpl; [auto |].
  destruct (String.eqb x z).
  - intros Hin. now apply elem_of_cons; right.
  - intros Hin. apply elem_of_cons in Hin as [-> | Hin].
    + apply elem_of_cons. now left.
    + apply elem_of_cons. right. auto.
Qed.

Lemma unreserved_view D w w' :
  sessions w' = sessions w → starting w' = starting w →
  qrCodes w' = qrCodes w → socks w' = socks w → authDirs w' = authDirs w →
  unreserved D w → unreserved D w'.
Proof.
  intros Hr Hst Hq Hs Hd Hinv id Hres.
  rewrite Hr, Hst, Hq, Hs, Hd. now apply Hinv.
Qed.

Lemma part000_enter_unreserved D id w :
  unreserved D w → unreserved D (Part000.startSession_enter id w).2.
Proof.
  intros Hinv. unfold Part000.startSession_enter.
  destruct (Part000.reserved id) eqn:Hid; [exact Hinv |].
  run. destruct (Part000.live w id); [exact Hinv |].
  intros id' Hres. destruct (Hinv id' Hres) as (Hs & Hst & Hq & Hown & Hd).
  assert (id' ≠ id) as Hne by (intros ->; congruence).
  case_bool_decide; simpl; repeat split; try assumption.
  - intros Hin. apply elem_of_app in Hin as [Hin | Hin]; [auto |].
    apply list_elem_of_singleton in Hin. auto.
  - intros Hin. apply elem_of_app in Hin as [Hin | Hin]; [auto |].
    apply list_elem_of_singleton in Hin. auto.
  - intros Hin. apply elem_of_union in Hin as [Hin | Hin]; [| auto].
    apply elem_of_singleton in Hin. contradiction.
Qed.

Lemma part000_resume_unreserved D id w :
  id ∈ starting w →
  unreserved D w → unreserved D (Part000.startSession_resume id w).2.
Proof.
  intros Hparked Hinv id' Hres.
  destruct (Hinv id' Hres) as (Hs & Hst & Hq & Hown & Hd).
  assert (id ≠ id') as Hne by (intros ->; contradiction).
  unfold Part000.startSession_resume. run. simpl. repeat split.
  - rewrite lookup_insert_ne; assumption.
  - intros Hin. apply remove_first_subset in Hin. contradiction.
  - exact Hq.
  - intros h s Hsock. apply lookup_app_Some in Hsock as [Hsock | [_ Hsock]].
    + eauto.
    + destruct (h - List.length (socks w)); simpl in Hsock; [| discriminate].
      injection Hsock as <-. simpl. auto.
  - exact Hd.
Qed.

Lemma part000_update_unreserved D env id update w :
  (∃ h s, socks w !! h = Some s ∧ owner s = id) →
  unreserved D w →
  unreserved D (Part000Api.on_connection_update env id update w).2.
Proof.
  intros (h & s & Hsock & Hid) Hinv id' Hres.
  destruct (Hinv id' Hres) as (Hs & Hst & Hq & Hown & Hd).
  assert (id ≠ id') as Hne by (subst id; eauto).
  unfold Part000Api.on_connection_update.
  destruct (note_qr_frame id update w)
    as (w1 & Hnote & Hs1 & Hr1 & Hd1 & Hst1 & _).
  assert (qrCodes w1 !! id' = None) as Hq1.
  { unfold note_qr in Hnote. destruct (qr update) as [q|].
    - destruct (Js.truthy (Some q)); injection Hnote as <-; simpl;
        [rewrite lookup_insert_ne |]; assumption.
    - now injection Hnote as <-. }
  rewrite (bind_Ok _ _ _ _ _ Hnote).
  destruct (connection update) as [[]|].
  - case_bool_decide; simpl.
    + run. simpl. case_bool_decide; [destruct (rmSync_throws env) |]; simpl;
        rewrite ?Hs1, ?Hst1, ?Hd1;
        (repeat split;
         [rewrite lookup_delete_ne, Hr1; assumption | assumption
         | rewrite lookup_delete_ne; assumption | assumption | ]);
        try exact Hd.
      intros Hin. apply elem_of_difference in Hin as [Hin _]. auto.
    + run. simpl. rewrite Hr1, Hst1, Hs1, Hd1. repeat split; assumption.
  - run. simpl. rewrite Hr1, Hst1, Hs1, Hd1.
    repeat split; try assumption. rewrite lookup_delete_ne; assumption.
  - simpl. rewrite Hr1, Hst1, Hs1, Hd1. repeat split; assumption.
  - simpl. rewrite Hr1, Hst1, Hs1, Hd1. repeat split; assumption.
Qed.

Lemma unreserved_altered D w w' h (f : Sock → Sock) :
  (∀ s, owner (f s) = owner s) →
  socks w' = alter f h (socks w) →
  sessions w' = sessions w → starting w' = starting w →
  qrCodes w' = qrCodes w → authDirs w' = authDirs w →
  unreserved D w → unreserved D w'.
Proof.
  intros Hf Hs Hr Hst Hq Hd Hinv id Hres.
  destruct (Hinv id Hres) as (Hs0 & Hst0 & Hq0 & Hown & Hd0).
  rewrite Hr, Hst, Hq, Hd. repeat split; try assumption.
  intros h' s Hsock. rewrite Hs, list_lookup_alter in Hsock.
  case_decide.
  - subst h'. destruct (socks w !! h) as [s0|] eqn:Hs0'; [| discriminate].
    simpl in Hsock. injection Hsock as <-. rewrite Hf. eauto.
  - eauto.
Qed.

Lemma part000_reset_unreserved D env req w :
  unreserved D w → unreserved D (Part000Api.reset env req w).2.
Proof.
  intros Hinv. unfold Part000Api.reset.
  destruct (Js.truthy (query_instanceId req)); simpl; [| exact Hinv].
  destruct (query_instanceId req) as [id|]; [| exact Hinv].
  intros id' Hres. destruct (Hinv id' Hres) as (Hs & Hst & Hq & Hown & Hd).
  assert (∀ id0 (m : gmap string nat), m !! id' = None →
            delete id0 m !! id' = None) as Hdel1.
  { intros id0 m Hm. rewrite lookup_delete. case_decide; auto. }
  assert (∀ id0 (m : gmap string string), m !! id' = None →
            delete id0 m !! id' = None) as Hdel2.
  { intros id0 m Hm. rewrite lookup_delete. case_decide; auto. }
  assert (∀ X : gset string, id' ∈ X ∖ {[id]} → id' ∈ X) as Hdiff.
  { intros X Hin. now apply elem_of_difference in Hin as [Hin _]. }
  run. destruct (sessions w !! id) as [h|]; simpl.
  - destruct (end_throws env); simpl;
      (case_bool_decide; [destruct (rmSync_throws env) |]); simpl;
      repeat split; auto.
  - case_bool_decide; [destruct (rmSync_throws env) |]; simpl;
      repeat split; auto.
Qed.

Lemma part000_send_text_view env req w :
  let w' := (Part000Api.send_text env req w).2 in
  sessions w' = sessions w ∧ starting w' = starting w ∧
  qrCodes w' = qrCodes w ∧ socks w' = socks w ∧ authDirs w' = authDirs w.
Proof.
  unfold Part000Api.send_text.
  destruct (Js.truthy (Js.or (body_instanceId req) (query_instanceId req)));
    simpl; [| repeat split].
  destruct (Js.or (body_instanceId req) (query_instanceId req)) as [t|];
    [| repeat split].
  run. destruct (sessions w !! t) as [h|]; [| repeat split].
  destruct (body_phone req); [| repeat split].
  destruct (sendMessage_result env) as [|[mid|]]; repeat split.
Qed.

Lemma for_of_keeps {A} (P : World → Prop) (xs : list A) (f : A → M unit) w :
  (∀ x w, P w → P (f x w).2) → P w → P (for_of xs f w).2.
Proof.
  intros Hf. revert w. induction xs as [|x xs IH]; intros w Hw; simpl.
  - exact Hw.
  - unfold bind. specialize (Hf x w Hw).
    destruct (f x w) as [[[]|] w1]; simpl in *; auto.
Qed.

Lemma part000_upsert_unreserved D env id h messages type w :
  unreserved D w →
  unreserved D (Part000.on_messages_upsert env id h messages type w).2.
Proof.
  unfold Part000.on_messages_upsert. destruct type; [| auto].
  apply for_of_keeps. clear. intros msg w Hinv.
  unfold Part000.upsert_one.
  destruct (negb (fromMe (key msg)) && Js.truthy (WEBHOOK_URL env));
    [| exact Hinv].
  run. simpl. destruct (Js.truthy (msgContent msg)); simpl; [| exact Hinv].
  destruct (post_fails env _); simpl;
    (eapply unreserved_view; [.. | exact Hinv]; reflexivity).
Qed.

Lemma part000_exec_unreserved D env e w :
  unreserved D w → permitted w e = true →
  unreserved D (part000_exec env e w).2.
Proof.
  intros Hinv Hperm.
  destruct e as [h em | h ms ty | id | id | id | req | req | req];
    unfold part000_exec.
  - rewrite bind_Ok with (a := socks w !! h) (w1 := w) by reflexivity.
    destruct (socks w !! h) as [s|] eqn:Hsock; [| exact Hinv].
    destruct em as [q | account | code | d c]; unfold transport_writes.
    + rewrite bind_ret. apply part000_update_unreserved; eauto.
    + rewrite bind_Ok with (a := tt)
        (w1 := set_socks (alter (with_user (Some account)) h) w)
        by reflexivity.
      apply part000_update_unreserved.
      * exists h, (with_user (Some account) s). simpl.
        rewrite list_lookup_alter_eq, Hsock. auto.
      * apply (unreserved_altered D w _ h (with_user (Some account)));
          (reflexivity || assumption).
    + rewrite bind_ret. apply part000_update_unreserved; eauto.
    + run. simpl.
      apply (unreserved_altered D w _ h (with_flags d c));
        (reflexivity || assumption).
  - rewrite bind_Ok with (a := socks w !! h) (w1 := w) by reflexivity.
    destruct (socks w !! h) as [s|]; [| exact Hinv].
    now apply part000_upsert_unreserved.
  - rewrite discard_world. now apply part000_enter_unreserved.
  - rewrite discard_world. apply part000_resume_unreserved; [| exact Hinv].
    simpl in Hperm. now apply bool_decide_eq_true in Hperm.
  - rewrite discard_world. unfold Part000Api.timer_fires.
    rewrite bind_Ok with (a := tt) (w1 := set_timers (remove_first id) w)
      by reflexivity.
    apply part000_enter_unreserved.
    eapply unreserved_view; [.. | exact Hinv]; reflexivity.
  - rewrite discard_world.
    destruct (part000_send_text_view env req w) as (? & ? & ? & ? & ?).
    eapply unreserved_view; [.. | exact Hinv]; assumption.
  - exact Hinv.
  - rewrite discard_world. now apply part000_reset_unreserved.
Qed.

Lemma part000_restore_unreserved D listing w :
  unreserved D w → unreserved D (Part000Api.restore listing w).2.
Proof.
  intros Hinv. destruct listing as [entries|]; [| exact Hinv].
  unfold Part000Api.restore. apply for_of_keeps; [| exact Hinv].
  intros e w1 Hinv1. unfold Part000Api.restore_one.
  destruct (negb (entry_name e =? ".DS_Store")%string &&
            negb (entry_name e =? "lost+found")%string &&
            entry_isDirectory e); [| exact Hinv1].
  unfold bind.
  pose proof (part000_enter_unreserved D (entry_name e) w1 Hinv1) as Hkeep.
  destruct (Part000.startSession_enter (entry_name e) w1) as [[st|] w2];
    exact Hkeep.
Qed.

Lemma unreserved_startup w : at_startup w → unreserved (authDirs w) w.
Proof.
  intros (Hr & Hq & Hst & Hs) id _. rewrite Hr, Hq, Hst, Hs.
  split; [apply lookup_empty |]. split; [apply not_elem_of_nil |].
  split; [apply lookup_empty |].
  split; [intros h s Hsock; now rewrite lookup_nil in Hsock | auto].
Qed.

(** X8. In [part_000], from start-up and along every run in which the
    instance ids are plain names (the restore loop over any listing, then
    requests, starts, timers and transport events in any order), the names
    [lost+found] and [.DS_Store] are never registered, never have a start
    parked, never get a pairing payload or a socket, and never get a
    credential directory made for them; so the QR-code route keeps
    answering not-ready for them. An id such as [./lost+found] is not
    plain: it is not on the list of line 205 and names the same
    directory. *)
Theorem X8_reserved_names_never_served env toDataURL listing events w id :
  at_startup w →
  Part000.reserved id = true →
  plain_listing listing = true →
  plain_run events = true →
  let w1 := (Part000Api.restore listing w).2 in
  run_permitted (part000_exec env) events w1 = true →
  let w2 := run_events (part000_exec env) events w1 in
  sessions w2 !! id = None ∧
  (id ∉ starting w2) ∧
  qrCodes w2 !! id = None ∧
  (∀ h s, socks w2 !! h = Some s → owner s ≠ id) ∧
  (id ∈ authDirs w2 → id ∈ authDirs w) ∧
  outcome_verdict answer_verdict
    (Part000Api.qr_code_finish toDataURL id w2).1 = Some VNotReady.
Proof.
  intros Hstart Hres _ _ w1 Hperm w2.
  assert (unreserved (authDirs w) w2) as Hinv.
  { apply (run_events_invariant (unreserved (authDirs w))
             (part000_exec env) events w1); [| | exact Hperm].
    - intros e w0. apply part000_exec_unreserved.
    - apply part000_restore_unreserved. now apply unreserved_startup. }
  destruct (Hinv id Hres) as (Hs & Hst & Hq & Hown & Hd).
  repeat split; try assumption.
  destruct (qr_code_finish_verdict toDataURL id w2) as (_ & _ & -> & _).
  now rewrite qr_verdict_gone.
Qed.

Example X8_witness :
  at_startup world_volume ∧
  Part000.reserved "lost+found" = true ∧
  plain_listing (Some listing_volume) = true ∧
  plain_run reserved_run = true ∧
  let w1 := (Part000Api.restore (Some listing_volume) world_volume).2 in
  run_permitted (part000_exec env_quiet) reserved_run w1 = true ∧
  let w2 := run_events (part000_exec env_quiet) reserved_run w1 in
  sessions w2 !! "lost+found" = None ∧
  ("lost+found" ∉ starting w2) ∧
  qrCodes w2 !! "lost+found" = None ∧
  (∀ h s, socks w2 !! h = Some s → owner s ≠ "lost+found") ∧
  ("lost+found" ∈ authDirs w2 → "lost+found" ∈ authDirs world_volume) ∧
  outcome_verdict answer_verdict
    (Part000Api.qr_code_finish data_url "lost+found" w2).1 = Some VNotReady.
Proof.
  split; [repeat split |]. split; [reflexivity |].
  split; [reflexivity |]. split; [reflexivity |].
  intros w1. split; [reflexivity |].
  apply (X8_reserved_names_never_served env_quiet data_url
           (Some listing_volume) reserved_run world_volume "lost+found");
    [repeat split | reflexivity | reflexivity | reflexivity | reflexivity].
Defined.

(** In that run the two shops do get their sockets. *)
Example reserved_run_serves_the_shops :
  let w1 := (Part000Api.restore (Some listing_volume) world_volume).2 in
  let w2 := run_events (part000_exec env_quiet) reserved_run w1 in
  starting w1 = ["shop-1"; "shop-2"] ∧
  sessions w2 !! "shop-1" = Some 0 ∧ sessions w2 !! "shop-2" = Some 1.
Proof. repeat split. Qed.

(** * Further properties: one instance does not disturb another *)

Lemma untouched_refl id w : untouched id w w.
Proof. repeat split; auto. Qed.

Lemma untouched_trans id w1 w2 w3 :
  untouched id w1 w2 → untouched id w2 w3 → untouched id w1 w3.
Proof.
  intros (Hr & Hi & Hq & Hd) (Hr' & Hi' & Hq' & Hd').
  repeat split; try congruence; tauto.
Qed.

(** A change to the maps and directories at one key, with the sockets
    kept, leaves every other key alone. *)
Lemma untouched_elsewhere id id' w w' :
  id ≠ id' →
  socks w' = socks w →
  (sessions w' = sessions w ∨ sessions w' = delete id (sessions w)) →
  (qrCodes w' = qrCodes w ∨ qrCodes w' = delete id (qrCodes w) ∨
   ∃ q, qrCodes w' = <[id := q]> (qrCodes w)) →
  (authDirs w' = authDirs w ∨ authDirs w' = authDirs w ∖ {[id]} ∨
   authDirs w' = {[id]} ∪ authDirs w) →
  untouched id' w w'.
Proof.
  intros Hne Hs Hr Hq Hd.
  assert (sessions w' !! id' = sessions w !! id') as Hr'.
  { destruct Hr as [-> | ->]; [reflexivity | now apply lookup_delete_ne]. }
  repeat split.
  - exact Hr'.
  - unfold identity. now rewrite Hr', Hs.
  - destruct Hq as [-> | [-> | (q & ->)]];
      [reflexivity | now apply lookup_delete_ne | now apply lookup_insert_ne].
  - destruct Hd as [-> | [-> | ->]]; [auto | |].
    + intros Hin. now apply elem_of_difference in Hin as [Hin _].
    + intros Hin. apply elem_of_union in Hin as [Hin | Hin]; [| exact Hin].
      apply elem_of_singleton in Hin. congruence.
  - destruct Hd as [-> | [-> | ->]]; [auto | |].
    + intros Hin. apply elem_of_difference. split; [exact Hin |].
      intros Hx. apply elem_of_singleton in Hx. congruence.
    + intros Hin. apply elem_of_union. now right.
Qed.

Lemma note_qr_untouched id id' update w :
  id ≠ id' → untouched id' w (note_qr id update w).2.
Proof.
  intros Hne. unfold note_qr. destruct (qr update) as [q|];
    [destruct (Js.truthy (Some q)) |]; try apply untouched_refl.
  apply (untouched_elsewhere id); auto. simpl. eauto.
Qed.

Lemma serverts_enter_untouched id id' w :
  id ≠ id' → untouched id' w (ServerTs.startSession_enter id w).2.
Proof.
  intros Hne. unfold ServerTs.startSession_enter. run.
  destruct (ServerTs.live w id); [apply untouched_refl |].
  case_bool_decide; simpl; apply (untouched_elsewhere id); simpl; auto.
Qed.

Lemma part001_enter_untouched id id' w :
  id ≠ id' → untouched id' w (Part001.startSession_enter id w).2.
Proof.
  intros Hne. unfold Part001.startSession_enter. run.
  destruct (Part001.live w id); [apply untouched_refl |].
  case_bool_decide; simpl; apply (untouched_elsewhere id); simpl; auto.
Qed.

(** Registering a new socket for [id] leaves the others alone: the new
    socket has no account, so even a dangling entry reads the same. *)
Lemma registered_untouched id id' w w' :
  id ≠ id' →
  socks w' = socks w ++ [fresh_sock id] →
  sessions w' = <[id := List.length (socks w)]> (sessions w) →
  qrCodes w' = qrCodes w → authDirs w' = authDirs w →
  untouched id' w w'.
Proof.
  intros Hne Hs Hr Hq Hd.
  assert (sessions w' !! id' = sessions w !! id') as Hr'
    by (rewrite Hr; now apply lookup_insert_ne).
  split; [exact Hr' |]. split; [| split; [now rewrite Hq | now rewrite Hd]].
  unfold identity. rewrite Hr'.
  destruct (sessions w !! id') as [h|]; [| reflexivity]. simpl. rewrite Hs.
  destruct (decide (h < List.length (socks w))) as [Hlt | Hge].
  - now rewrite lookup_app_l.
  - rewrite lookup_app_r by lia.
    rewrite (lookup_ge_None_2 (socks w) h) by lia.
    destruct (h - List.length (socks w)) as [|[|n]]; reflexivity.
Qed.

Lemma untouched_bind_world {A B} id (m : M A) (k : A → M B) w :
  untouched id w (m w).2 →
  (∀ a w1, untouched id w1 (k a w1).2) →
  untouched id w (bind m k w).2.
Proof.
  intros Hm Hk. unfold bind. destruct (m w) as [[a|] w1]; simpl in *.
  - eapply untouched_trans; [exact Hm | apply Hk].
  - exact Hm.
Qed.

Lemma update_untouched env id id' update w :
  id ≠ id' →
  untouched id' w (ServerTs.on_connection_update id update w).2 ∧
  untouched id' w (Part001.on_connection_update env id update w).2.
Proof.
  intros Hne.
  unfold ServerTs.on_connection_update, Part001.on_connection_update.
  split; (apply untouched_bind_world; [now apply note_qr_untouched |]);
    intros [] w1; destruct (connection update) as [[]|];
    try apply untouched_refl.
  - case_bool_decide; simpl.
    + run. simpl. apply (untouched_elsewhere id); simpl; auto.
    + apply untouched_bind_world; [now apply serverts_enter_untouched |].
      intros. apply untouched_refl.
  - run. simpl. apply (untouched_elsewhere id); simpl; auto.
  - case_bool_decide; simpl.
    + run. simpl. case_bool_decide; [destruct (rmSync_throws env) |];
        simpl; apply (untouched_elsewhere id); simpl; auto.
    + run. simpl. apply (untouched_elsewhere id); simpl; auto.
  - run. simpl. apply (untouched_elsewhere id); simpl; auto.
Qed.

Lemma start_untouched id id' w :
  id ≠ id' →
  untouched id' w (ServerTs.startSession id w).2 ∧
  untouched id' w (Part001.startSession id w).2.
Proof.
  intros Hne. unfold ServerTs.startSession, Part001.startSession.
  split.
  - apply untouched_bind_world; [now apply serverts_enter_untouched |].
    intros [r|] w1; [apply untouched_refl |].
    unfold ServerTs.startSession_resume. run. simpl.
    apply (registered_untouched id); auto.
  - apply untouched_bind_world; [now apply part001_enter_untouched |].
    intros [r|] w1; [apply untouched_refl |].
    unfold Part001.startSession_resume. run. simpl.
    apply (registered_untouched id); auto.
Qed.

Lemma not_named_other v t id' : v = Some t → ¬ names v id' →
  Js.truthy v = true → t ≠ id'.
Proof.
  intros -> Hnot Htruthy ->. apply Hnot. split; [reflexivity |].
  apply truthy_present in Htruthy as (s & [= <-] & Hne). exact Hne.
Qed.

Lemma routes_untouched env req id' w :
  ¬ names (Js.or (query_instanceId req) (body_instanceId req)) id' →
  untouched id' w (ServerTs.reset env req w).2 ∧
  untouched id' w (ServerTs.logout env req w).2 ∧
  untouched id' w (Part001.reset env req w).2.
Proof.
  intros Hnot. split; [| split].
  - unfold ServerTs.reset.
    destruct (Js.truthy (Js.or (query_instanceId req) (body_instanceId req)))
      eqn:Htruthy; simpl; [| apply untouched_refl].
    destruct (Js.or (query_instanceId req) (body_instanceId req)) as [t|]
      eqn:Htarget; [| apply untouched_refl].
    assert (t ≠ id') as Hne
      by (apply (not_named_other (Some t) t id'); auto).
    run. destruct (sessions w !! t) as [h|]; simpl.
    + destruct (end_throws env); simpl;
        [apply (untouched_elsewhere t); simpl; auto |].
      case_bool_decide; [destruct (rmSync_throws env) |]; simpl;
        apply (untouched_elsewhere t); simpl; auto.
    + case_bool_decide; [destruct (rmSync_throws env) |]; simpl;
        apply (untouched_elsewhere t); simpl; auto.
  - unfold ServerTs.logout.
    destruct (Js.truthy (Js.or (query_instanceId req) (body_instanceId req)))
      eqn:Htruthy; simpl; [| apply untouched_refl].
    destruct (Js.or (query_instanceId req) (body_instanceId req)) as [t|]
      eqn:Htarget; [| apply untouched_refl].
    assert (t ≠ id') as Hne
      by (apply (not_named_other (Some t) t id'); auto).
    run. destruct (sessions w !! t) as [h|]; simpl; [| apply untouched_refl].
    destruct (logout_throws env); simpl;
      [apply (untouched_elsewhere t); simpl; auto |].
    destruct (rmSync_throws env); simpl;
      apply (untouched_elsewhere t); simpl; auto.
  - unfold Part001.reset.
    destruct (Js.truthy (query_instanceId req)) eqn:Htruthy; simpl;
      [| apply untouched_refl].
    destruct (query_instanceId req) as [t|] eqn:Htarget;
      [| apply untouched_refl].
    assert (t ≠ id') as Hne.
    { intros ->. apply Hnot. unfold Js.or. rewrite Htruthy.
      split; [reflexivity |].
      apply truthy_present in Htruthy as (s & [= <-] & Hne). exact Hne. }
    run. destruct (sessions w !! t) as [h|]; simpl.
    + destruct (end_throws env); simpl;
        (case_bool_decide; [destruct (rmSync_throws env) |]); simpl;
        apply (untouched_elsewhere t); simpl; auto.
    + case_bool_decide; [destruct (rmSync_throws env) |]; simpl;
        apply (untouched_elsewhere t); simpl; auto.
Qed.

(** X9. In [server.ts] and [part_001], for instances whose ids are plain
    names, whatever happens to one instance leaves every other instance as
    it was - its registry entry, its logged-in account, its pairing payload
    and its credential directory: a [connection.update] of any kind, a
    start, and a reset or logout request (which touch at most the instance
    the request names), also when the transport or the file system fails
    half-way. An id that is not plain can name the directory of another
    instance, or the folder of them all. *)
Theorem X9_instances_are_isolated env id id' update req w :
  id ≠ id' →
  ¬ names (Js.or (query_instanceId req) (body_instanceId req)) id' →
  plain id = true → plain id' = true →
  (∀ t, names (Js.or (query_instanceId req) (body_instanceId req)) t →
        plain t = true) →
  untouched id' w (ServerTs.on_connection_update id update w).2 ∧
  untouched id' w (Part001.on_connection_update env id update w).2 ∧
  untouched id' w (ServerTs.startSession id w).2 ∧
  untouched id' w (Part001.startSession id w).2 ∧
  untouched id' w (ServerTs.reset env req w).2 ∧
  untouched id' w (ServerTs.logout env req w).2 ∧
  untouched id' w (Part001.reset env req w).2.
Proof.
  intros Hne Hnot _ _ _.
  destruct (update_untouched env id id' update w Hne) as [Hu1 Hu2].
  destruct (start_untouched id id' w Hne) as [Hs1 Hs2].
  destruct (routes_untouched env req id' w Hnot) as (Hr1 & Hr2 & Hr3).
  repeat (split; [assumption |]). assumption.
Qed.

Example X9_witness :
  "shop-1" ≠ "shop-2" ∧
  ¬ names (Js.or (query_instanceId (req_for "shop-1"))
                 (body_instanceId (req_for "shop-1"))) "shop-2" ∧
  plain "shop-1" = true ∧ plain "shop-2" = true ∧
  (∀ t, names (Js.or (query_instanceId (req_for "shop-1"))
                     (body_instanceId (req_for "shop-1"))) t →
        plain t = true) ∧
  untouched "shop-2" world_two_shops
    (ServerTs.on_connection_update "shop-1" close_logged_out world_two_shops).2 ∧
  untouched "shop-2" world_two_shops
    (Part001.on_connection_update env_quiet "shop-1" close_logged_out
       world_two_shops).2 ∧
  untouched "shop-2" world_two_shops
    (ServerTs.startSession "shop-1" world_two_shops).2 ∧
  untouched "shop-2" world_two_shops
    (Part001.startSession "shop-1" world_two_shops).2 ∧
  untouched "shop-2" world_two_shops
    (ServerTs.reset env_quiet (req_for "shop-1") world_two_shops).2 ∧
  untouched "shop-2" world_two_shops
    (ServerTs.logout env_quiet (req_for "shop-1") world_two_shops).2 ∧
  untouched "shop-2" world_two_shops
    (Part001.reset env_quiet (req_for "shop-1") world_two_shops).2.
Proof.
  assert ("shop-1" ≠ "shop-2") as Hne by discriminate.
  assert (¬ names (Js.or (query_instanceId (req_for "shop-1"))
                         (body_instanceId (req_for "shop-1"))) "shop-2")
    as Hnot by (intros [Heq _]; discriminate Heq).
  assert (∀ t, names (Js.or (query_instanceId (req_for "shop-1"))
                            (body_instanceId (req_for "shop-1"))) t →
               plain t = true) as Hplain
    by (intros t [[= <-] _]; reflexivity).
  split; [exact Hne |]. split; [exact Hnot |].
  split; [reflexivity |]. split; [reflexivity |]. split; [exact Hplain |].
  exact (X9_instances_are_isolated env_quiet "shop-1" "shop-2"
           close_logged_out (req_for "shop-1") world_two_shops Hne Hnot
           eq_refl eq_refl Hplain).
Defined.

(** * Further properties: reset and logout, done twice *)

Lemma not_in_difference_self (X : gset string) id :
  bool_decide (id ∈ X ∖ {[id]}) = false.
Proof.
  apply bool_decide_eq_false. intros Hin.
  apply elem_of_difference in Hin as [_ Hin]. apply Hin.
  now apply elem_of_singleton.
Qed.

(** X10. In [part_001] and [part_000] a reset repeated at once is a
    no-op: when [fs.rmSync] works, the second call gives the same answer as
    the first and leaves the state exactly as the first left it - whatever
    the instance was before, and whether or not [sock.end] threw. *)
Theorem X10_reset_twice env req w :
  rmSync_throws env = false →
  Part001.reset env req (Part001.reset env req w).2 = Part001.reset env req w ∧
  Part000Api.reset env req (Part000Api.reset env req w).2 =
    Part000Api.reset env req w.
Proof.
  intros Hrm. unfold Part001.reset, Part000Api.reset.
  destruct (Js.truthy (query_instanceId req)); simpl; [| split; reflexivity].
  destruct (query_instanceId req) as [id|]; [| split; reflexivity].
  run. rewrite Hrm.
  destruct (sessions w !! id) as [h|] eqn:Hreg; simpl.
  - destruct (end_throws env); simpl;
      (case_bool_decide as Hdir; simpl;
       [ rewrite !lookup_delete_eq; simpl;
         rewrite !not_in_difference_self; split; reflexivity
       | rewrite !lookup_delete_eq; simpl;
         rewrite !(bool_decide_eq_false_2 _ Hdir); split; reflexivity ]).
  - case_bool_decide as Hdir; simpl.
    + rewrite !Hreg. simpl. rewrite !not_in_difference_self.
      split; reflexivity.
    + rewrite !Hreg. simpl. rewrite !(bool_decide_eq_false_2 _ Hdir).
      split; reflexivity.
Qed.

Example X10_witness :
  rmSync_throws env_end_fails = false ∧
  Part001.reset env_end_fails (req_for "shop-1")
    (Part001.reset env_end_fails (req_for "shop-1") world_pairing).2 =
    Part001.reset env_end_fails (req_for "shop-1") world_pairing ∧
  Part000Api.reset env_end_fails (req_for "shop-1")
    (Part000Api.reset env_end_fails (req_for "shop-1") world_pairing).2 =
    Part000Api.reset env_end_fails (req_for "shop-1") world_pairing.
Proof.
  split; [reflexivity |].
  apply (X10_reset_twice env_end_fails (req_for "shop-1") world_pairing).
  reflexivity.
Defined.

(** X11. In [server.ts], when the transport calls do not fail: a reset
    repeated at once gives the same answer and changes nothing more (even
    if [fs.rmSync] keeps failing); a logout right after a logout or after a
    reset finds no session, says so with a 200, and changes nothing. *)
Theorem X11_serverts_cleanup_twice env req w :
  end_throws env = false →
  logout_throws env = false →
  let not_found := json 200 (Some false) (Some "Sessão não encontrada") in
  ServerTs.reset env req (ServerTs.reset env req w).2 =
    ServerTs.reset env req w ∧
  ServerTs.logout env req (ServerTs.logout env req w).2 =
    (Ok not_found, (ServerTs.logout env req w).2) ∧
  ServerTs.logout env req (ServerTs.reset env req w).2 =
    (Ok not_found, (ServerTs.reset env req w).2).
Proof.
  intros Hend Hlogout not_found. subst not_found.
  unfold ServerTs.reset, ServerTs.logout.
  destruct (Js.truthy (Js.or (query_instanceId req) (body_instanceId req)));
    simpl; [| repeat split; reflexivity].
  destruct (Js.or (query_instanceId req) (body_instanceId req)) as [id|];
    [| repeat split; reflexivity].
  run. rewrite Hend, Hlogout.
  destruct (sessions w !! id) as [h|] eqn:Hreg; simpl.
  - case_bool_decide as Hdir; simpl;
      destruct (rmSync_throws env); simpl;
      rewrite ?lookup_delete_eq; simpl;
      rewrite ?not_in_difference_self, ?(bool_decide_eq_true_2 _ Hdir),
        ?(bool_decide_eq_false_2 _ Hdir); simpl;
      rewrite ?lookup_delete_eq; repeat split; reflexivity.
  - rewrite ?Hreg. simpl.
    case_bool_decide as Hdir; simpl;
      destruct (rmSync_throws env); simpl;
      rewrite ?Hreg; simpl;
      rewrite ?not_in_difference_self, ?(bool_decide_eq_true_2 _ Hdir),
        ?(bool_decide_eq_false_2 _ Hdir); repeat split; reflexivity.
Qed.

Example X11_witness :
  end_throws env_quiet = false ∧
  logout_throws env_quiet = false ∧
  let not_found := json 200 (Some false) (Some "Sessão não encontrada") in
  ServerTs.reset env_quiet (req_for "shop-1")
    (ServerTs.reset env_quiet (req_for "shop-1") world_connected).2 =
    ServerTs.reset env_quiet (req_for "shop-1") world_connected ∧
  ServerTs.logout env_quiet (req_for "shop-1")
    (ServerTs.logout env_quiet (req_for "shop-1") world_connected).2 =
    (Ok not_found,
     (ServerTs.logout env_quiet (req_for "shop-1") world_connected).2) ∧
  ServerTs.logout env_quiet (req_for "shop-1")
    (ServerTs.reset env_quiet (req_for "shop-1") world_connected).2 =
    (Ok not_found,
     (ServerTs.reset env_quiet (req_for "shop-1") world_connected).2).
Proof.
  split; [reflexivity |]. split; [reflexivity |].
  apply (X11_serverts_cleanup_twice env_quiet (req_for "shop-1")
           world_connected); reflexivity.
Defined.

(** * Further properties: a reset during the reconnect delay *)

Lemma part001_live_unregistered w id :
  sessions w !! id = None → Part001.live w id = None.
Proof. intros Hreg. unfold Part001.live. now rewrite Hreg. Qed.

(** X12. In [part_001], a reset that arrives during the three seconds
    between a transient close and the reconnect does not cancel the
    reconnect. After the close the timer is armed; the reset then removes
    the registry entry, the pairing payload and the credential directory;
    when the timer fires nevertheless, [startSession] finds nothing
    registered, makes the directory again and parks; once it resumes the
    instance is registered again, on a new socket with nobody logged in. *)
Theorem X12_reconnect_outlives_reset env id h update w :
  id ≠ "" →
  sessions w !! id = Some h →
  connection update = Some ConnClose →
  statusCode update ≠ Some loggedOut →
  rmSync_throws env = false →
  let w1 := (Part001.on_connection_update env id update w).2 in
  let w2 := (Part001.reset env (req_for id) w1).2 in
  let r3 := Part001.timer_fires id w2 in
  let w4 := (Part001.startSession_resume id r3.2).2 in
  timers w1 = timers w ++ [id] ∧
  (sessions w2 !! id = None ∧ qrCodes w2 !! id = None ∧
   (id ∉ authDirs w2) ∧ timers w2 = timers w1) ∧
  (r3.1 = Ok Parked ∧ (id ∈ authDirs r3.2)) ∧
  (sessions w4 !! id = Some (List.length (socks w)) ∧
   socks w4 = socks w ++ [fresh_sock id] ∧
   identity w4 id = None ∧ (id ∈ authDirs w4)).
Proof.
  intros Hne Hreg Hclose Hcode Hrm w1 w2 r3 w4.
  assert (Js.truthy (Some id) = true) as Htruthy
    by (apply truthy_present; exists id; auto).
  (* after the close *)
  assert (socks w1 = socks w ∧ sessions w1 = sessions w ∧
          timers w1 = timers w ++ [id]) as (Hs1 & Hr1 & Ht1).
  { subst w1. unfold Part001.on_connection_update. rewrite Hclose.
    destruct (note_qr_frame id update w)
      as (w0 & Hnote & Hs0 & Hr0 & _ & _ & Ht0 & _).
    rewrite (bind_Ok _ _ _ _ _ Hnote).
    rewrite (bool_decide_eq_false_2 _ Hcode). run. simpl.
    rewrite Hs0, Hr0, Ht0. repeat split. }
  clearbody w1.
  (* after the reset *)
  assert (socks w2 = socks w1 ∧ sessions w2 = delete id (sessions w1) ∧
          qrCodes w2 !! id = None ∧ (id ∉ authDirs w2) ∧
          timers w2 = timers w1) as (Hs2 & Hr2 & Hq2 & Hd2 & Ht2).
  { subst w2. unfold Part001.reset.
    change (query_instanceId (req_for id)) with (Some id).
    assert (sessions w1 !! id = Some h) as Hreg1 by now rewrite Hr1.
    rewrite Htruthy. cbn [negb]. run. rewrite Hreg1, Hrm.
    destruct (end_throws env); simpl;
      (case_bool_decide as Hdir; simpl;
       (split; [reflexivity |]; split; [reflexivity |];
        split; [apply lookup_delete_eq |]; split; [| reflexivity]));
      try exact Hdir;
      (intros Hin; apply elem_of_difference in Hin as [_ Hin]; apply Hin;
       now apply elem_of_singleton). }
  clearbody w2.
  assert (sessions w2 !! id = None) as Hgone
    by (rewrite Hr2; apply lookup_delete_eq).
  (* the timer fires *)
  assert (r3.1 = Ok Parked ∧ socks r3.2 = socks w2 ∧
          sessions r3.2 = sessions w2 ∧ (id ∈ authDirs r3.2))
    as (Hp3 & Hs3 & Hr3 & Hd3).
  { subst r3. unfold Part001.timer_fires.
    rewrite bind_Ok with (a := tt) (w1 := set_timers (remove_first id) w2)
      by reflexivity.
    unfold Part001.startSession_enter. run.
    rewrite part001_live_unregistered by exact Hgone.
    simpl. rewrite (bool_decide_eq_false_2 _ Hd2). simpl.
    repeat split. apply elem_of_union. left. now apply elem_of_singleton. }
  clearbody r3.
  (* the parked start resumes *)
  assert (socks w4 = socks r3.2 ++ [fresh_sock id] ∧
          sessions w4 = <[id := List.length (socks r3.2)]> (sessions r3.2) ∧
          authDirs w4 = authDirs r3.2) as (Hs4 & Hr4 & Hd4)
    by (subst w4; repeat split).
  clearbody w4.
  assert (List.length (socks r3.2) = List.length (socks w)) as Hlen
    by now rewrite Hs3, Hs2, Hs1.
  split; [exact Ht1 |]. split; [auto |]. split; [auto |].
  split; [rewrite Hr4, Hlen; apply lookup_insert_eq |].
  split; [rewrite Hs4, Hs3, Hs2, Hs1; reflexivity |].
  split; [| rewrite Hd4; exact Hd3].
  unfold identity. rewrite Hr4, lookup_insert_eq. simpl.
  rewrite Hs4, lookup_app_r by reflexivity.
  now rewrite Nat.sub_diag.
Qed.

Example X12_witness :
  "shop-1" ≠ "" ∧
  sessions world_connected !! "shop-1" = Some 0 ∧
  connection close_timed_out = Some ConnClose ∧
  statusCode close_timed_out ≠ Some loggedOut ∧
  rmSync_throws env_quiet = false ∧
  let w1 := (Part001.on_connection_update env_quiet "shop-1" close_timed_out
               world_connected).2 in
  let w2 := (Part001.reset env_quiet (req_for "shop-1") w1).2 in
  let r3 := Part001.timer_fires "shop-1" w2 in
  let w4 := (Part001.startSession_resume "shop-1" r3.2).2 in
  timers w1 = timers world_connected ++ ["shop-1"] ∧
  (sessions w2 !! "shop-1" = None ∧ qrCodes w2 !! "shop-1" = None ∧
   ("shop-1" ∉ authDirs w2) ∧ timers w2 = timers w1) ∧
  (r3.1 = Ok Parked ∧ ("shop-1" ∈ authDirs r3.2)) ∧
  (sessions w4 !! "shop-1" = Some (List.length (socks world_connected)) ∧
   socks w4 = socks world_connected ++ [fresh_sock "shop-1"] ∧
   identity w4 "shop-1" = None ∧ ("shop-1" ∈ authDirs w4)).
Proof.
  split; [discriminate |]. split; [reflexivity |]. split; [reflexivity |].
  split; [discriminate |]. split; [reflexivity |].
  apply (X12_reconnect_outlives_reset env_quiet "shop-1" 0 close_timed_out
           world_connected); (discriminate || reflexivity).
Defined.

(** * Further properties: what a batch leaves at the webhook *)

(** On a key that has its [remoteJid] the listeners on wire messages are
    the listeners of the earlier sections. *)
Lemma wire_upsert_one_agrees env instanceId h m msg w :
  message_of m = Some msg →
  ServerTsWire.upsert_one env instanceId h m w
    = ServerTs.upsert_one env instanceId h msg w ∧
  Part001Wire.upsert_one env instanceId h m w
    = Part001.upsert_one env instanceId h msg w ∧
  Part000Wire.upsert_one env instanceId h m w
    = Part000.upsert_one env instanceId h msg w.
Proof.
  unfold message_of. destruct m as [[own mid [remote|] part] content];
    simpl; [| discriminate].
  intros [= <-]. repeat split.
Qed.

Lemma set_posts_nil w : set_posts (λ l, l ++ []) w = w.
Proof. destruct w. unfold set_posts. simpl. now rewrite app_nil_r. Qed.

(** A loop whose body appends [mk x] to the posts for the selected [x],
    and does nothing else, appends them all in order. *)
Lemma for_of_posts {A} (xs : list A) (body : A → M unit)
    (sel : A → bool) (mk : A → Payload) w :
  (∀ x P, body x (set_posts (λ l, l ++ P) w) =
          (Ok tt, set_posts (λ l, l ++ P ++ (if sel x then [mk x] else [])) w)) →
  for_of xs body w =
  (Ok tt, set_posts (λ l, l ++ map mk (List.filter sel xs)) w).
Proof.
  intros Hbody.
  assert (∀ P, for_of xs body (set_posts (λ l, l ++ P) w) =
               (Ok tt, set_posts (λ l, l ++ P ++ map mk (List.filter sel xs)) w))
    as Hloop.
  { induction xs as [|x xs IH]; intros P; simpl.
    - unfold ret. now rewrite app_nil_r.
    - unfold bind. rewrite Hbody, IH.
      destruct (sel x); simpl; now rewrite <- app_assoc. }
  specialize (Hloop []). now rewrite set_posts_nil in Hloop.
Qed.

(** The same for a body that throws on a selected [x] that is not [ok],
    and posts only for those with [txt]: the loop stops at the first
    selected element that is not [ok]. *)
Lemma for_of_posts_gap {A} (xs : list A) (body : A → M unit)
    (sel ok txt : A → bool) (mk : A → Payload) (R : A → Payload → Prop) w :
  (∀ x P, body x (set_posts (λ l, l ++ P) w) =
     if sel x then
       if ok x
       then (Ok tt, set_posts (λ l, l ++ P ++ (if txt x then [mk x] else [])) w)
       else (Threw, set_posts (λ l, l ++ P) w)
     else (Ok tt, set_posts (λ l, l ++ P) w)) →
  (∀ x, ok x = true → R x (mk x)) →
  ∃ P, for_of xs body w =
         (if forallb ok (List.filter sel xs) then Ok tt else Threw,
          set_posts (λ l, l ++ P) w) ∧
       Forall2 R (List.filter txt (upto ok (List.filter sel xs))) P.
Proof.
  intros Hbody HR.
  assert (∀ P0, ∃ P,
            for_of xs body (set_posts (λ l, l ++ P0) w) =
              (if forallb ok (List.filter sel xs) then Ok tt else Threw,
               set_posts (λ l, l ++ P0 ++ P) w) ∧
            Forall2 R (List.filter txt (upto ok (List.filter sel xs))) P)
    as Hloop.
  { induction xs as [|x xs IH]; intros P0; simpl.
    - exists []. split; [unfold ret; now rewrite app_nil_r | constructor].
    - unfold bind. rewrite Hbody.
      destruct (sel x) eqn:Hsel; simpl.
      + destruct (ok x) eqn:Hok; simpl.
        * destruct (IH (P0 ++ (if txt x then [mk x] else []))) as (P & Hrun & Hall).
          rewrite Hrun. destruct (txt x); simpl.
          -- exists (mk x :: P). split.
             ++ now rewrite <- app_assoc.
             ++ constructor; [now apply HR | exact Hall].
          -- exists P. split; [now rewrite app_nil_r | exact Hall].
        * exists []. split; [now rewrite app_nil_r | constructor].
      + destruct (IH P0) as (P & Hrun & Hall). rewrite Hrun. eauto. }
  destruct (Hloop []) as (P & Hrun & Hall).
  rewrite set_posts_nil in Hrun. simpl in Hrun. eauto.
Qed.

Lemma filter_none {A} (xs : list A) : List.filter (λ _, false) xs = [].
Proof. induction xs; auto. Qed.

Lemma filter_all {A} (xs : list A) : List.filter (λ _, true) xs = xs.
Proof. induction xs as [|x xs IH]; simpl; [| rewrite IH]; reflexivity. Qed.

Lemma Forall2_map_of {A B} (R : A → B → Prop) (f : A → B) (xs : list A) :
  (∀ x, R x (f x)) → Forall2 R xs (map f xs).
Proof. intros HR. induction xs; simpl; constructor; auto. Qed.

Lemma relayed_filter env type messages :
  relayed env type messages =
  List.filter (λ m, match type with
                    | Notify => negb (wire_fromMe (wire_key m))
                                && Js.truthy (WEBHOOK_URL env)
                    | Append => false
                    end) messages.
Proof.
  unfold relayed. destruct type; [| now rewrite filter_none].
  destruct (Js.truthy (WEBHOOK_URL env)).
  - apply filter_ext. intros m. now rewrite andb_true_r.
  - rewrite <- (filter_none messages) at 1. apply filter_ext.
    intros m. now rewrite andb_false_r.
Qed.

(** X13. What one [messages.upsert] event leaves behind, in each revision
    and whether or not the webhook answers. Relayed are the messages of a
    ['notify'] batch sent by somebody else, when a webhook is configured.
    The listener changes nothing but the list of posts, to which it
    appends one payload per relayed message, in the order of the batch;
    each payload names the listener's instance, the phone of the listener's
    socket as it was when the event arrived, and the text of its message.
    [part_001] relays them all and returns normally. [server.ts] and
    [part_000] read [key.remoteJid] outside their [try]: they relay the
    messages before the first relayed one whose key has no [remoteJid],
    throw at that one, and relay nothing after it; they return normally
    exactly when every relayed key has its [remoteJid]. [server.ts] adds
    the message id and the part of the address before ['@']; [part_000]
    relays only the messages that carry text and adds the address as it
    came. *)
Theorem X13_webhook_batch env instanceId h messages type w :
  let sent := relayed env type messages in
  let outcome := if forallb addressed sent then Ok tt else Threw in
  (∃ P, ServerTsWire.on_messages_upsert env instanceId h messages type w =
          (outcome, set_posts (λ l, l ++ P) w) ∧
        Forall2 (λ m p, reports instanceId h w m p ∧
                        p_messageId p = wire_id (wire_key m) ∧
                        ∃ r s, wire_remoteJid (wire_key m) = Some r ∧
                               p_sender p = Some s ∧
                               part_before Js.at_sign r s)
                (upto addressed sent) P) ∧
  (∃ P, Part001Wire.on_messages_upsert env instanceId h messages type w =
          (Ok tt, set_posts (λ l, l ++ P) w) ∧
        Forall2 (reports instanceId h w) sent P) ∧
  (∃ P, Part000Wire.on_messages_upsert env instanceId h messages type w =
          (outcome, set_posts (λ l, l ++ P) w) ∧
        Forall2 (λ m p, reports instanceId h w m p ∧
                        p_rawId p = wire_remoteJid (wire_key m))
                (with_text (upto addressed sent)) P).
Proof.
  intros sent outcome. subst sent outcome. destruct type.
  2: { simpl. repeat split; exists []; (split; [| constructor]);
       unfold ret; now rewrite set_posts_nil. }
  rewrite relayed_filter. split; [| split].
  - destruct (for_of_posts_gap messages
                (ServerTsWire.upsert_one env instanceId h)
                (λ m, negb (wire_fromMe (wire_key m))
                      && Js.truthy (WEBHOOK_URL env))
                addressed (λ _, true)
                (λ m, {| p_event := "webhookReceived";
                         p_instanceId := instanceId;
                         p_connectedPhone := connectedPhone h w;
                         p_messageId := wire_id (wire_key m);
                         p_sender := Some (Js.split_head Js.at_sign
                                             (default "" (wire_remoteJid
                                                            (wire_key m))));
                         p_rawId := None;
                         p_msgContent := text_of m |})
                (λ m p, reports instanceId h w m p ∧
                        p_messageId p = wire_id (wire_key m) ∧
                        ∃ r s, wire_remoteJid (wire_key m) = Some r ∧
                               p_sender p = Some s ∧
                               part_before Js.at_sign r s) w)
      as (P & Hrun & Hall).
    + intros m P. cbv beta. unfold ServerTsWire.upsert_one, addressed.
      destruct (negb (wire_fromMe (wire_key m))
                && Js.truthy (WEBHOOK_URL env)); [| reflexivity].
      run. destruct (wire_remoteJid (wire_key m)) as [r|]; [| reflexivity].
      simpl. destruct (post_fails env _); simpl;
        unfold set_posts; simpl; now rewrite app_assoc.
    + intros m Hok. unfold addressed in Hok.
      destruct (wire_remoteJid (wire_key m)) as [r|] eqn:Hr; [| discriminate].
      split; [repeat split |]. split; [reflexivity |].
      exists r. eexists. split; [reflexivity |].
      split; [reflexivity | apply split_head_spec].
    + rewrite filter_all in Hall. exists P. split; [exact Hrun | exact Hall].
  - eexists. split.
    + apply for_of_posts with
        (sel := λ m, negb (wire_fromMe (wire_key m))
                     && Js.truthy (WEBHOOK_URL env))
        (mk := λ m, {| p_event := "webhookReceived";
                       p_instanceId := instanceId;
                       p_connectedPhone := connectedPhone h w;
                       p_messageId := None;
                       p_sender := None;
                       p_rawId := None;
                       p_msgContent := text_of m |}).
      intros m P. cbv beta iota. unfold Part001Wire.upsert_one.
      destruct (negb (wire_fromMe (wire_key m))
                && Js.truthy (WEBHOOK_URL env));
        [| unfold ret; now rewrite app_nil_r].
      run. simpl. destruct (post_fails env _); simpl;
        unfold set_posts; simpl; now rewrite app_assoc.
    + apply Forall2_map_of. intros m. repeat split.
  - destruct (for_of_posts_gap messages
                (Part000Wire.upsert_one env instanceId h)
                (λ m, negb (wire_fromMe (wire_key m))
                      && Js.truthy (WEBHOOK_URL env))
                addressed (λ m, Js.truthy (text_of m))
                (λ m, {| p_event := "webhookReceived";
                         p_instanceId := instanceId;
                         p_connectedPhone := connectedPhone h w;
                         p_messageId := None;
                         p_sender :=
                           Some (Part000.senderNumber
                                   (key_with (wire_key m)
                                      (default "" (wire_remoteJid
                                                     (wire_key m)))));
                         p_rawId := wire_remoteJid (wire_key m);
                         p_msgContent := text_of m |})
                (λ m p, reports instanceId h w m p ∧
                        p_rawId p = wire_remoteJid (wire_key m)) w)
      as (P & Hrun & Hall).
    + intros m P. cbv beta. unfold Part000Wire.upsert_one, addressed.
      destruct (negb (wire_fromMe (wire_key m))
                && Js.truthy (WEBHOOK_URL env)); [| reflexivity].
      destruct (wire_remoteJid (wire_key m)) as [r|]; [| reflexivity].
      run. simpl.
      destruct (Js.truthy (text_of m)); simpl;
        [| now rewrite app_nil_r].
      destruct (post_fails env _); simpl;
        unfold set_posts; simpl; now rewrite app_assoc.
    + intros m _. repeat split.
    + exists P. split; [exact Hrun | exact Hall].
Qed.

(** The batch whose second key has no [remoteJid], on [server.ts]: the
    first message is posted, the listener throws at the second, the third
    is never relayed. [part_001] relays all three. *)
Example batch_with_gap_aborts :
  let rs := ServerTsWire.on_messages_upsert env_quiet "shop-1" 0
              batch_with_gap Notify world_connected in
  let rp := Part001Wire.on_messages_upsert env_quiet "shop-1" 0
              batch_with_gap Notify world_connected in
  rs.1 = Threw ∧
  p_msgContent <$> posts rs.2 = [Some "Oi"] ∧
  rp.1 = Ok tt ∧
  p_msgContent <$> posts rp.2
    = [Some "Oi"; Some "Tudo bem?"; Some "Quero marcar"].
Proof. repeat split. Qed.

(** * Further properties: whose socket a route commands *)

Lemma issued_nothing w w' v : commands w' = commands w → issued_for w w' v.
Proof.
  intros Hsame. exists []. split; [now rewrite app_nil_r |].
  intros h c Hin. now apply not_elem_of_nil in Hin.
Qed.

Lemma issued_one w w' t h c :
  registry_sound w → sessions w !! t = Some h →
  commands w' = commands w ++ [(h, c)] → issued_for w w' (Some t).
Proof.
  intros Hsound Hreg Hlog. exists [(h, c)]. split; [exact Hlog |].
  intros h' c' Hin. apply list_elem_of_singleton in Hin.
  injection Hin as -> ->.
  destruct (Hsound t h Hreg) as (s & Hs & Howner).
  exists s. split; [exact Hs | now rewrite Howner].
Qed.

Lemma serverts_send_text_issued env req w :
  registry_sound w →
  issued_for w (ServerTs.send_text env req w).2
    (Js.or (body_instanceId req) (query_instanceId req)).
Proof.
  intros Hsound. unfold ServerTs.send_text.
  destruct (Js.truthy (Js.or (body_instanceId req) (query_instanceId req)));
    simpl; [| now apply issued_nothing].
  destruct (Js.or (body_instanceId req) (query_instanceId req)) as [t|];
    [| now apply issued_nothing].
  run. destruct (sessions w !! t) as [h|] eqn:Hreg;
    [| now apply issued_nothing].
  destruct (socks w !! h ≫= user); [| now apply issued_nothing].
  destruct (body_phone req) as [phone|]; [| now apply issued_nothing].
  eapply issued_one; [exact Hsound | exact Hreg |].
  destruct (sendMessage_result env) as [|[mid|]]; reflexivity.
Qed.

Lemma part001_send_text_issued env req w :
  registry_sound w →
  issued_for w (Part001.send_text env req w).2
    (Js.or (body_instanceId req) (query_instanceId req)).
Proof.
  intros Hsound. unfold Part001.send_text.
  destruct (Js.truthy (Js.or (body_instanceId req) (query_instanceId req)));
    simpl; [| now apply issued_nothing].
  destruct (Js.or (body_instanceId req) (query_instanceId req)) as [t|];
    [| now apply issued_nothing].
  run. destruct (sessions w !! t) as [h|] eqn:Hreg;
    [| now apply issued_nothing].
  destruct (body_phone req) as [phone|]; [| now apply issued_nothing].
  eapply issued_one; [exact Hsound | exact Hreg |].
  destruct (sendMessage_result env) as [|[mid|]]; reflexivity.
Qed.

Lemma serverts_logout_issued env req w :
  registry_sound w →
  issued_for w (ServerTs.logout env req w).2
    (Js.or (query_instanceId req) (body_instanceId req)).
Proof.
  intros Hsound. unfold ServerTs.logout.
  destruct (Js.truthy (Js.or (query_instanceId req) (body_instanceId req)));
    simpl; [| now apply issued_nothing].
  destruct (Js.or (query_instanceId req) (body_instanceId req)) as [t|];
    [| now apply issued_nothing].
  run. destruct (sessions w !! t) as [h|] eqn:Hreg;
    [| now apply issued_nothing].
  eapply issued_one; [exact Hsound | exact Hreg |].
  destruct (logout_throws env); simpl; [reflexivity |].
  destruct (rmSync_throws env); reflexivity.
Qed.

Lemma serverts_reset_issued env req w :
  registry_sound w →
  issued_for w (ServerTs.reset env req w).2
    (Js.or (query_instanceId req) (body_instanceId req)).
Proof.
  intros Hsound. unfold ServerTs.reset.
  destruct (Js.truthy (Js.or (query_instanceId req) (body_instanceId req)));
    simpl; [| now apply issued_nothing].
  destruct (Js.or (query_instanceId req) (body_instanceId req)) as [t|];
    [| now apply issued_nothing].
  run. destruct (sessions w !! t) as [h|] eqn:Hreg.
  - eapply issued_one; [exact Hsound | exact Hreg |].
    destruct (end_throws env); simpl; [reflexivity |].
    case_bool_decide; simpl; [| reflexivity].
    destruct (rmSync_throws env); reflexivity.
  - apply issued_nothing. simpl.
    case_bool_decide; simpl; [| reflexivity].
    destruct (rmSync_throws env); reflexivity.
Qed.

Lemma part001_reset_issued env req w :
  registry_sound w →
  issued_for w (Part001.reset env req w).2 (query_instanceId req).
Proof.
  intros Hsound. unfold Part001.reset.
  destruct (Js.truthy (query_instanceId req));
    simpl; [| now apply issued_nothing].
  destruct (query_instanceId req) as [t|]; [| now apply issued_nothing].
  run. destruct (sessions w !! t) as [h|] eqn:Hreg.
  - eapply issued_one; [exact Hsound | exact Hreg |].
    destruct (end_throws env); simpl;
      (case_bool_decide; simpl; [| reflexivity]);
      destruct (rmSync_throws env); reflexivity.
  - apply issued_nothing. simpl.
    case_bool_decide; simpl; [| reflexivity].
    destruct (rmSync_throws env); reflexivity.
Qed.

(** X14. Routes command only the named instance's own socket. At every
    state that a run of [server.ts] or of [part_001] reaches from the empty
    state, whatever a send-text, logout or reset request adds to the
    command log goes to a socket that [startSession] made for the instance
    the request names: the body's [instanceId] before the query's for
    send-text, the query's before the body's for logout and reset in
    [server.ts], the query's alone for reset in [part_001]. *)
Theorem X14_routes_command_own_socket env events_s events_p req :
  run_permitted (serverts_exec env) events_s empty_world = true →
  run_permitted (part001_exec env) events_p empty_world = true →
  let ws := run_events (serverts_exec env) events_s empty_world in
  let wp := run_events (part001_exec env) events_p empty_world in
  let by_body := Js.or (body_instanceId req) (query_instanceId req) in
  let by_query := Js.or (query_instanceId req) (body_instanceId req) in
  issued_for ws (ServerTs.send_text env req ws).2 by_body ∧
  issued_for ws (ServerTs.logout env req ws).2 by_query ∧
  issued_for ws (ServerTs.reset env req ws).2 by_query ∧
  issued_for wp (Part001.send_text env req wp).2 by_body ∧
  issued_for wp (Part001.reset env req wp).2 (query_instanceId req).
Proof.
  intros Hs Hp ws wp by_body by_query.
  assert (registry_sound ws) as Hws.
  { apply (run_events_invariant registry_sound (serverts_exec env) events_s);
      auto using registry_sound_initial, serverts_exec_sound. }
  assert (registry_sound wp) as Hwp.
  { apply (run_events_invariant registry_sound (part001_exec env) events_p);
      auto using registry_sound_initial, part001_exec_sound. }
  split; [now apply serverts_send_text_issued |].
  split; [now apply serverts_logout_issued |].
  split; [now apply serverts_reset_issued |].
  split; [now apply part001_send_text_issued |].
  now apply part001_reset_issued.
Qed.

Example X14_witness :
  run_permitted (serverts_exec env_quiet) pairing_run empty_world = true ∧
  run_permitted (part001_exec env_quiet) pairing_run empty_world = true ∧
  let ws := run_events (serverts_exec env_quiet) pairing_run empty_world in
  let wp := run_events (part001_exec env_quiet) pairing_run empty_world in
  let by_body := Js.or (body_instanceId req_send) (query_instanceId req_send) in
  let by_query := Js.or (query_instanceId req_send) (body_instanceId req_send) in
  issued_for ws (ServerTs.send_text env_quiet req_send ws).2 by_body ∧
  issued_for ws (ServerTs.logout env_quiet req_send ws).2 by_query ∧
  issued_for ws (ServerTs.reset env_quiet req_send ws).2 by_query ∧
  issued_for wp (Part001.send_text env_quiet req_send wp).2 by_body ∧
  issued_for wp (Part001.reset env_quiet req_send wp).2
    (query_instanceId req_send).
Proof.
  split; [reflexivity |]. split; [reflexivity |].
  apply (X14_routes_command_own_socket env_quiet pairing_run pairing_run
           req_send); reflexivity.
Defined.

(** * Further properties: the single-instance prototype *)

Lemma single_send_text_frame env req s :
  let s' := (Part000Single.send_text env req s).2 in
  Part000Single.sock s' = Part000Single.sock s ∧
  Part000Single.qrCodeData s' = Part000Single.qrCodeData s ∧
  Part000Single.connectionStatus s' = Part000Single.connectionStatus s ∧
  Part000Single.made s' = Part000Single.made s ∧
  Part000Single.connecting s' = Part000Single.connecting s.
Proof.
  cbv zeta. unfold Part000Single.send_text.
  destruct (negb (Js.truthy (body_phone req))
            || negb (Js.truthy (body_message req))); [repeat split |].
  destruct (Part000Single.connectionStatus s) eqn:Hst;
    try (repeat split; simpl; congruence).
  destruct (body_phone req), (Part000Single.sock s) eqn:Hsock;
    try (repeat split; simpl; congruence).
  destruct (sendMessage_result env) as [|[mid|]];
    repeat split; simpl; congruence.
Qed.

Lemma single_update_consistent update s :
  single_consistent s → 0 < Part000Single.made s →
  single_consistent (Part000Single.on_connection_update update s).
Proof.
  intros (Hsock & Hconn & Hready) Hmade.
  unfold Part000Single.on_connection_update.
  destruct (qr update) as [q|]; [destruct (Js.truthy (Some q)) eqn:Hq |];
    (destruct (connection update) as [[| |]|];
     [ destruct (negb (bool_decide (statusCode update = Some loggedOut))) | ..]);
    unfold single_consistent; simpl;
    (split; [exact Hsock |]); (split; intros Hst);
    try discriminate Hst; auto;
    now apply truthy_present.
Qed.

Lemma single_exec_consistent env t s :
  single_consistent s → Part000Single.permitted s t = true →
  single_consistent (Part000Single.exec env t s).
Proof.
  intros Hinv Hperm. destruct t as [update| |req]; simpl in *.
  - apply single_update_consistent; [exact Hinv |].
    now apply Nat.ltb_lt in Hperm.
  - destruct Hinv as (Hsock & Hconn & Hready).
    unfold Part000Single.connectToWhatsApp_resume.
    destruct (Part000Single.connecting s); [now repeat split |].
    unfold single_consistent. simpl. split; [eauto |].
    split; [| exact Hready].
    intros Hst. split; [lia | now apply Hconn].
  - destruct (single_send_text_frame env req s) as (Hs & Hq & Hst & Hm & _).
    destruct Hinv as (Hsock & Hconn & Hready).
    unfold single_consistent. rewrite Hs, Hq, Hst, Hm. auto.
Qed.

Lemma single_run_consistent env turns s :
  single_consistent s → Part000Single.run_permitted env turns s = true →
  single_consistent (Part000Single.run env turns s).
Proof.
  revert s. induction turns as [|t rest IH]; intros s Hinv Hperm; simpl in *.
  - exact Hinv.
  - apply andb_true_iff in Hperm as [Ht Hrest].
    apply IH; [now apply single_exec_consistent | exact Hrest].
Qed.

Lemma single_consistent_at_load : single_consistent Part000Single.at_load.
Proof.
  unfold single_consistent. simpl.
  split; [lia |]. split; discriminate.
Qed.

(** X15. The prototype's status and pairing payload stay in step. At every
    state that a run reaches after the module was loaded (updates from
    sockets that were made, parked connects resuming, send-text requests,
    in any order): while the status is [connected] there is no pairing
    payload and [sock] is assigned; while it is [qrcode_ready] the QR route
    answers 200 with the image of the stored payload, which is not empty;
    and the QR route answers 404 only while the status is [disconnected],
    when the status route reports [connected: false]. *)
Theorem X15_single_status_and_pairing env turns toDataURL :
  Part000Single.run_permitted env turns Part000Single.at_load = true →
  let s := Part000Single.run env turns Part000Single.at_load in
  let answer := Part000Single.qr_code toDataURL s in
  (Part000Single.connectionStatus s = Part000Single.connected →
     Part000Single.qrCodeData s = None ∧ is_Some (Part000Single.sock s)) ∧
  (Part000Single.connectionStatus s = Part000Single.qrcode_ready →
     ∃ q, q ≠ "" ∧ Part000Single.qrCodeData s = Some q ∧
          a_status answer = 200 ∧ a_qrcode answer = Some (toDataURL q)) ∧
  (a_status answer = 404 →
     Part000Single.connectionStatus s = Part000Single.disconnected ∧
     a_connected (Part000Single.status_instance s) = Some false).
Proof.
  intros Hperm s answer.
  destruct (single_run_consistent env turns Part000Single.at_load
              single_consistent_at_load Hperm) as (Hsock & Hconn & Hready).
  fold s in Hsock, Hconn, Hready. subst answer. clearbody s.
  split; [| split].
  - intros Hst. destruct (Hconn Hst) as [Hmade Hq]. auto.
  - intros Hst. destruct (Hready Hst) as (q & Hq & Hne).
    exists q. split; [exact Hne |]. split; [exact Hq |].
    unfold Part000Single.qr_code. rewrite Hst, Hq.
    assert (Js.truthy (Some q) = true) as ->
      by (apply truthy_present; exists q; auto).
    split; reflexivity.
  - unfold Part000Single.qr_code, Part000Single.status_instance.
    destruct (Part000Single.connectionStatus s) eqn:Hst.
    + auto.
    + destruct (Hready eq_refl) as (q & Hq & Hne). rewrite Hq.
      assert (Js.truthy (Some q) = true) as ->
        by (apply truthy_present; exists q; auto).
      discriminate.
    + discriminate.
Qed.

Example X15_witness :
  Part000Single.run_permitted env_quiet single_run Part000Single.at_load
    = true ∧
  let s := Part000Single.run env_quiet single_run Part000Single.at_load in
  let answer := Part000Single.qr_code data_url s in
  (Part000Single.connectionStatus s = Part000Single.connected →
     Part000Single.qrCodeData s = None ∧ is_Some (Part000Single.sock s)) ∧
  (Part000Single.connectionStatus s = Part000Single.qrcode_ready →
     ∃ q, q ≠ "" ∧ Part000Single.qrCodeData s = Some q ∧
          a_status answer = 200 ∧ a_qrcode answer = Some (data_url q)) ∧
  (a_status answer = 404 →
     Part000Single.connectionStatus s = Part000Single.disconnected ∧
     a_connected (Part000Single.status_instance s) = Some false).
Proof.
  split; [reflexivity |].
  apply (X15_single_status_and_pairing env_quiet single_run data_url).
  reflexivity.
Defined.

(** A pairing payload outlives a close: after a transient close the status
    is [disconnected], and the QR route still hands out the payload that
    was stored before. *)
Example single_stale_payload :
  let s := Part000Single.run env_quiet
             [ Part000Single.Resumed;
               Part000Single.Updated
                 {| connection := None; statusCode := None;
                    qr := Some "2@qrpayload" |};
               Part000Single.Updated close_timed_out ]
             Part000Single.at_load in
  Part000Single.connectionStatus s = Part000Single.disconnected ∧
  a_qrcode (Part000Single.qr_code data_url s) = Some (data_url "2@qrpayload") ∧
  Part000Single.connecting s = 1.
Proof. repeat split. Qed.



(** * Further properties: the HTML route of the later revisions *)

Lemma part001_enter_returns id w :
  ∃ st, (Part001.startSession_enter id w).1 = Ok st.
Proof.
  unfold Part001.startSession_enter. run.
  destruct (Part001.live w id); [eauto |].
  simpl. case_bool_decide; simpl; eauto.
Qed.

Lemma part000_enter_returns id w :
  ∃ st, (Part000.startSession_enter id w).1 = Ok st.
Proof.
  unfold Part000.startSession_enter. run.
  destruct (Part000.reserved id); [eauto |].
  destruct (Part000.live w id); [eauto |].
  simpl. case_bool_decide; simpl; eauto.
Qed.

(** X17. In [part_001] and in [part_000] the HTML route [/connect] follows
    the JSON QR-code route step for step, for every request: both read the
    instance from the query string only, their first halves leave the same
    state and either give the same verdict or wait for the same instance,
    and their second halves give the same verdict (connected, not ready, or
    the same image) without changing the state. *)
Theorem X17_later_connect_mirrors_qr_code toDataURL req id w :
  ((Part001Api.connect_begin req w).2 = (Part001Api.qr_code_begin req w).2 ∧
   pending_same (Part001Api.connect_begin req w).1
                (Part001Api.qr_code_begin req w).1 ∧
   (Part001Api.connect_finish toDataURL id w).2 = w ∧
   outcome_verdict page_verdict (Part001Api.connect_finish toDataURL id w).1 =
   outcome_verdict answer_verdict (Part001Api.qr_code_finish toDataURL id w).1) ∧
  ((Part000Api.connect_begin req w).2 = (Part000Api.qr_code_begin req w).2 ∧
   pending_same (Part000Api.connect_begin req w).1
                (Part000Api.qr_code_begin req w).1 ∧
   (Part000Api.connect_finish toDataURL id w).2 = w ∧
   outcome_verdict page_verdict (Part000Api.connect_finish toDataURL id w).1 =
   outcome_verdict answer_verdict (Part000Api.qr_code_finish toDataURL id w).1).
Proof.
  split.
  - split; [| split; [| split]].
    + unfold Part001Api.connect_begin, Part001Api.qr_code_begin.
      destruct (Js.truthy (query_instanceId req)); simpl; [| reflexivity].
      destruct (query_instanceId req) as [t|]; [| reflexivity].
      run. destruct (sessions w !! t); [reflexivity |].
      destruct (Part001.startSession_enter t w) as [[st|] w1]; reflexivity.
    + unfold Part001Api.connect_begin, Part001Api.qr_code_begin.
      destruct (Js.truthy (query_instanceId req)); simpl; [| reflexivity].
      destruct (query_instanceId req) as [t|]; [| reflexivity].
      run. destruct (sessions w !! t); [reflexivity |].
      destruct (part001_enter_returns t w) as (st & Hok).
      destruct (Part001.startSession_enter t w) as [o w1].
      simpl in Hok. subst o. reflexivity.
    + unfold Part001Api.connect_finish. run.
      destruct (identity w id); [reflexivity |].
      destruct (qrCodes w !! id) as [q|]; [| reflexivity].
      destruct (Js.truthy (Some q)); reflexivity.
    + unfold Part001Api.connect_finish, Part001Api.qr_code_finish. run.
      destruct (identity w id); [reflexivity |].
      destruct (qrCodes w !! id) as [q|]; [| reflexivity].
      destruct (Js.truthy (Some q)); reflexivity.
  - split; [| split; [| split]].
    + unfold Part000Api.connect_begin, Part000Api.qr_code_begin.
      destruct (Js.truthy (query_instanceId req)); simpl; [| reflexivity].
      destruct (query_instanceId req) as [t|]; [| reflexivity].
      run. destruct (sessions w !! t); [reflexivity |].
      destruct (Part000.startSession_enter t w) as [[st|] w1]; reflexivity.
    + unfold Part000Api.connect_begin, Part000Api.qr_code_begin.
      destruct (Js.truthy (query_instanceId req)); simpl; [| reflexivity].
      destruct (query_instanceId req) as [t|]; [| reflexivity].
      run. destruct (sessions w !! t); [reflexivity |].
      destruct (part000_enter_returns t w) as (st & Hok).
      destruct (Part000.startSession_enter t w) as [o w1].
      simpl in Hok. subst o. reflexivity.
    + unfold Part000Api.connect_finish. run.
      destruct (identity w id); [reflexivity |].
      destruct (qrCodes w !! id) as [q|]; [| reflexivity].
      destruct (Js.truthy (Some q)); reflexivity.
    + unfold Part000Api.connect_finish, Part000Api.qr_code_finish. run.
      destruct (identity w id); [reflexivity |].
      destruct (qrCodes w !! id) as [q|]; [| reflexivity].
      destruct (Js.truthy (Some q)); reflexivity.
Qed.
